(** * lalasClase.py: a client of the Lalals music-generation HTTP API

    A shallow embedding of [GenerateAudioResponse], [Configuration] and
    [LalasAPI] from [lalasClase.py], with the part of the Python runtime the
    code calls into (decoded JSON values, [str]/[repr], [json.dump],
    [response.json()], the file system, the process environment, the clock,
    standard output and the [requests] calls), followed by the properties
    of the client.

    Conventions.
    - A Python [str] is a [string]; every [ascii] stands for the code point
      of the same number (0..255).  Files hold text: the UTF-8 codec and
      newline translation of [open] are not modelled.
    - JSON numbers are integers ([Z]); floating point is not modelled.
      [Json.loads] is [json.loads] on the texts it reads; a text it does
      not read is either not JSON or JSON outside this model (a float, an
      escape above code point 255).  [Json.expecting_value] holds only of
      texts that are not JSON, and the properties about a body that is
      refused speak of those.
    - The file system is a tree of directories and files, without links.
      A call that changes it, [mkdir] or [open(p, 'w')], fails as the
      tree says (no such directory, a file in the way, a directory in
      place of a file) and, where the tree allows it, as the operating
      system says through [w_refuses]: a missing permission, a read-only
      or a full file system.  So does the writing into an open file.
      Reading a file that is there always succeeds.
    - A Python [dict] is an association list in insertion order whose keys
      are strings; [wf_value] says that the keys of every dictionary are
      pairwise distinct, as they are in every Python dictionary. *)

From Stdlib Require Import ZArith Ascii String List Lia Bool Decimal DecimalString.
From Stdlib Require DecimalN DecimalZ DecimalFacts.
From stdpp Require Import gmap strings list fin_maps.
Import ListNotations.

Local Open Scope Z_scope.

(** ** Text *)

Module Text.

Definition chr (n : nat) : ascii := ascii_of_nat n.
Definition ord (c : ascii) : nat := nat_of_ascii c.

Definition LF : ascii := chr 10.
Definition CR : ascii := chr 13.
Definition TAB : ascii := chr 9.
Definition BS : ascii := chr 8.
Definition FF : ascii := chr 12.
Definition DQ : ascii := chr 34.
Definition SQ : ascii := chr 39.
Definition BSL : ascii := chr 92.

Definition nl : string := String LF EmptyString.

(** [sep.join(parts)] *)
Fixpoint join (sep : string) (parts : list string) : string :=
  match parts with
  | [] => ""
  | [p] => p
  | p :: rest => p +:+ sep +:+ join sep rest
  end.

Fixpoint concat (parts : list string) : string :=
  match parts with
  | [] => ""
  | p :: rest => p +:+ concat rest
  end.

Fixpoint replicate (n : nat) (s : string) : string :=
  match n with
  | O => ""
  | S k => s +:+ replicate k s
  end.

Fixpoint rev_onto (s acc : string) : string :=
  match s with
  | EmptyString => acc
  | String c r => rev_onto r (String c acc)
  end.

Definition rev (s : string) : string := rev_onto s "".

Fixpoint existsb (p : ascii -> bool) (s : string) : bool :=
  match s with
  | EmptyString => false
  | String c r => p c || existsb p r
  end.

(** [s.endswith('/')] *)
Fixpoint ends_with_slash (s : string) : bool :=
  match s with
  | EmptyString => false
  | String c EmptyString => Ascii.eqb c "/"
  | String _ r => ends_with_slash r
  end.

(** [str(n)] for an integer. *)
Definition of_Z (z : Z) : string := NilZero.string_of_int (Z.to_int z).
Definition of_nat (n : nat) : string := of_Z (Z.of_nat n).

(** [%02d]-style zero padding, as [strftime] pads its fields. *)
Definition pad (width : nat) (n : nat) : string :=
  let s := of_nat n in
  replicate (width - String.length s) "0" +:+ s.

Definition hex_digit (n : nat) : ascii :=
  if (n <? 10)%nat then chr (48 + n) else chr (87 + n).

(** Code points that [str.isspace] accepts, below 256. *)
Definition is_space (c : ascii) : bool :=
  let n := ord c in
  ((9 <=? n) && (n <=? 13) || (28 <=? n) && (n <=? 32)
   || (n =? 133) || (n =? 160))%nat.

Fixpoint lstrip (s : string) : string :=
  match s with
  | EmptyString => ""
  | String c r => if is_space c then lstrip r else s
  end.

(** [s.strip()] *)
Definition strip (s : string) : string := rev (lstrip (rev (lstrip s))).

(** Code points that [str.isprintable] rejects, below 256. *)
Definition is_printable (c : ascii) : bool :=
  let n := ord c in
  ((32 <=? n) && (n <? 127) || (161 <=? n) && negb (n =? 173))%nat.

Fixpoint forallb (p : ascii -> bool) (s : string) : bool :=
  match s with
  | EmptyString => true
  | String c r => p c && forallb p r
  end.

Definition starts_with (p : ascii -> bool) (s : string) : bool :=
  match s with
  | String c _ => p c
  | EmptyString => false
  end.

Definition is_digit (c : ascii) : bool :=
  ((48 <=? ord c) && (ord c <=? 57))%nat.

(** The sign and the digits of a printed integer. *)
Definition is_sign_or_digit (c : ascii) : bool :=
  Ascii.eqb c "-" || is_digit c.

End Text.

(** ** Decoded values *)

(** What [response.json()] and [yaml.safe_load] hand to the program. *)
#[local] Unset Elimination Schemes.
Inductive value : Type :=
  | PyNone
  | PyBool (b : bool)
  | PyInt (z : Z)
  | PyStr (s : string)
  | PyList (items : list value)
  | PyDict (entries : list (string * value)).
#[local] Set Elimination Schemes.

Definition dict : Type := list (string * value).

Fixpoint dict_get (k : string) (d : dict) : option value :=
  match d with
  | [] => None
  | (k', v) :: rest => if String.eqb k k' then Some v else dict_get k rest
  end.

Definition dict_keys (d : dict) : list string := map fst d.

Definition dict_mem (k : string) (d : dict) : bool :=
  match dict_get k d with Some _ => true | None => false end.

(** [d[k] = v]: an existing key keeps its place, a new one goes last. *)
Fixpoint dict_set (k : string) (v : value) (d : dict) : dict :=
  match d with
  | [] => [(k, v)]
  | (k', v') :: rest =>
      if String.eqb k k' then (k', v) :: rest else (k', v') :: dict_set k v rest
  end.

(** [dict(pairs)] *)
Definition dict_of_pairs (pairs : list (string * value)) : dict :=
  fold_left (fun d kv => dict_set (fst kv) (snd kv) d) pairs [].

(** [d1 == d2] on dictionaries does not look at the order of the keys. *)
Definition dict_equiv (d1 d2 : dict) : Prop :=
  forall k, dict_get k d1 = dict_get k d2.

Fixpoint wf_value (v : value) : Prop :=
  match v with
  | PyList items => fold_right (fun x acc => wf_value x /\ acc) True items
  | PyDict entries =>
      NoDup (map fst entries)
      /\ fold_right (fun kv acc => wf_value (snd kv) /\ acc) True entries
  | _ => True
  end.

Definition wf_items (items : list value) : Prop :=
  fold_right (fun x acc => wf_value x /\ acc) True items.

Definition wf_pairs (entries : list (string * value)) : Prop :=
  fold_right (fun kv acc => wf_value (snd kv) /\ acc) True entries.

(** ** [repr] and [str] *)

Module Repr.
Import Text.

Definition hex2 (n : nat) : string :=
  String (hex_digit (n / 16)) (String (hex_digit (n mod 16)) "").

Definition repr_char (quote : ascii) (c : ascii) : string :=
  if Ascii.eqb c quote then String BSL (String c "")
  else if Ascii.eqb c BSL then String BSL (String BSL "")
  else if Ascii.eqb c LF then String BSL "n"
  else if Ascii.eqb c CR then String BSL "r"
  else if Ascii.eqb c TAB then String BSL "t"
  else if is_printable c then String c ""
  else String BSL (String "x" (hex2 (ord c))).

Fixpoint repr_chars (quote : ascii) (s : string) : string :=
  match s with
  | EmptyString => ""
  | String c r => repr_char quote c +:+ repr_chars quote r
  end.

(** [repr(s)]: single quotes, unless the text has a single quote and no
    double quote. *)
Definition repr_str (s : string) : string :=
  let quote :=
    if existsb (Ascii.eqb SQ) s && negb (existsb (Ascii.eqb DQ) s)
    then DQ else SQ in
  String quote (repr_chars quote s +:+ String quote "").

Fixpoint repr (v : value) : string :=
  match v with
  | PyNone => "None"
  | PyBool true => "True"
  | PyBool false => "False"
  | PyInt z => of_Z z
  | PyStr s => repr_str s
  | PyList items => "[" +:+ join ", " (map repr items) +:+ "]"
  | PyDict entries =>
      "{" +:+ join ", "
                (map (fun kv => repr_str (fst kv) +:+ ": " +:+ repr (snd kv))
                     entries)
          +:+ "}"
  end.

(** [str(v)], what an f-string puts in place of [{v}]. *)
Definition str (v : value) : string :=
  match v with
  | PyStr s => s
  | _ => repr v
  end.

End Repr.

(** ** [json.dump(obj, f, indent=2)] and [json.loads] *)

Module Json.
Import Text.

(** *** Encoding *)

Definition hex4 (n : nat) : string :=
  String (hex_digit (n / 4096 mod 16))
    (String (hex_digit (n / 256 mod 16))
       (String (hex_digit (n / 16 mod 16))
          (String (hex_digit (n mod 16)) ""))).

(** [ensure_ascii] is on: everything outside [' '..'~'], the double quote
    and the backslash are escaped. *)
Definition escape_char (c : ascii) : string :=
  if Ascii.eqb c DQ then String BSL (String DQ "")
  else if Ascii.eqb c BSL then String BSL (String BSL "")
  else if Ascii.eqb c LF then String BSL "n"
  else if Ascii.eqb c CR then String BSL "r"
  else if Ascii.eqb c TAB then String BSL "t"
  else if Ascii.eqb c BS then String BSL "b"
  else if Ascii.eqb c FF then String BSL "f"
  else if ((32 <=? ord c) && (ord c <=? 126))%nat then String c ""
  else String BSL (String "u" (hex4 (ord c))).

Fixpoint escape (s : string) : string :=
  match s with
  | EmptyString => ""
  | String c r => escape_char c +:+ escape r
  end.

Definition encode_str (s : string) : string :=
  String DQ (escape s +:+ String DQ "").

(** A line break followed by [indent * level] with [indent = 2]. *)
Definition newline_indent (level : nat) : string :=
  nl +:+ replicate level "  ".

Fixpoint encode (level : nat) (v : value) : string :=
  match v with
  | PyNone => "null"
  | PyBool true => "true"
  | PyBool false => "false"
  | PyInt z => of_Z z
  | PyStr s => encode_str s
  | PyList items =>
      match items with
      | [] => "[]"
      | _ :: _ =>
          "[" +:+ newline_indent (S level)
              +:+ join ("," +:+ newline_indent (S level))
                       (map (encode (S level)) items)
              +:+ newline_indent level +:+ "]"
      end
  | PyDict entries =>
      match entries with
      | [] => "{}"
      | _ :: _ =>
          "{" +:+ newline_indent (S level)
              +:+ join ("," +:+ newline_indent (S level))
                       (map (fun kv => encode_str (fst kv) +:+ ": "
                                         +:+ encode (S level) (snd kv))
                            entries)
              +:+ newline_indent level +:+ "}"
      end
  end.

(** [json.dumps(obj, indent=2)], the text [json.dump] writes. *)
Definition dumps (v : value) : string := encode 0 v.

(** The separator between two members, and a member of a dictionary. *)
Definition sep (level : nat) : string := "," +:+ newline_indent level.

Definition encode_pair (level : nat) (kv : string * value) : string :=
  encode_str (fst kv) +:+ ": " +:+ encode level (snd kv).

(** The first character of an encoded value. *)
Definition value_start (c : ascii) : bool :=
  Ascii.eqb c DQ || Ascii.eqb c "{" || Ascii.eqb c "[" || Ascii.eqb c "n"
  || Ascii.eqb c "t" || Ascii.eqb c "f" || is_sign_or_digit c.

(** The number of nodes of a value: the fuel its decoding needs. *)
Fixpoint size (v : value) : nat :=
  match v with
  | PyList items => S (fold_right (fun x acc => S (size x + acc)) 0 items)
  | PyDict entries =>
      S (fold_right (fun kv acc => S (size (snd kv) + acc)) 0 entries)
  | _ => 1
  end%nat.

Definition size_items (items : list value) : nat :=
  fold_right (fun x acc => S (size x + acc))%nat 0%nat items.

Definition size_pairs (entries : list (string * value)) : nat :=
  fold_right (fun kv acc => S (size (snd kv) + acc))%nat 0%nat entries.

(** *** Decoding *)

Definition is_ws (c : ascii) : bool :=
  Ascii.eqb c " " || Ascii.eqb c TAB || Ascii.eqb c LF || Ascii.eqb c CR.

Fixpoint skip_ws (s : string) : string :=
  match s with
  | EmptyString => ""
  | String c r => if is_ws c then skip_ws r else s
  end.

Fixpoint strip_prefix (p s : string) : option string :=
  match p with
  | EmptyString => Some s
  | String a p' =>
      match s with
      | EmptyString => None
      | String b s' => if Ascii.eqb a b then strip_prefix p' s' else None
      end
  end.

Definition hex_val (c : ascii) : option nat :=
  let n := ord c in
  if ((48 <=? n) && (n <=? 57))%nat then Some (n - 48)%nat
  else if ((97 <=? n) && (n <=? 102))%nat then Some (n - 87)%nat
  else if ((65 <=? n) && (n <=? 70))%nat then Some (n - 55)%nat
  else None.

Definition hex4_val (a b c d : ascii) : option nat :=
  match hex_val a, hex_val b, hex_val c, hex_val d with
  | Some x, Some y, Some z, Some w =>
      Some (((x * 16 + y) * 16 + z) * 16 + w)%nat
  | _, _, _, _ => None
  end.

Definition unescape (c : ascii) : option ascii :=
  if Ascii.eqb c DQ then Some DQ
  else if Ascii.eqb c BSL then Some BSL
  else if Ascii.eqb c "/" then Some "/"%char
  else if Ascii.eqb c "b" then Some BS
  else if Ascii.eqb c "f" then Some FF
  else if Ascii.eqb c "n" then Some LF
  else if Ascii.eqb c "r" then Some CR
  else if Ascii.eqb c "t" then Some TAB
  else None.

Definition consume (c : ascii) (k : option (string * string))
  : option (string * string) :=
  match k with
  | Some (t, r) => Some (String c t, r)
  | None => None
  end.

(** The text of a string literal whose opening quote has been read, and
    what follows its closing quote.  Control characters are refused, as in
    strict mode; an escape above code point 255 does not fit this
    model. *)
Fixpoint scan_string (s : string) : option (string * string) :=
  match s with
  | EmptyString => None
  | String c r =>
      if Ascii.eqb c DQ then Some ("", r)
      else if Ascii.eqb c BSL then
        match r with
        | EmptyString => None
        | String e r1 =>
            if Ascii.eqb e "u" then
              match r1 with
              | String h1 (String h2 (String h3 (String h4 r2))) =>
                  match hex4_val h1 h2 h3 h4 with
                  | Some n =>
                      if (n <? 256)%nat then consume (chr n) (scan_string r2)
                      else None
                  | None => None
                  end
              | _ => None
              end
            else
              match unescape e with
              | Some x => consume x (scan_string r1)
              | None => None
              end
        end
      else if (ord c <? 32)%nat then None
      else consume c (scan_string r)
  end.

Definition digit_of (c : ascii) : option (uint -> uint) :=
  if Ascii.eqb c "0" then Some D0
  else if Ascii.eqb c "1" then Some D1
  else if Ascii.eqb c "2" then Some D2
  else if Ascii.eqb c "3" then Some D3
  else if Ascii.eqb c "4" then Some D4
  else if Ascii.eqb c "5" then Some D5
  else if Ascii.eqb c "6" then Some D6
  else if Ascii.eqb c "7" then Some D7
  else if Ascii.eqb c "8" then Some D8
  else if Ascii.eqb c "9" then Some D9
  else None.

(** The longest run of digits at the head of [s]. *)
Fixpoint scan_digits (s : string) : uint * string :=
  match s with
  | EmptyString => (Nil, "")
  | String c r =>
      match digit_of c with
      | Some d => let (u, r') := scan_digits r in (d u, r')
      | None => (Nil, s)
      end
  end.

(** [0|[1-9][0-9]*] *)
Definition scan_natural (s : string) : option (uint * string) :=
  match strip_prefix "0" s with
  | Some r => Some (D0 Nil, r)
  | None =>
      match scan_digits s with
      | (Nil, _) => None
      | (u, r) => Some (u, r)
      end
  end.

(** A fraction or an exponent makes the number a float. *)
Definition float_follows (s : string) : bool :=
  match s with
  | String c _ => Ascii.eqb c "." || Ascii.eqb c "e" || Ascii.eqb c "E"
  | EmptyString => false
  end.

Definition scan_number (s : string) : option (Z * string) :=
  let (negative, s') :=
    match strip_prefix "-" s with
    | Some r => (true, r)
    | None => (false, s)
    end in
  match scan_natural s' with
  | Some (u, r) =>
      if float_follows r then None
      else Some (Z.of_int (if negative then Neg u else Pos u), r)
  | None => None
  end.

(** What may follow the digits of an integer. *)
Definition delimited (rest : string) : bool :=
  match rest with
  | EmptyString => true
  | String c _ =>
      negb (is_digit c || Ascii.eqb c "." || Ascii.eqb c "e" || Ascii.eqb c "E")
  end.

Definition head_is (c : ascii) (s : string) : option string :=
  match s with
  | String c' r => if Ascii.eqb c c' then Some r else None
  | EmptyString => None
  end.

(** [scan_once]: one value at the head of [s] and the text after it.
    [fuel] bounds the nesting and the number of members. *)
Fixpoint parse_value (fuel : nat) (s : string) : option (value * string) :=
  match fuel with
  | O => None
  | S fuel' =>
      match s with
      | EmptyString => None
      | String c r =>
          if Ascii.eqb c DQ then
            match scan_string r with
            | Some (t, r') => Some (PyStr t, r')
            | None => None
            end
          else if Ascii.eqb c "{" then
            match head_is "}" (skip_ws r) with
            | Some r' => Some (PyDict [], r')
            | None =>
                match parse_pairs fuel' (skip_ws r) with
                | Some (pairs, r') => Some (PyDict (dict_of_pairs pairs), r')
                | None => None
                end
            end
          else if Ascii.eqb c "[" then
            match head_is "]" (skip_ws r) with
            | Some r' => Some (PyList [], r')
            | None =>
                match parse_items fuel' (skip_ws r) with
                | Some (items, r') => Some (PyList items, r')
                | None => None
                end
            end
          else
            match strip_prefix "null" s with
            | Some r' => Some (PyNone, r')
            | None =>
            match strip_prefix "true" s with
            | Some r' => Some (PyBool true, r')
            | None =>
            match strip_prefix "false" s with
            | Some r' => Some (PyBool false, r')
            | None =>
            match scan_number s with
            | Some (z, r') => Some (PyInt z, r')
            | None => None
            end end end end
      end
  end

with parse_items (fuel : nat) (s : string) : option (list value * string) :=
  match fuel with
  | O => None
  | S fuel' =>
      match parse_value fuel' s with
      | None => None
      | Some (v, r) =>
          match skip_ws r with
          | String c r' =>
              if Ascii.eqb c "]" then Some ([v], r')
              else if Ascii.eqb c "," then
                match parse_items fuel' (skip_ws r') with
                | Some (items, r'') => Some (v :: items, r'')
                | None => None
                end
              else None
          | EmptyString => None
          end
      end
  end

with parse_pairs (fuel : nat) (s : string)
  : option (list (string * value) * string) :=
  match fuel with
  | O => None
  | S fuel' =>
      match head_is DQ s with
      | None => None
      | Some r0 =>
          match scan_string r0 with
          | None => None
          | Some (k, r1) =>
              match head_is ":" (skip_ws r1) with
              | None => None
              | Some r2 =>
                  match parse_value fuel' (skip_ws r2) with
                  | None => None
                  | Some (v, r3) =>
                      match skip_ws r3 with
                      | String c r4 =>
                          if Ascii.eqb c "}" then Some ([(k, v)], r4)
                          else if Ascii.eqb c "," then
                            match parse_pairs fuel' (skip_ws r4) with
                            | Some (pairs, r5) => Some ((k, v) :: pairs, r5)
                            | None => None
                            end
                          else None
                      | EmptyString => None
                      end
                  end
              end
          end
      end
  end.

(** [json.loads(s)] on the JSON texts of this model.  [None] says that
    [s] is not one of them: it is not JSON, or it is JSON with a float,
    [NaN], an infinity or an escape above code point 255, which
    [json.loads] reads and this model has no value for. *)
Definition loads (s : string) : option value :=
  match parse_value (S (String.length s)) (skip_ws s) with
  | Some (v, r) =>
      match skip_ws r with
      | EmptyString => Some v
      | String _ _ => None
      end
  | None => None
  end.

(** The characters a JSON value can start with, for [json.loads]: those
    of a string, an object, an array, [null], [true], [false], a number,
    [NaN], [Infinity] and [-Infinity]. *)
Definition starts_value (c : ascii) : bool :=
  Ascii.eqb c DQ || Ascii.eqb c "{" || Ascii.eqb c "[" || Ascii.eqb c "n"
  || Ascii.eqb c "t" || Ascii.eqb c "f" || Ascii.eqb c "-" || is_digit c
  || Ascii.eqb c "N" || Ascii.eqb c "I".

(** [json.loads(s)] raises [JSONDecodeError] with "Expecting value" at
    the first character that is not white space: [s] is blank, or no
    value starts there.  Such a text is not JSON, in this model or
    out of it. *)
Definition expecting_value (s : string) : bool :=
  match skip_ws s with
  | EmptyString => true
  | String c _ => negb (starts_value c)
  end.

End Json.

(** ** Exceptions *)

(** Why the interpreter raised [TypeError]. *)
Inductive type_error : Type :=
  | UnexpectedKeyword (name : string)
  | MissingArguments (names : list string)
  | NotAMapping
  | NotAPath.

(** The exception classes an operation of the module can end with.  The
    ones the module raises itself carry their message. *)
Inductive exn : Type :=
  | Exception_ (msg : string)
  | ValueError (msg : string)
  | FileNotFoundError (msg : string)
  | FileExistsError
  | IsADirectoryError
  | NotADirectoryError
  | PermissionError
  | TypeError (why : type_error)
  | AttributeError
  | JSONDecodeError
  | ConnectionError
  | YAMLError.

Inductive result (A : Type) : Type :=
  | Ok (a : A)
  | Raise (e : exn).
Arguments Ok {A} a.
Arguments Raise {A} e.

(** ** The world the program runs in *)

(** *** File system *)

Inductive node : Type :=
  | Dir
  | File (content : string).

Module Fs.
Import Text.

(** Absolute paths, as lists of names from the root; the root is [[]]. *)
Abbreviation key := (list string) (only parsing).

Definition node_at (fs : gmap (list string) node) (k : key) : option node :=
  match k with
  | [] => Some Dir
  | _ :: _ => fs !! k
  end.

Fixpoint split_on (sep : ascii) (s : string) : list string :=
  match s with
  | EmptyString => [""]
  | String c r =>
      if Ascii.eqb c sep then "" :: split_on sep r
      else match split_on sep r with
           | h :: t => String c h :: t
           | [] => [String c ""]
           end
  end.

Definition is_absolute (p : string) : bool :=
  match p with
  | String c _ => Ascii.eqb c "/"
  | EmptyString => false
  end.

(** One name further along a path. *)
Definition step (cur : key) (name : string) : key :=
  if String.eqb name "" || String.eqb name "." then cur
  else if String.eqb name ".." then removelast cur
  else cur ++ [name].

Definition enoent (p : string) : exn :=
  FileNotFoundError ("[Errno 2] No such file or directory: " +:+ Repr.repr_str p).

(** Every name but the last must lead into an existing directory. *)
Fixpoint walk (fs : gmap (list string) node) (p : string) (cur : key)
    (names : list string) : result key :=
  match names with
  | [] => Ok cur
  | name :: rest =>
      match node_at fs cur with
      | Some Dir => walk fs p (step cur name) rest
      | Some (File _) => Raise NotADirectoryError
      | None => Raise (enoent p)
      end
  end.

Definition resolve (fs : gmap (list string) node) (cwd : key) (p : string)
  : result key :=
  match p with
  | EmptyString => Raise (enoent p)
  | String _ _ => walk fs p (if is_absolute p then [] else cwd) (split_on "/" p)
  end.

(** [open(p, 'r').read()] *)
Definition read (fs : gmap (list string) node) (cwd : key) (p : string)
  : result string :=
  match resolve fs cwd p with
  | Raise e => Raise e
  | Ok k =>
      match node_at fs k with
      | None => Raise (enoent p)
      | Some Dir => Raise IsADirectoryError
      | Some (File content) => Ok content
      end
  end.

(** [open(p, 'w')], as far as the tree decides: an empty file at [p],
    new or truncated. *)
Definition create (fs : gmap (list string) node) (cwd : key) (p : string)
  : result (key * gmap (list string) node) :=
  match resolve fs cwd p with
  | Raise e => Raise e
  | Ok k =>
      match node_at fs k with
      | Some Dir => Raise IsADirectoryError
      | _ => Ok (k, <[k := File ""]> fs)
      end
  end.

(** [f.write(content)] on the file opened at [k]. *)
Definition append (fs : gmap (list string) node) (k : key) (content : string)
  : gmap (list string) node :=
  match fs !! k with
  | Some (File old) => <[k := File (old +:+ content)]> fs
  | _ => <[k := File content]> fs
  end.

(** [os.path.isdir(p)] and [os.path.isfile(p)] *)
Definition isdir (fs : gmap (list string) node) (cwd : key) (p : string) : bool :=
  match resolve fs cwd p with
  | Ok k => match node_at fs k with Some Dir => true | _ => false end
  | Raise _ => false
  end.

Definition isfile (fs : gmap (list string) node) (cwd : key) (p : string) : bool :=
  match resolve fs cwd p with
  | Ok k => match node_at fs k with Some (File _) => true | _ => false end
  | Raise _ => false
  end.

(** What [mkdir] answers when a regular file has the name it was to give
    and [rest] is still to come: the name is taken when only slashes
    follow it, and is not a directory otherwise. *)
Definition in_the_way (rest : list string) : exn :=
  if List.forallb (String.eqb "") rest then FileExistsError
  else NotADirectoryError.

(** The directories [os.makedirs] adds along [names], starting below
    [cur]. *)
Fixpoint makedirs_walk (fs : gmap (list string) node) (p : string) (cur : key)
    (names : list string) : result (gmap (list string) node) :=
  match names with
  | [] => Ok fs
  | name :: rest =>
      match node_at fs cur with
      | Some Dir =>
          let next := step cur name in
          match node_at fs next with
          | Some Dir => makedirs_walk fs p next rest
          | Some (File _) => Raise (in_the_way rest)
          | None => makedirs_walk (<[next := Dir]> fs) p next rest
          end
      | Some (File _) => Raise NotADirectoryError
      | None => Raise (enoent p)
      end
  end.

(** [os.makedirs(p, exist_ok=True)], as far as the tree decides. *)
Definition makedirs (fs : gmap (list string) node) (cwd : key) (p : string)
  : result (gmap (list string) node) :=
  match p with
  | EmptyString => Raise (enoent p)
  | String _ _ =>
      makedirs_walk fs p (if is_absolute p then [] else cwd) (split_on "/" p)
  end.

(** The calls by which the module changes the tree: [mkdir] of the
    directory at a key, [open(p, 'w')] of the file at a key, and the
    writing of what [f.write] was given into the file at a key. *)
Inductive call : Type :=
  | Mkdir (k : key)
  | OpenW (k : key)
  | Write (k : key).

(** The same walk on a system that may turn a [mkdir] down, for want of
    a permission or of room, or because the file system is read-only:
    [refuses] gives the error then.  The directories made before an error
    stay. *)
Fixpoint makedirs_os_walk (refuses : call -> option exn)
    (fs : gmap (list string) node) (p : string) (cur : key)
    (names : list string) : result unit * gmap (list string) node :=
  match names with
  | [] => (Ok tt, fs)
  | name :: rest =>
      match node_at fs cur with
      | Some Dir =>
          let next := step cur name in
          match node_at fs next with
          | Some Dir => makedirs_os_walk refuses fs p next rest
          | Some (File _) => (Raise (in_the_way rest), fs)
          | None =>
              match refuses (Mkdir next) with
              | Some e => (Raise e, fs)
              | None =>
                  makedirs_os_walk refuses (<[next := Dir]> fs) p next rest
              end
          end
      | Some (File _) => (Raise NotADirectoryError, fs)
      | None => (Raise (enoent p), fs)
      end
  end.

(** [os.makedirs(p, exist_ok=True)] *)
Definition makedirs_os (refuses : call -> option exn)
    (fs : gmap (list string) node) (cwd : key) (p : string)
  : result unit * gmap (list string) node :=
  match p with
  | EmptyString => (Raise (enoent p), fs)
  | String _ _ =>
      makedirs_os_walk refuses fs p (if is_absolute p then [] else cwd)
        (split_on "/" p)
  end.

(** [os.path.join(a, b)] *)
Definition join (a b : string) : string :=
  if is_absolute b then b
  else if String.eqb a "" || ends_with_slash a then a +:+ b
  else a +:+ "/" +:+ b.

(** [fs'] has every directory of [fs]. *)
Definition keeps_dirs (fs fs' : gmap (list string) node) : Prop :=
  forall k, node_at fs k = Some Dir -> node_at fs' k = Some Dir.

(** [fs'] has everything of [fs], and only directories besides. *)
Definition adds_dirs (fs fs' : gmap (list string) node) : Prop :=
  fs ⊆ fs' /\ forall k n, fs' !! k = Some n -> fs !! k = Some n \/ n = Dir.

(** A file name: no separator, and none of the special names. *)
Definition plain_name (b : string) : Prop :=
  forallb (fun c => negb (Ascii.eqb c "/")) b = true
  /\ is_absolute b = false
  /\ forall k, step k b = k ++ [b].

End Fs.

(** *** Clock *)

Record datetime : Type := {
  year : nat; month : nat; day : nat;
  hour : nat; minute : nat; second : nat
}.

(** [t.strftime('%Y%m%d_%H%M%S')] and [t.strftime('%Y-%m-%d %H:%M:%S')],
    for the four-digit years [datetime.now()] returns. *)
Definition strftime_compact (t : datetime) : string :=
  Text.pad 4 (year t) +:+ Text.pad 2 (month t) +:+ Text.pad 2 (day t) +:+ "_"
  +:+ Text.pad 2 (hour t) +:+ Text.pad 2 (minute t) +:+ Text.pad 2 (second t).

Definition strftime_iso (t : datetime) : string :=
  Text.pad 4 (year t) +:+ "-" +:+ Text.pad 2 (month t) +:+ "-"
  +:+ Text.pad 2 (day t) +:+ " " +:+ Text.pad 2 (hour t) +:+ ":"
  +:+ Text.pad 2 (minute t) +:+ ":" +:+ Text.pad 2 (second t).

(** *** HTTP *)

(** The arguments of a [requests.get] or [requests.post] call. *)
Record request : Type := {
  rq_method : string;
  rq_url : string;
  rq_headers : dict;
  rq_json : option value;
  rq_params : option value
}.

Record response : Type := {
  status_code : Z;
  text : string
}.

(** [response.json()], for the bodies [Json.loads] reads; the others
    are answered with [JSONDecodeError], which is what the code sees
    for those of them that are not JSON ([Json.expecting_value] is true
    of such bodies only). *)
Definition response_json (r : response) : result value :=
  match Json.loads (text r) with
  | Some v => Ok v
  | None => Raise JSONDecodeError
  end.

(** *** State *)

Record world : Type := {
  w_fs : gmap (list string) node;
  w_cwd : list string;
  w_refuses : Fs.call -> option exn;
                                  (* the error with which the operating
                                     system turns down a call the tree
                                     allows, if it does *)
  w_environ : gmap string string;
  w_clock : nat -> datetime;      (* successive readings of the clock *)
  w_ticks : nat;                  (* readings taken so far *)
  w_server : request -> result response;
  w_sent : list request;          (* requests issued so far, oldest first *)
  w_stdout : list string          (* what [print] wrote, oldest first *)
}.

Definition set_fs (fs : gmap (list string) node) (w : world) : world :=
  {| w_fs := fs; w_cwd := w_cwd w; w_refuses := w_refuses w;
     w_environ := w_environ w;
     w_clock := w_clock w; w_ticks := w_ticks w; w_server := w_server w;
     w_sent := w_sent w; w_stdout := w_stdout w |}.

Definition set_environ (env : gmap string string) (w : world) : world :=
  {| w_fs := w_fs w; w_cwd := w_cwd w; w_refuses := w_refuses w;
     w_environ := env;
     w_clock := w_clock w; w_ticks := w_ticks w; w_server := w_server w;
     w_sent := w_sent w; w_stdout := w_stdout w |}.

Definition set_ticks (n : nat) (w : world) : world :=
  {| w_fs := w_fs w; w_cwd := w_cwd w; w_refuses := w_refuses w;
     w_environ := w_environ w;
     w_clock := w_clock w; w_ticks := n; w_server := w_server w;
     w_sent := w_sent w; w_stdout := w_stdout w |}.

Definition set_sent (l : list request) (w : world) : world :=
  {| w_fs := w_fs w; w_cwd := w_cwd w; w_refuses := w_refuses w;
     w_environ := w_environ w;
     w_clock := w_clock w; w_ticks := w_ticks w; w_server := w_server w;
     w_sent := l; w_stdout := w_stdout w |}.

Definition set_stdout (l : list string) (w : world) : world :=
  {| w_fs := w_fs w; w_cwd := w_cwd w; w_refuses := w_refuses w;
     w_environ := w_environ w;
     w_clock := w_clock w; w_ticks := w_ticks w; w_server := w_server w;
     w_sent := w_sent w; w_stdout := l |}.

(** ** Computations: state and exceptions *)

Definition M (A : Type) : Type := world -> result A * world.

Definition ret {A} (a : A) : M A := fun w => (Ok a, w).

Definition raise {A} (e : exn) : M A := fun w => (Raise e, w).

Definition bind {A B} (m : M A) (k : A -> M B) : M B :=
  fun w =>
    match m w with
    | (Ok a, w') => k a w'
    | (Raise e, w') => (Raise e, w')
    end.

Notation "'do' x <- m ; k" := (bind m (fun x => k))
  (at level 10, x pattern, m at level 100, k at level 200).
Notation "'run' m ; k" := (bind m (fun _ => k))
  (at level 10, m at level 100, k at level 200).

Definition lift {A} (r : result A) : M A := fun w => (r, w).

(** [try: m except FileNotFoundError: h] *)
Definition catch_FileNotFoundError {A} (m : M A) (h : M A) : M A :=
  fun w =>
    match m w with
    | (Raise (FileNotFoundError _), w') => h w'
    | other => other
    end.

(** *** The runtime calls the module makes *)

Definition os_getenv (name : string) : M (option string) :=
  fun w => (Ok (w_environ w !! name), w).

Definition datetime_now : M datetime :=
  fun w => (Ok (w_clock w (w_ticks w)), set_ticks (S (w_ticks w)) w).

Definition print (line : string) : M unit :=
  fun w => (Ok tt, set_stdout (w_stdout w ++ [line]) w).

Definition open_read (p : string) : M string :=
  fun w => (Fs.read (w_fs w) (w_cwd w) p, w).

(** [open(p, 'w')]: the file is created or emptied; the handle is its
    key.  Where the tree allows the call the operating system can still
    turn it down, and nothing changes then. *)
Definition open_write (p : string) : M Fs.key :=
  fun w =>
    match Fs.create (w_fs w) (w_cwd w) p with
    | Ok (k, fs') =>
        match w_refuses w (Fs.OpenW k) with
        | None => (Ok k, set_fs fs' w)
        | Some e => (Raise e, w)
        end
    | Raise e => (Raise e, w)
    end.

(** [f.write(content)], with the flush that closing the file brings.
    Where the operating system refuses the write (no room left, a quota)
    the error is raised; how much of the text has reached the file by
    then is not modelled, and the file is left as it was. *)
Definition file_write (f : Fs.key) (content : string) : M unit :=
  fun w =>
    match w_refuses w (Fs.Write f) with
    | None => (Ok tt, set_fs (Fs.append (w_fs w) f content) w)
    | Some e => (Raise e, w)
    end.

Definition os_makedirs (p : string) : M unit :=
  fun w =>
    let (r, fs') := Fs.makedirs_os (w_refuses w) (w_fs w) (w_cwd w) p in
    (r, set_fs fs' w).

(** [requests.request(...)]: the call is recorded, the server answers. *)
Definition send (rq : request) : M response :=
  fun w => (w_server w rq, set_sent (w_sent w ++ [rq]) w).

(** ** The module *)

Section Program.

(** Two parsers of third-party packages: [dotenv] (the bindings of a
    [.env] text that have a value) and PyYAML's [safe_load]. *)
Variable dotenv_values : string -> gmap string string.
Variable yaml_safe_load : string -> result value.

(** *** [GenerateAudioResponse] *)

(** The annotations of a dataclass are not checked: a field holds
    whatever value it is given. *)
Record GenerateAudioResponse : Type := {
  success : value;
  message : value;
  task_id : value;
  conversion_id_1 : value;
  conversion_id_2 : value;
  eta : value
}.

Definition field_names : list string :=
  ["success"; "message"; "task_id"; "conversion_id_1"; "conversion_id_2"; "eta"].

Definition is_field (k : string) : bool :=
  List.existsb (String.eqb k) field_names.

(** [GenerateAudioResponse] called on the keyword arguments [data], that
    is the generated
    [__init__(self, success, message, task_id, conversion_id_1,
    conversion_id_2, eta)]. *)
Definition GenerateAudioResponse_init (data : value)
  : result GenerateAudioResponse :=
  match data with
  | PyDict kwargs =>
      match List.filter (fun k => negb (is_field k)) (dict_keys kwargs) with
      | k :: _ => Raise (TypeError (UnexpectedKeyword k))
      | [] =>
          match dict_get "success" kwargs, dict_get "message" kwargs,
                dict_get "task_id" kwargs, dict_get "conversion_id_1" kwargs,
                dict_get "conversion_id_2" kwargs, dict_get "eta" kwargs with
          | Some a, Some b, Some c, Some d, Some e, Some f =>
              Ok {| success := a; message := b; task_id := c;
                    conversion_id_1 := d; conversion_id_2 := e; eta := f |}
          | _, _, _, _, _, _ =>
              Raise (TypeError
                       (MissingArguments
                          (List.filter (fun k => negb (dict_mem k kwargs))
                                       field_names)))
          end
      end
  | _ => Raise (TypeError NotAMapping)
  end.

(** [asdict(self)] *)
Definition to_dict (self : GenerateAudioResponse) : value :=
  PyDict [("success", success self); ("message", message self);
          ("task_id", task_id self);
          ("conversion_id_1", conversion_id_1 self);
          ("conversion_id_2", conversion_id_2 self); ("eta", eta self)].

Definition E_acute : ascii := Text.chr 201.
Definition o_acute : ascii := Text.chr 243.

Definition txt_format (now : datetime) (self : GenerateAudioResponse) : string :=
  Text.nl +:+ "    " +:+ Text.nl
  +:+ "Respuesta de Lalas API:" +:+ Text.nl
  +:+ "----------------------" +:+ Text.nl
  +:+ "Fecha y hora: " +:+ strftime_iso now +:+ Text.nl
  +:+ String E_acute "xito: " +:+ Repr.str (success self) +:+ Text.nl
  +:+ "Mensaje: " +:+ Repr.str (message self) +:+ Text.nl
  +:+ "ID de tarea: " +:+ Repr.str (task_id self) +:+ Text.nl
  +:+ "ID de conversi" +:+ String o_acute "n 1: "
  +:+ Repr.str (conversion_id_1 self) +:+ Text.nl
  +:+ "ID de conversi" +:+ String o_acute "n 2: "
  +:+ Repr.str (conversion_id_2 self) +:+ Text.nl
  +:+ "Tiempo estimado: " +:+ Repr.str (eta self) +:+ " segundos" +:+ Text.nl
  +:+ "----------------------" +:+ Text.nl.

Definition to_txt_format (self : GenerateAudioResponse) : M string :=
  do now <- datetime_now;
  ret (txt_format now self).

(** *** [Configuration] *)

Record Configuration : Type := { config_file : value }.

Definition Configuration_init : M Configuration :=
  do config_fn <- os_getenv "CONFIG_FILE";
  match config_fn with
  | None => raise (TypeError NotAPath)
  | Some fn =>
      do cf <- open_read fn;
      do doc <- lift (yaml_safe_load cf);
      ret {| config_file := doc |}
  end.

(** [obj.get(k, default)]; only a dictionary has the method. *)
Definition py_get (obj : value) (k : string) (default : value) : result value :=
  match obj with
  | PyDict d =>
      Ok (match dict_get k d with Some v => v | None => default end)
  | _ => Raise AttributeError
  end.

Definition get_prompt_path (self : Configuration) : result value :=
  py_get (config_file self) "prompt_file" (PyStr "").

Definition get_lyrics_path (self : Configuration) : result value :=
  py_get (config_file self) "lyrics_file" (PyStr "").

(** *** [LalasAPI] *)

Record LalasAPI : Type := {
  api_key : string;
  base_url : string;
  headers : dict
}.

(** [load_dotenv(path)]: the bindings of the file, when there is one, go
    into the environment; a variable already set keeps its value. *)
Definition load_dotenv (path : string) : M unit :=
  fun w =>
    if Fs.isfile (w_fs w) (w_cwd w) path then
      match Fs.read (w_fs w) (w_cwd w) path with
      | Ok content =>
          (Ok tt, set_environ (w_environ w ∪ dotenv_values content) w)
      | Raise e => (Raise e, w)
      end
    else (Ok tt, w).

Definition LalasAPI_init (env_path : string) : M LalasAPI :=
  run load_dotenv env_path;
  do key <- os_getenv "LALAS_API_KEY";
  match key with
  | None | Some EmptyString =>
      raise (ValueError ("No se encontr" +:+ String o_acute
                           " LALAS_API_KEY en el archivo .env"))
  | Some k =>
      ret {| api_key := k;
             base_url := "https://api.lalals.com/api/public/v1";
             headers := [("accept", PyStr "application/json");
                         ("Authorization", PyStr k)] |}
  end.

Definition read_prompt_from_file (self : LalasAPI) (file_path : string)
  : M string :=
  catch_FileNotFoundError
    (do content <- open_read file_path;
     ret (Text.strip content))
    (raise (FileNotFoundError
              ("No se encontr" +:+ String o_acute " el archivo de prompt: "
                 +:+ file_path))).

Definition save_response (self : LalasAPI) (response : GenerateAudioResponse)
    (output_dir : string) : M (string * string) :=
  run os_makedirs output_dir;
  do now <- datetime_now;
  let timestamp := strftime_compact now in
  let base_filename := "lalas_response_" +:+ timestamp in
  let txt_path := Fs.join output_dir (base_filename +:+ ".txt") in
  do f <- open_write txt_path;
  do txt <- to_txt_format response;
  run file_write f txt;
  let json_path := Fs.join output_dir (base_filename +:+ ".json") in
  do f <- open_write json_path;
  run file_write f (Json.dumps (to_dict response));
  ret (txt_path, json_path).

Definition api_error (r : response) : exn :=
  Exception_ ("Error en la API: " +:+ Text.of_Z (status_code r) +:+ " - "
                +:+ text r).

Definition generate_audio (self : LalasAPI) (prompt_file music_style
    webhook_url lyrics voice_id : string) (save_response_files : bool)
  : M GenerateAudioResponse :=
  do prompt <- read_prompt_from_file self prompt_file;
  let payload :=
    PyDict [("prompt", PyStr prompt); ("music_style", PyStr music_style);
            ("webhook_url", PyStr webhook_url); ("lyrics", PyStr lyrics);
            ("voice_id", PyStr voice_id)] in
  do response <- send {| rq_method := "POST";
                         rq_url := base_url self +:+ "/MusicAI";
                         rq_headers := headers self;
                         rq_json := Some payload;
                         rq_params := None |};
  if negb (status_code response =? 200) then raise (api_error response)
  else
    do data <- lift (response_json response);
    do api_response <- lift (GenerateAudioResponse_init data);
    run (if save_response_files then
           do paths <- save_response self api_response "responses";
           print ("Respuesta guardada en:" +:+ Text.nl +:+ "- TXT: "
                    +:+ fst paths +:+ Text.nl +:+ "- JSON: " +:+ snd paths)
         else ret tt);
    ret api_response.

Definition retrieve_audio (self : LalasAPI) (task_id conversion_type : string)
  : M unit :=
  let payload :=
    PyDict [("task_id", PyStr "c53d8f7c-ec0d-44ce-bca0-d437d426556c");
            ("conversionType", PyStr conversion_type)] in
  do response <- send {| rq_method := "GET";
                         rq_url := base_url self +:+ "/byId";
                         rq_headers := headers self;
                         rq_json := None;
                         rq_params := Some payload |};
  if status_code response =? 200 then
    do body <- lift (response_json response);
    print ("Response: " +:+ Repr.str body)
  else
    (* the exception is built and dropped: there is no [raise] *)
    let _ := api_error response in
    ret tt.

End Program.

(** ** Vocabulary of the properties *)

(** The declared type of each field, and what [isinstance] makes of a
    value ([bool] is a subclass of [int]). *)
Inductive annotation : Type := Tbool | Tstr | Tint.

Definition isinstance (v : value) (t : annotation) : bool :=
  match t, v with
  | Tbool, PyBool _ => true
  | Tstr, PyStr _ => true
  | Tint, PyInt _ => true
  | Tint, PyBool _ => true
  | _, _ => false
  end.

Definition annotations : list (string * annotation) :=
  [("success", Tbool); ("message", Tstr); ("task_id", Tstr);
   ("conversion_id_1", Tstr); ("conversion_id_2", Tstr); ("eta", Tint)].

(** Every declared key that is present has a value of its declared type. *)
Definition well_typed (d : dict) : bool :=
  forallb (fun kt => match dict_get (fst kt) d with
                     | Some v => isinstance v (snd kt)
                     | None => true
                     end) annotations.

(** All the declared keys are present. *)
Definition complete (d : dict) : bool :=
  forallb (fun k => dict_mem k d) field_names.

(** Every field holds a well-formed value. *)
Definition wf_response (r : GenerateAudioResponse) : Prop :=
  wf_value (success r) /\ wf_value (message r) /\ wf_value (task_id r)
  /\ wf_value (conversion_id_1 r) /\ wf_value (conversion_id_2 r)
  /\ wf_value (eta r).

(** The names [save_response] gives the two files when it starts in [w],
    and the text it writes to the first one. *)
Definition saved_base (w : world) : string :=
  "lalas_response_" +:+ strftime_compact (w_clock w (w_ticks w)).

Definition saved_txt_path (output_dir : string) (w : world) : string :=
  Fs.join output_dir (saved_base w +:+ ".txt").

Definition saved_json_path (output_dir : string) (w : world) : string :=
  Fs.join output_dir (saved_base w +:+ ".json").

Definition saved_txt (response : GenerateAudioResponse) (w : world) : string :=
  txt_format (w_clock w (S (w_ticks w))) response.

(** The operating system lets a call through. *)
Definition accepts (w : world) (c : Fs.call) : bool :=
  match w_refuses w c with None => true | Some _ => false end.

(** The operating system lets the file at [p] be opened for writing and
    written. *)
Definition allowed (w : world) (fs : gmap (list string) node) (p : string)
  : bool :=
  match Fs.resolve fs (w_cwd w) p with
  | Ok k => accepts w (Fs.OpenW k) && accepts w (Fs.Write k)
  | Raise _ => false
  end.

(** [os.makedirs] accepts the output directory, and afterwards neither
    file name is the name of a directory and both files may be opened for
    writing and written. *)
Definition can_save (output_dir : string) (w : world) : bool :=
  match Fs.makedirs_os (w_refuses w) (w_fs w) (w_cwd w) output_dir with
  | (Ok _, fs1) =>
      negb (Fs.isdir fs1 (w_cwd w) (saved_txt_path output_dir w))
      && negb (Fs.isdir fs1 (w_cwd w) (saved_json_path output_dir w))
      && allowed w fs1 (saved_txt_path output_dir w)
      && allowed w fs1 (saved_json_path output_dir w)
  | (Raise _, _) => false
  end.

(** [sys.int_max_str_digits]: [str] and [json.dump] convert an integer
    of up to that many digits, and raise [ValueError] on a longer one. *)
Definition int_max_str_digits : Z := 4300.

(** [None], a boolean, a string, or an integer that can be converted: the
    values of the documented reply are of this kind. *)

Definition scalar (v : value) : bool :=
  match v with
  | PyNone | PyBool _ | PyStr _ => true
  | PyInt z => Z.abs z <? 10 ^ int_max_str_digits
  | PyList _ | PyDict _ => false
  end.

Definition scalar_fields (r : GenerateAudioResponse) : bool :=
  scalar (success r) && scalar (message r) && scalar (task_id r)
  && scalar (conversion_id_1 r) && scalar (conversion_id_2 r)
  && scalar (eta r).

(** The request [generate_audio] sends for a prompt. *)
Definition submission (self : LalasAPI)
    (prompt music_style webhook_url lyrics voice_id : string) : request :=
  {| rq_method := "POST";
     rq_url := base_url self +:+ "/MusicAI";
     rq_headers := headers self;
     rq_json := Some (PyDict [("prompt", PyStr prompt);
                              ("music_style", PyStr music_style);
                              ("webhook_url", PyStr webhook_url);
                              ("lyrics", PyStr lyrics);
                              ("voice_id", PyStr voice_id)]);
     rq_params := None |}.

(** The request [retrieve_audio] should send for a task. *)
Definition retrieval (self : LalasAPI) (task_id conversion_type : string)
  : request :=
  {| rq_method := "GET";
     rq_url := base_url self +:+ "/byId";
     rq_headers := headers self;
     rq_json := None;
     rq_params := Some (PyDict [("task_id", PyStr task_id);
                                ("conversionType", PyStr conversion_type)]) |}.

Definition hardcoded_task_id : string := "c53d8f7c-ec0d-44ce-bca0-d437d426556c".

(** The query parameter [name] of a request. *)
Definition query_param (name : string) (rq : request) : option value :=
  match rq_params rq with
  | Some (PyDict d) => dict_get name d
  | _ => None
  end.

(** [open(p)] reports that there is no such file or directory. *)
Definition no_such_file (w : world) (p : string) : bool :=
  match Fs.read (w_fs w) (w_cwd w) p with
  | Raise (FileNotFoundError _) => true
  | _ => false
  end.

(** The API key of the credentials file: what the [.env] file at
    [env_path] binds [LALAS_API_KEY] to, when the file can be read and
    binds it. *)
Definition credentials_file_key (dotenv_values : string -> gmap string string)
    (env_path : string) (w : world) : option string :=
  match Fs.read (w_fs w) (w_cwd w) env_path with
  | Ok content => dotenv_values content !! "LALAS_API_KEY"
  | Raise _ => None
  end.

(** The API key the constructor finds.  [load_dotenv] leaves alone a
    variable the process has, so the variable of the process comes first,
    empty or not, and the credentials file counts only when the process
    has no such variable. *)
Definition key_found (dotenv_values : string -> gmap string string)
    (env_path : string) (w : world) : option string :=
  match w_environ w !! "LALAS_API_KEY" with
  | Some k => Some k
  | None => credentials_file_key dotenv_values env_path w
  end.

Definition the_client (k : string) : LalasAPI :=
  {| api_key := k;
     base_url := "https://api.lalals.com/api/public/v1";
     headers := [("accept", PyStr "application/json");
                 ("Authorization", PyStr k)] |}.


Definition prompt_not_found (file_path : string) : exn :=
  FileNotFoundError ("No se encontr" +:+ String o_acute
                       " el archivo de prompt: " +:+ file_path).

(** *** Sample data *)

Module Sample.

Definition t0 : datetime :=
  {| year := 2026; month := 1; day := 2; hour := 3; minute := 4; second := 5 |}.
Definition t1 : datetime :=
  {| year := 2026; month := 1; day := 2; hour := 3; minute := 4; second := 6 |}.

Definition queued : dict :=
  [("success", PyBool true); ("message", PyStr "queued");
   ("task_id", PyStr "T1"); ("conversion_id_1", PyStr "C1");
   ("conversion_id_2", PyStr "C2"); ("eta", PyInt 30)].

Definition queued_response : GenerateAudioResponse :=
  {| success := PyBool true; message := PyStr "queued";
     task_id := PyStr "T1"; conversion_id_1 := PyStr "C1";
     conversion_id_2 := PyStr "C2"; eta := PyInt 30 |}.

(** A reply whose values have other types than the declared ones. *)
Definition ill_typed : dict :=
  [("success", PyStr "yes"); ("message", PyInt 7);
   ("task_id", PyNone); ("conversion_id_1", PyList []);
   ("conversion_id_2", PyBool false); ("eta", PyStr "soon")].

(** The documented reply with one more key. *)
Definition superset : dict := queued ++ [("credits", PyInt 3)].

(** The configuration document, in the flow style of YAML. *)
Definition config_text : string :=
  Json.dumps (PyDict [("prompt_file", PyStr "prompt.txt")]).

Definition fs0 : gmap (list string) node :=
  <[ ["home"; "config.yaml"] := File config_text ]>
  (<[ ["home"; "prompt.txt"] := File "  upbeat summer anthem  " ]>
   (<[ ["home"; ".env"] := File "LALAS_API_KEY=secret" ]>
    (<[ ["home"] := Dir ]> ∅))).

(** A world whose server answers every request with [status] and
    [body]. *)
Definition world_with (status : Z) (body : string) : world :=
  {| w_fs := fs0;
     w_cwd := ["home"];
     w_refuses := fun _ => None;
     w_environ := <[ "CONFIG_FILE" := "config.yaml" ]> ∅;
     w_clock := fun n => match n with O => t0 | _ => t1 end;
     w_ticks := 0;
     w_server := fun _ => Ok {| status_code := status; text := body |};
     w_sent := [];
     w_stdout := [] |}.

Definition client : LalasAPI := the_client "secret".

(** A [.env] reader good for one line [NAME=value]. *)
Definition one_binding (content : string) : gmap string string :=
  match Fs.split_on "=" content with
  | [name; v] => {[ name := v ]}
  | _ => ∅
  end.

(** JSON documents are YAML documents. *)
Definition yaml_of_json (content : string) : result value :=
  match Json.loads content with
  | Some v => Ok v
  | None => Raise YAMLError
  end.

End Sample.

(** ** The script *)

Section Script.

Variable dotenv_values : string -> gmap string string.
Variable yaml_safe_load : string -> result value.

(** The defaults of [env_path], [task_id] and [conversion_type]. *)
Definition default_env_path : string := ".env".
Definition default_task_id : string := "a72c79d7-0800-41ba-a527-17e79e46cb4f".
Definition default_conversion_type : string := "MUSIC_AI".

(** What the module does when it is run as a script. *)
Definition main : M unit :=
  do client <- LalasAPI_init dotenv_values default_env_path;
  do config <- Configuration_init yaml_safe_load;
  do prompt_path <- lift (get_prompt_path config);
  do audio_response <- retrieve_audio client default_task_id
                         default_conversion_type;
  ret tt.

End Script.

(** ** Further vocabulary *)

(** The last character of [s] satisfies [p]. *)
Fixpoint ends_with (p : ascii -> bool) (s : string) : bool :=
  match s with
  | EmptyString => false
  | String c EmptyString => p c
  | String _ r => ends_with p r
  end.

(** The line [generate_audio] prints once the two files are written. *)
Definition saved_message (paths : string * string) : string :=
  "Respuesta guardada en:" +:+ Text.nl +:+ "- TXT: " +:+ fst paths
    +:+ Text.nl +:+ "- JSON: " +:+ snd paths.

(** The mapping a response model was built from. *)
Definition fields (r : GenerateAudioResponse) : dict :=
  [("success", success r); ("message", message r); ("task_id", task_id r);
   ("conversion_id_1", conversion_id_1 r);
   ("conversion_id_2", conversion_id_2 r); ("eta", eta r)].

(** The world as [generate_audio] leaves it once the request is out. *)
Definition submitted (rq : request) (w : world) : world :=
  set_sent (w_sent w ++ [rq]) w.

(** [os.makedirs] accepts the output directory and the text file can be
    written, but the name of the JSON file is the name of a directory. *)
Definition json_name_taken (output_dir : string) (w : world) : bool :=
  match Fs.makedirs_os (w_refuses w) (w_fs w) (w_cwd w) output_dir with
  | (Ok _, fs1) =>
      negb (Fs.isdir fs1 (w_cwd w) (saved_txt_path output_dir w))
      && allowed w fs1 (saved_txt_path output_dir w)
      && Fs.isdir fs1 (w_cwd w) (saved_json_path output_dir w)
  | (Raise _, _) => false
  end.

(** The two inserts of a successful [save_response]. *)
Definition saved_fs (fs1 : gmap (list string) node) (dir : list string)
    (response : GenerateAudioResponse) (w : world)
  : gmap (list string) node :=
  <[dir ++ [saved_base w +:+ ".json"] := File (Json.dumps (to_dict response))]>
    (<[dir ++ [saved_base w +:+ ".txt"] := File (saved_txt response w)]> fs1).

(** *** More sample data *)

Module Cases.

(** The prompt file is there, the server cannot be reached. *)
Definition unreachable : world :=
  {| w_fs := Sample.fs0;
     w_cwd := ["home"];
     w_refuses := fun _ => None;
     w_environ := <[ "CONFIG_FILE" := "config.yaml" ]> ∅;
     w_clock := fun _ => Sample.t1;
     w_ticks := 0;
     w_server := fun _ => Raise ConnectionError;
     w_sent := [];
     w_stdout := [] |}.

(** The text of the documented reply. *)
Definition queued_text : string := Json.dumps (PyDict Sample.queued).


(** A world whose configuration document is a list. *)
Definition list_config : world :=
  set_fs (<[ ["home"; "config.yaml"] := File "[]" ]> Sample.fs0)
    (Sample.world_with 200 "").

(** A world with the key in the process environment and no
    [CONFIG_FILE]. *)
Definition no_config : world :=
  set_environ (<[ "LALAS_API_KEY" := "secret" ]> ∅) (Sample.world_with 200 "").

(** A world where the name of the JSON file is taken by a directory. *)
Definition json_taken : world :=
  set_fs (<[ ["home"; "responses"; "lalas_response_20260102_030405.json"]
               := Dir ]>
            (<[ ["home"; "responses"] := Dir ]> Sample.fs0))
    (Sample.world_with 200 "").

(** A world where [responses] exists and the clock stands still. *)
Definition same_second : world :=
  set_ticks 1
    (set_fs (<[ ["home"; "responses"] := Dir ]> Sample.fs0)
       (Sample.world_with 200 "")).

(** [responses] exists, and the operating system lets nobody write
    there. *)
Definition read_only (status : Z) (body : string) : world :=
  let w := set_fs (<[ ["home"; "responses"] := Dir ]> Sample.fs0)
             (Sample.world_with status body) in
  {| w_fs := w_fs w; w_cwd := w_cwd w;
     w_refuses := fun _ => Some PermissionError;
     w_environ := w_environ w; w_clock := w_clock w; w_ticks := w_ticks w;
     w_server := w_server w; w_sent := w_sent w; w_stdout := w_stdout w |}.


Definition failed_response : GenerateAudioResponse :=
  {| success := PyBool false; message := PyStr "quota exceeded";
     task_id := PyStr "T2"; conversion_id_1 := PyStr "";
     conversion_id_2 := PyStr ""; eta := PyInt 0 |}.

End Cases.


(** * Properties *)

(** ** Text *)

#[local] Arguments String.append : simpl nomatch.

(** The 256 characters, one by one. *)
Ltac ascii_cases c := destruct c as [[|] [|] [|] [|] [|] [|] [|] [|]].

Module TextFacts.
Import Text.

Lemma app_assoc (a b c : string) : (a +:+ b) +:+ c = a +:+ (b +:+ c).
Proof. induction a as [|x a IH]; cbn; [reflexivity|now f_equal]. Qed.

Lemma app_nil_r (a : string) : a +:+ "" = a.
Proof. induction a as [|x a IH]; cbn; [reflexivity|now f_equal]. Qed.

Lemma length_app (a b : string) :
  String.length (a +:+ b) = (String.length a + String.length b)%nat.
Proof. induction a as [|x a IH]; cbn; [reflexivity|now f_equal]. Qed.

Lemma forallb_app p (a b : string) :
  forallb p (a +:+ b) = forallb p a && forallb p b.
Proof.
  induction a as [|x a IH]; simpl; [reflexivity|].
  now rewrite IH, andb_assoc.
Qed.

Lemma forallb_impl (p q : ascii -> bool) (s : string) :
  (forall c, p c = true -> q c = true) ->
  forallb p s = true -> forallb q s = true.
Proof.
  intros Hpq. induction s as [|x s IH]; simpl; [reflexivity|].
  rewrite !andb_true_iff. intros [Hx Hs]. auto.
Qed.

Lemma forallb_replicate p n (s : string) :
  forallb p s = true -> forallb p (replicate n s) = true.
Proof.
  intros Hs. induction n as [|n IH]; simpl; [reflexivity|].
  now rewrite forallb_app, Hs, IH.
Qed.

Lemma digits_of_uint (u : uint) :
  forallb is_digit (NilEmpty.string_of_uint u) = true.
Proof. induction u; simpl; auto. Qed.

Lemma digits_of_uint_zero (u : uint) :
  forallb is_digit (NilZero.string_of_uint u) = true.
Proof. destruct u; try apply (digits_of_uint (_ u)); reflexivity. Qed.

Lemma digits_of_nat (n : nat) : forallb is_digit (of_nat n) = true.
Proof.
  unfold of_nat, of_Z. destruct (Z.of_nat n) eqn:Hz; simpl.
  - reflexivity.
  - apply digits_of_uint_zero.
  - lia.
Qed.

Lemma digits_of_pad (width n : nat) : forallb is_digit (pad width n) = true.
Proof.
  unfold pad. rewrite forallb_app, digits_of_nat, andb_true_r.
  now apply forallb_replicate.
Qed.

Lemma sign_or_digits_of_Z (z : Z) : forallb is_sign_or_digit (of_Z z) = true.
Proof.
  assert (forall u, forallb is_sign_or_digit (NilZero.string_of_uint u) = true)
    as Hu.
  { intros u. apply (forallb_impl is_digit); [|apply digits_of_uint_zero].
    intros c Hc. unfold is_sign_or_digit. now rewrite Hc, orb_true_r. }
  unfold of_Z. destruct z; simpl; auto.
Qed.

Lemma of_Z_inj (a b : Z) : of_Z a = of_Z b -> a = b.
Proof.
  unfold of_Z. intros Heq.
  assert (forall z, NilZero.int_of_string (NilZero.string_of_int (Z.to_int z))
                    = Some (Z.to_int z)) as Hisi.
  { intros z. apply NilZero.isi; destruct z; simpl; try discriminate;
      intros [= H]; now apply DecimalPos.Unsigned.to_uint_nonnil in H. }
  apply DecimalZ.to_int_inj.
  assert (Some (Z.to_int a) = Some (Z.to_int b)) as Hs
      by (rewrite <- !Hisi; now rewrite Heq).
  now injection Hs.
Qed.

Lemma app_inv_head (a b c : string) : a +:+ b = a +:+ c -> b = c.
Proof.
  induction a as [|x a IH]; simpl; [trivial|]. intros [= H]. now apply IH.
Qed.

(** Two texts cut at their first blank are equal part by part. *)
Lemma cut_at_blank (a b x y : string) :
  forallb (fun c => negb (Ascii.eqb c " ")) a = true ->
  forallb (fun c => negb (Ascii.eqb c " ")) b = true ->
  a +:+ String " " x = b +:+ String " " y ->
  a = b /\ x = y.
Proof.
  revert b. induction a as [|c a IH]; intros [|d b]; simpl.
  - intros _ _ [= ->]. tauto.
  - rewrite andb_true_iff. intros _ [Hd _] [= <- _].
    now rewrite Ascii.eqb_refl in Hd.
  - rewrite andb_true_iff. intros [Hc _] _ [= -> _].
    now rewrite Ascii.eqb_refl in Hc.
  - rewrite !andb_true_iff. intros [_ Ha] [_ Hb] [= -> Heq].
    destruct (IH b Ha Hb Heq) as [-> ->]. tauto.
Qed.

End TextFacts.

(** ** JSON *)

Module JsonFacts.
Import Text Json TextFacts.

(** *** Strings *)

Lemma scan_escape_char (c : ascii) (r : string) :
  scan_string (escape_char c +:+ r) = consume c (scan_string r).
Proof.
  ascii_cases c; reflexivity.
Qed.

Lemma scan_escape (s rest : string) :
  scan_string (escape s +:+ String DQ rest) = Some (s, rest).
Proof.
  induction s as [|c s IH]; [reflexivity|].
  simpl escape. rewrite app_assoc, scan_escape_char, IH. reflexivity.
Qed.

Lemma encode_str_app (s rest : string) :
  encode_str s +:+ rest = String DQ (escape s +:+ String DQ rest).
Proof. unfold encode_str. simpl. now rewrite app_assoc. Qed.

(** *** Numbers *)

Lemma digit_of_none (c : ascii) : is_digit c = false -> digit_of c = None.
Proof.
  ascii_cases c;
    (discriminate || reflexivity).
Qed.

Lemma delimited_digit_of (rest : string) :
  delimited rest = true -> scan_digits rest = (Nil, rest).
Proof.
  destruct rest as [|c r]; [reflexivity|]. unfold delimited.
  intros H. rewrite negb_true_iff, !orb_false_iff in H.
  destruct H as [[[Hd _] _] _]. simpl.
  now rewrite (digit_of_none c Hd).
Qed.

Lemma delimited_float_follows (rest : string) :
  delimited rest = true -> float_follows rest = false.
Proof.
  destruct rest as [|c r]; [reflexivity|]. unfold delimited, float_follows.
  intros H. rewrite negb_true_iff, !orb_false_iff in H.
  destruct H as [[[_ ->] ->] ->]. reflexivity.
Qed.

Lemma scan_digits_of_uint (u : uint) (rest : string) :
  delimited rest = true ->
  scan_digits (NilEmpty.string_of_uint u +:+ rest) = (u, rest).
Proof.
  intros Hrest.
  induction u; simpl; try (rewrite IHu; reflexivity).
  now apply delimited_digit_of.
Qed.

Lemma nzhead_not_D0 (d d' : uint) : nzhead d <> D0 d'.
Proof. induction d; simpl; try discriminate. assumption. Qed.

Lemma pos_to_uint_not_D0 (p : positive) (d : uint) : Pos.to_uint p <> D0 d.
Proof.
  intros Heq.
  assert (Pos.to_uint p = unorm (Pos.to_uint p)) as Hnorm.
  { pose proof (DecimalPos.Unsigned.to_of (Pos.to_uint p)) as Hto.
    rewrite DecimalPos.Unsigned.of_to in Hto. now symmetry. }
  rewrite Heq in Hnorm. unfold unorm in Hnorm. simpl in Hnorm.
  destruct (nzhead d) eqn:Hnz; try discriminate.
  - injection Hnorm as ->. now apply (DecimalPos.Unsigned.to_uint_nonzero p).
  - eapply nzhead_not_D0. eassumption.
Qed.

Lemma scan_natural_of_pos (p : positive) (rest : string) :
  delimited rest = true ->
  scan_natural (NilZero.string_of_uint (Pos.to_uint p) +:+ rest)
  = Some (Pos.to_uint p, rest).
Proof.
  intros Hrest. unfold scan_natural.
  pose proof (DecimalPos.Unsigned.to_uint_nonnil p) as Hnil.
  pose proof (pos_to_uint_not_D0 p) as Hzero.
  pose proof (scan_digits_of_uint (Pos.to_uint p) rest Hrest) as Hscan.
  destruct (Pos.to_uint p) as [|u|u|u|u|u|u|u|u|u|u]; simpl in *;
    try congruence; try (now destruct (Hzero u));
    rewrite Hscan; reflexivity.
Qed.

Lemma strip_minus_of_uint (p : positive) (rest : string) :
  strip_prefix "-" (NilZero.string_of_uint (Pos.to_uint p) +:+ rest) = None.
Proof.
  pose proof (DecimalPos.Unsigned.to_uint_nonnil p) as Hnil.
  destruct (Pos.to_uint p); simpl; congruence.
Qed.

Lemma scan_number_of_Z (z : Z) (rest : string) :
  delimited rest = true ->
  scan_number (of_Z z +:+ rest) = Some (z, rest).
Proof.
  intros Hrest. pose proof (DecimalZ.of_to z) as Hz.
  unfold scan_number, of_Z. destruct z as [|p|p];
    cbn [Z.to_int NilZero.string_of_int] in *.
  - simpl. now rewrite (delimited_float_follows rest Hrest).
  - rewrite strip_minus_of_uint, (scan_natural_of_pos p rest Hrest),
      (delimited_float_follows rest Hrest).
    now rewrite Hz.
  - change (strip_prefix "-" (String "-" ?a +:+ ?b)) with (Some (a +:+ b)).
    cbn iota.
    rewrite (scan_natural_of_pos p rest Hrest),
      (delimited_float_follows rest Hrest).
    now rewrite Hz.
Qed.

(** *** Values *)

Lemma encode_list level x items :
  encode level (PyList (x :: items))
  = String "[" (newline_indent (S level)
                  +:+ join (sep (S level)) (map (encode (S level)) (x :: items))
                  +:+ newline_indent level +:+ "]").
Proof. reflexivity. Qed.

Lemma encode_dict level kv entries :
  encode level (PyDict (kv :: entries))
  = String "{" (newline_indent (S level)
                  +:+ join (sep (S level))
                        (map (encode_pair (S level)) (kv :: entries))
                  +:+ newline_indent level +:+ "}").
Proof. reflexivity. Qed.

Lemma starts_with_app p (a b : string) :
  starts_with p a = true -> starts_with p (a +:+ b) = true.
Proof. destruct a; [discriminate|trivial]. Qed.

Lemma of_Z_start (z : Z) : starts_with is_sign_or_digit (of_Z z) = true.
Proof.
  pose proof (sign_or_digits_of_Z z) as Hall.
  assert (of_Z z <> "") as Hne.
  { unfold of_Z. destruct z as [|p|p]; simpl; try discriminate.
    destruct (Pos.to_uint p); discriminate. }
  destruct (of_Z z) as [|c s]; [congruence|].
  simpl in *. now apply andb_true_iff in Hall.
Qed.

Lemma encode_start level v : starts_with value_start (encode level v) = true.
Proof.
  destruct v as [|[|]|z|s|[|x items]|[|kv entries]]; try reflexivity.
  pose proof (of_Z_start z) as Hz. simpl.
  destruct (of_Z z) as [|c r]; [discriminate|]. simpl in *.
  unfold value_start. rewrite Hz. now rewrite !orb_true_r.
Qed.

Lemma value_start_facts (c : ascii) :
  value_start c = true ->
  is_ws c = false /\ Ascii.eqb "]" c = false /\ Ascii.eqb "}" c = false.
Proof.
  ascii_cases c;
    (discriminate || (intros _; repeat split)).
Qed.

Lemma skip_ws_value (s : string) :
  starts_with value_start s = true ->
  skip_ws s = s /\ head_is "]" s = None /\ head_is "}" s = None.
Proof.
  destruct s as [|c r]; [discriminate|]. unfold starts_with, head_is.
  cbn [skip_ws]. intros Hc.
  destruct (value_start_facts c Hc) as (-> & -> & ->). tauto.
Qed.

Lemma skip_ws_newline_indent (level : nat) (s : string) :
  skip_ws (newline_indent level +:+ s) = skip_ws s.
Proof.
  unfold newline_indent. rewrite app_assoc. simpl.
  induction level as [|n IH]; [reflexivity|]. simpl. exact IH.
Qed.

Lemma delimited_newline_indent (level : nat) (s : string) :
  delimited (newline_indent level +:+ s) = true.
Proof. reflexivity. Qed.

(** *** The equations of the parser *)

Lemma parse_value_number fuel c s :
  is_sign_or_digit c = true ->
  parse_value (S fuel) (String c s)
  = match scan_number (String c s) with
    | Some (z, r) => Some (PyInt z, r)
    | None => None
    end.
Proof.
  ascii_cases c;
    (discriminate || (intros _; reflexivity)).
Qed.

Lemma parse_value_string fuel r :
  parse_value (S fuel) (String DQ r)
  = match scan_string r with
    | Some (t, r') => Some (PyStr t, r')
    | None => None
    end.
Proof. reflexivity. Qed.

Lemma parse_value_list fuel r :
  parse_value (S fuel) (String "[" r)
  = match head_is "]" (skip_ws r) with
    | Some r' => Some (PyList [], r')
    | None =>
        match parse_items fuel (skip_ws r) with
        | Some (items, r') => Some (PyList items, r')
        | None => None
        end
    end.
Proof. reflexivity. Qed.

Lemma parse_value_dict fuel r :
  parse_value (S fuel) (String "{" r)
  = match head_is "}" (skip_ws r) with
    | Some r' => Some (PyDict [], r')
    | None =>
        match parse_pairs fuel (skip_ws r) with
        | Some (pairs, r') => Some (PyDict (dict_of_pairs pairs), r')
        | None => None
        end
    end.
Proof. reflexivity. Qed.

Lemma parse_items_eq fuel s :
  parse_items (S fuel) s
  = match parse_value fuel s with
    | None => None
    | Some (v, r) =>
        match skip_ws r with
        | String c r' =>
            if Ascii.eqb c "]" then Some ([v], r')
            else if Ascii.eqb c "," then
              match parse_items fuel (skip_ws r') with
              | Some (items, r'') => Some (v :: items, r'')
              | None => None
              end
            else None
        | EmptyString => None
        end
    end.
Proof. reflexivity. Qed.

Lemma parse_pairs_eq fuel r0 :
  parse_pairs (S fuel) (String DQ r0)
  = match scan_string r0 with
    | None => None
    | Some (k, r1) =>
        match head_is ":" (skip_ws r1) with
        | None => None
        | Some r2 =>
            match parse_value fuel (skip_ws r2) with
            | None => None
            | Some (v, r3) =>
                match skip_ws r3 with
                | String c r4 =>
                    if Ascii.eqb c "}" then Some ([(k, v)], r4)
                    else if Ascii.eqb c "," then
                      match parse_pairs fuel (skip_ws r4) with
                      | Some (pairs, r5) => Some ((k, v) :: pairs, r5)
                      | None => None
                      end
                    else None
                | EmptyString => None
                end
            end
        end
    end.
Proof. reflexivity. Qed.

(** *** Dictionaries *)

Lemma dict_set_fresh k v (d : dict) :
  ~ In k (map fst d) -> dict_set k v d = d ++ [(k, v)].
Proof.
  induction d as [|[k' v'] d IH]; simpl; [reflexivity|].
  intros Hn. destruct (String.eqb_spec k k') as [->|_]; [tauto|].
  rewrite IH; tauto.
Qed.

Lemma dict_of_pairs_nodup (l : list (string * value)) :
  NoDup (map fst l) -> dict_of_pairs l = l.
Proof.
  unfold dict_of_pairs.
  enough (forall acc, NoDup (map fst (acc ++ l)) ->
            fold_left (fun d kv => dict_set (fst kv) (snd kv) d) l acc
            = acc ++ l) as H by (intros Hl; now apply (H [])).
  induction l as [|[k v] l IH]; intros acc Hnd; simpl.
  - now rewrite List.app_nil_r.
  - rewrite dict_set_fresh.
    + rewrite IH; rewrite <- List.app_assoc; [reflexivity|assumption].
    + rewrite List.map_app in Hnd. simpl in Hnd.
      apply NoDup_app in Hnd. destruct Hnd as (_ & Hdisj & _).
      intros Hin. apply list_elem_of_In in Hin.
      apply (Hdisj k Hin). left.
Qed.

(** *** Decoding what was encoded *)

Lemma join_cons (s : string) (a : string) (l : list string) :
  join s (a :: l)
  = a +:+ match l with [] => "" | _ :: _ => s +:+ join s l end.
Proof. destruct l; simpl; [now rewrite app_nil_r|reflexivity]. Qed.

Lemma items_start level x items (tail : string) :
  starts_with value_start
    (join (sep (S level)) (map (encode (S level)) (x :: items)) +:+ tail) = true.
Proof.
  simpl map. rewrite join_cons, app_assoc.
  apply starts_with_app, encode_start.
Qed.

Lemma size_list items : size (PyList items) = S (size_items items).
Proof. reflexivity. Qed.

Lemma size_dict entries : size (PyDict entries) = S (size_pairs entries).
Proof. reflexivity. Qed.

Lemma size_items_cons x items :
  size_items (x :: items) = S (size x + size_items items).
Proof. reflexivity. Qed.

Lemma size_pairs_cons kv entries :
  size_pairs (kv :: entries) = S (size (snd kv) + size_pairs entries).
Proof. reflexivity. Qed.

Lemma size_pos (v : value) : (1 <= size v)%nat.
Proof. destruct v; simpl; lia. Qed.

Lemma encode_list_app level x items rest :
  encode level (PyList (x :: items)) +:+ rest
  = String "[" (newline_indent (S level)
                  +:+ (join (sep (S level)) (map (encode (S level)) (x :: items))
                         +:+ newline_indent level +:+ String "]" rest)).
Proof. rewrite encode_list. cbn [String.append]. now rewrite !app_assoc. Qed.

Lemma encode_dict_app level kv entries rest :
  encode level (PyDict (kv :: entries)) +:+ rest
  = String "{" (newline_indent (S level)
                  +:+ (join (sep (S level))
                         (map (encode_pair (S level)) (kv :: entries))
                         +:+ newline_indent level +:+ String "}" rest)).
Proof. rewrite encode_dict. cbn [String.append]. now rewrite !app_assoc. Qed.

Lemma encode_pair_app level k v (tail : string) :
  encode_pair level (k, v) +:+ tail
  = String DQ (escape k +:+ String DQ (String ":" (String " "
                 (encode level v +:+ tail)))).
Proof.
  unfold encode_pair. cbn [fst snd]. rewrite encode_str_app.
  cbn [String.append]. now rewrite !app_assoc.
Qed.

Lemma pairs_start level kv entries (tail : string) :
  let text := join (sep (S level)) (map (encode_pair (S level)) (kv :: entries))
                +:+ tail in
  skip_ws text = text /\ head_is "}" text = None.
Proof.
  destruct kv as [k v]. cbn [map]. rewrite join_cons, app_assoc, encode_pair_app.
  split; reflexivity.
Qed.

Lemma sep_app level (tail : string) :
  sep level +:+ tail = String "," (newline_indent level +:+ tail).
Proof. unfold sep. cbn [String.append]. reflexivity. Qed.

Lemma parse_encode (fuel : nat) :
  (forall v level rest,
     wf_value v -> (size v <= fuel)%nat -> delimited rest = true ->
     parse_value fuel (encode level v +:+ rest) = Some (v, rest))
  /\ (forall x items level rest,
        wf_items (x :: items) -> (size_items (x :: items) <= fuel)%nat ->
        parse_items fuel
          (join (sep (S level)) (map (encode (S level)) (x :: items))
             +:+ newline_indent level +:+ String "]" rest)
        = Some (x :: items, rest))
  /\ (forall kv entries level rest,
        wf_pairs (kv :: entries) -> (size_pairs (kv :: entries) <= fuel)%nat ->
        parse_pairs fuel
          (join (sep (S level)) (map (encode_pair (S level)) (kv :: entries))
             +:+ newline_indent level +:+ String "}" rest)
        = Some (kv :: entries, rest)).
Proof.
  induction fuel as [|fuel (IHv & IHi & IHp)].
  { repeat split.
    - intros v level rest _ Hsize. pose proof (size_pos v). lia.
    - intros x items level rest _ Hsize. rewrite size_items_cons in Hsize. lia.
    - intros kv entries level rest _ Hsize. rewrite size_pairs_cons in Hsize.
      lia. }
  repeat split.
  - (* values *)
    intros v level rest Hwf Hsize Hrest.
    destruct v as [|[|]|z|s|[|x items]|[|kv entries]]; try reflexivity.
    + (* integers *)
      pose proof (of_Z_start z) as Hstart.
      cbn [encode]. destruct (of_Z z) as [|c r] eqn:Hz; [discriminate|].
      cbn [String.append]. rewrite parse_value_number by exact Hstart.
      change (String c (r +:+ rest)) with (String c r +:+ rest).
      rewrite <- Hz, scan_number_of_Z by exact Hrest. reflexivity.
    + (* strings *)
      cbn [encode]. rewrite encode_str_app, parse_value_string, scan_escape.
      reflexivity.
    + (* lists *)
      rewrite encode_list_app, parse_value_list, skip_ws_newline_indent.
      destruct (skip_ws_value _ (items_start level x items
                  (newline_indent level +:+ String "]" rest)))
        as (-> & -> & _).
      rewrite size_list in Hsize.
      rewrite IHi; [reflexivity|exact Hwf|lia].
    + (* dictionaries *)
      destruct Hwf as [Hnodup Hwf].
      rewrite encode_dict_app, parse_value_dict, skip_ws_newline_indent.
      destruct (pairs_start level kv entries
                  (newline_indent level +:+ String "}" rest)) as (-> & ->).
      rewrite size_dict in Hsize.
      rewrite IHp; [|exact Hwf|lia].
      now rewrite dict_of_pairs_nodup.
  - (* members of a list *)
    intros x items level rest [Hx Hitems] Hsize.
    rewrite size_items_cons in Hsize. rewrite parse_items_eq.
    destruct items as [|y items].
    + cbn [map join]. rewrite IHv; [|exact Hx|lia|reflexivity].
      rewrite skip_ws_newline_indent. reflexivity.
    + cbn [map]. rewrite join_cons, !app_assoc, sep_app.
      rewrite IHv; [|exact Hx|lia|reflexivity].
      cbn [skip_ws]. change (is_ws ",") with false. cbn iota.
      change (Ascii.eqb "," "]") with false.
      change (Ascii.eqb "," ",") with true. cbn iota.
      rewrite skip_ws_newline_indent.
      change (encode (S level) y :: map (encode (S level)) items)
        with (map (encode (S level)) (y :: items)).
      destruct (skip_ws_value _ (items_start level y items
                  (newline_indent level +:+ String "]" rest)))
        as (-> & _ & _).
      rewrite IHi; [reflexivity|exact Hitems|lia].
  - (* members of a dictionary *)
    intros [k v] entries level rest [Hv Hentries] Hsize.
    rewrite size_pairs_cons in Hsize. cbn [snd] in Hsize, Hv.
    assert (forall tail,
              head_is ":" (skip_ws (String ":" (String " "
                             (encode (S level) v +:+ tail))))
              = Some (String " " (encode (S level) v +:+ tail))) as Hcolon
        by reflexivity.
    assert (forall tail,
              skip_ws (String " " (encode (S level) v +:+ tail))
              = encode (S level) v +:+ tail) as Hblank.
    { intros tail. cbn [skip_ws]. change (is_ws " ") with true. cbn iota.
      now destruct (skip_ws_value _ (starts_with_app value_start _ tail
                                       (encode_start (S level) v)))
        as (-> & _ & _). }
    destruct entries as [|[k' v'] entries].
    + cbn [map join]. rewrite encode_pair_app, parse_pairs_eq, scan_escape.
      rewrite Hcolon, Hblank, IHv; [|exact Hv|lia|reflexivity].
      rewrite skip_ws_newline_indent. reflexivity.
    + cbn [map]. rewrite join_cons, !app_assoc, encode_pair_app,
        parse_pairs_eq, scan_escape.
      rewrite Hcolon, Hblank, sep_app, IHv; [|exact Hv|lia|reflexivity].
      cbn [skip_ws]. change (is_ws ",") with false. cbn iota.
      change (Ascii.eqb "," "}") with false.
      change (Ascii.eqb "," ",") with true. cbn iota.
      rewrite skip_ws_newline_indent.
      change (encode_pair (S level) (k', v')
                :: map (encode_pair (S level)) entries)
        with (map (encode_pair (S level)) ((k', v') :: entries)).
      destruct (pairs_start level (k', v') entries
                  (newline_indent level +:+ String "}" rest)) as (-> & _).
      rewrite IHp; [reflexivity|exact Hentries|lia].
Qed.

Lemma sep_length level : (1 <= String.length (sep level))%nat.
Proof. unfold sep. rewrite length_app. simpl. lia. Qed.

(** The text is long enough to serve as fuel. *)
Lemma size_le_length (fuel : nat) :
  (forall v level,
     (size v <= fuel)%nat -> (size v <= String.length (encode level v))%nat)
  /\ (forall items level (s : string),
        (1 <= String.length s)%nat -> (size_items items <= fuel)%nat ->
        (size_items items
         <= String.length (join s (map (encode level) items)) + 1)%nat)
  /\ (forall entries level (s : string),
        (1 <= String.length s)%nat -> (size_pairs entries <= fuel)%nat ->
        (size_pairs entries
         <= String.length (join s (map (encode_pair level) entries)) + 1)%nat).
Proof.
  induction fuel as [|fuel (IHv & IHi & IHp)].
  { repeat split.
    - intros v level Hsize. pose proof (size_pos v). lia.
    - intros [|x items] level s _ Hsize; [simpl; lia|].
      rewrite size_items_cons in Hsize. lia.
    - intros [|kv entries] level s _ Hsize; [simpl; lia|].
      rewrite size_pairs_cons in Hsize. lia. }
  repeat split.
  - intros v level Hsize.
    destruct v as [|[|]|z|s|[|x items]|[|kv entries]]; try (simpl; lia).
    + pose proof (of_Z_start z) as Hz. cbn [encode size].
      destruct (of_Z z); [discriminate|simpl; lia].
    + rewrite size_list in *. rewrite encode_list.
      cbn [String.length]. rewrite !length_app.
      specialize (IHi (x :: items) (S level) (sep (S level))
                    (sep_length (S level))).
      change (String.length "]") with 1%nat. lia.
    + rewrite size_dict in *. rewrite encode_dict.
      cbn [String.length]. rewrite !length_app.
      specialize (IHp (kv :: entries) (S level) (sep (S level))
                    (sep_length (S level))).
      change (String.length "}") with 1%nat. lia.
  - intros [|x items] level s Hs Hsize; [simpl; lia|].
    rewrite size_items_cons in *. cbn [map]. rewrite join_cons, length_app.
    specialize (IHv x level). specialize (IHi items level s Hs).
    destruct items as [|y items]; [simpl in *; lia|].
    cbn [map] in *. rewrite length_app. lia.
  - intros [|[k v] entries] level s Hs Hsize; [simpl; lia|].
    rewrite size_pairs_cons in *. cbn [map snd] in *.
    rewrite join_cons, length_app.
    specialize (IHv v level). specialize (IHp entries level s Hs).
    unfold encode_pair at 1. cbn [fst snd]. rewrite !length_app.
    destruct entries as [|kv entries]; [simpl in *; lia|].
    cbn [map] in *. rewrite length_app. lia.
Qed.

(** Decoding the text [json.dump] wrote gives the value back. *)
Theorem loads_dumps (v : value) : wf_value v -> loads (dumps v) = Some v.
Proof.
  intros Hwf. unfold loads, dumps.
  destruct (skip_ws_value _ (encode_start 0 v)) as (-> & _ & _).
  rewrite <- (app_nil_r (encode 0 v)) at 2.
  destruct (parse_encode (S (String.length (encode 0 v)))) as (Hv & _ & _).
  rewrite Hv; [reflexivity|exact Hwf| |reflexivity].
  destruct (size_le_length (size v)) as (Hlen & _ & _).
  specialize (Hlen v 0%nat). lia.
Qed.

(** *** Texts that are not JSON *)

(** Where no value can start, nothing is decoded. *)
Lemma expecting_value_loads (s : string) :
  expecting_value s = true -> loads s = None.
Proof.
  unfold expecting_value, loads.
  destruct (skip_ws s) as [|c r]; [reflexivity|].
  generalize (String.length s). intros n.
  ascii_cases c; (discriminate || (intros _; reflexivity)).
Qed.

End JsonFacts.

(** ** File system *)

Module FsFacts.
Import Text TextFacts Fs.

Lemma keeps_dirs_refl fs : keeps_dirs fs fs.
Proof. intros k H. exact H. Qed.

Lemma keeps_dirs_trans fs1 fs2 fs3 :
  keeps_dirs fs1 fs2 -> keeps_dirs fs2 fs3 -> keeps_dirs fs1 fs3.
Proof. intros H12 H23 k H. auto. Qed.

Lemma node_at_subseteq (fs fs' : gmap (list string) node) k n :
  fs ⊆ fs' -> node_at fs k = Some n -> node_at fs' k = Some n.
Proof.
  intros Hsub. destruct k as [|x k]; simpl; [trivial|].
  intros H. eapply lookup_weaken; eassumption.
Qed.

Lemma keeps_dirs_subseteq (fs fs' : gmap (list string) node) :
  fs ⊆ fs' -> keeps_dirs fs fs'.
Proof. intros Hsub k. now apply node_at_subseteq. Qed.

Lemma node_at_insert (fs : gmap (list string) node) k n k' :
  k <> [] ->
  node_at (<[k := n]> fs) k' = if decide (k = k') then Some n else node_at fs k'.
Proof.
  intros Hk. destruct k' as [|x k']; simpl.
  - destruct (decide (k = [])); congruence.
  - apply lookup_insert.
Qed.

Lemma keeps_dirs_insert_file (fs : gmap (list string) node) k content :
  node_at fs k <> Some Dir ->
  keeps_dirs fs (<[k := File content]> fs).
Proof.
  intros Hk k' Hdir. destruct k as [|x k]; [now destruct Hk|].
  rewrite node_at_insert by discriminate.
  destruct (decide (x :: k = k')) as [<-|]; [contradiction|assumption].
Qed.

(** *** Walking *)

Lemma walk_keeps fs fs' p p' cur names k :
  keeps_dirs fs fs' ->
  walk fs p cur names = Ok k -> walk fs' p' cur names = Ok k.
Proof.
  intros Hkeep. revert cur.
  induction names as [|name rest IH]; intros cur; simpl; [trivial|].
  destruct (node_at fs cur) as [[|c]|] eqn:Hcur; try discriminate.
  rewrite (Hkeep cur Hcur). apply IH.
Qed.

Lemma walk_snoc fs p p' cur names name k :
  walk fs p cur names = Ok k -> node_at fs k = Some Dir ->
  walk fs p' cur (names ++ [name]) = Ok (step k name).
Proof.
  revert cur. induction names as [|n rest IH]; intros cur; simpl.
  - intros [= ->] ->. reflexivity.
  - destruct (node_at fs cur) as [[|c]|]; try discriminate. apply IH.
Qed.

Lemma walk_snoc_inv fs p cur names name k :
  walk fs p cur (names ++ [name]) = Ok k ->
  exists k0, walk fs p cur names = Ok k0
             /\ node_at fs k0 = Some Dir /\ k = step k0 name.
Proof.
  revert cur. induction names as [|n rest IH]; intros cur; simpl.
  - destruct (node_at fs cur) as [[|c]|] eqn:Hcur; try discriminate.
    intros [= <-]. eauto.
  - destruct (node_at fs cur) as [[|c]|]; try discriminate. apply IH.
Qed.

(** *** Splitting *)

Lemma split_on_nonempty sep s : split_on sep s <> [].
Proof.
  destruct s as [|c r]; simpl; [discriminate|].
  destruct (Ascii.eqb c sep); [discriminate|].
  destruct (split_on sep r); discriminate.
Qed.

Lemma split_on_app (a b : string) :
  split_on "/" (a +:+ String "/" b) = split_on "/" a ++ split_on "/" b.
Proof.
  induction a as [|c a IH]; [reflexivity|].
  cbn [String.append split_on]. rewrite IH.
  destruct (Ascii.eqb c "/"); [reflexivity|].
  pose proof (split_on_nonempty "/" a) as Hne.
  destruct (split_on "/" a); [congruence|reflexivity].
Qed.

Lemma split_on_plain (b : string) :
  forallb (fun c => negb (Ascii.eqb c "/")) b = true ->
  split_on "/" b = [b].
Proof.
  induction b as [|c b IH]; [reflexivity|]. simpl.
  rewrite andb_true_iff, negb_true_iff. intros [-> Hb].
  now rewrite (IH Hb).
Qed.

Lemma ends_with_slash_split (a : string) :
  ends_with_slash a = true -> exists a0, a = a0 +:+ "/".
Proof.
  induction a as [|c a IH]; [discriminate|].
  destruct a as [|d a].
  - simpl. intros Hc. apply Ascii.eqb_eq in Hc. subst. now exists "".
  - intros H. destruct (IH H) as [a0 Ha0]. exists (String c a0).
    cbn [String.append]. now rewrite <- Ha0.
Qed.

(** *** Joining *)

Lemma join_split (d b : string) :
  d <> "" -> plain_name b ->
  exists names,
    split_on "/" (join d b) = names ++ [b]
    /\ is_absolute (join d b) = is_absolute d
    /\ (split_on "/" d = names \/ split_on "/" d = names ++ [""]).
Proof.
  intros Hd (Hplain & Habs & _). unfold join. rewrite Habs.
  destruct (String.eqb_spec d "") as [->|_]; [congruence|]. cbn [orb].
  destruct (ends_with_slash d) eqn:Hslash.
  - destruct (ends_with_slash_split d Hslash) as [d0 ->].
    exists (split_on "/" d0). rewrite app_assoc. cbn [String.append].
    rewrite !split_on_app, (split_on_plain b Hplain).
    repeat split; [|now right].
    destruct d0; reflexivity.
  - exists (split_on "/" d). cbn [String.append].
    rewrite split_on_app, (split_on_plain b Hplain).
    repeat split; [|now left].
    destruct d; [congruence|reflexivity].
Qed.

Lemma resolve_join fs cwd d b k :
  resolve fs cwd d = Ok k -> node_at fs k = Some Dir -> plain_name b ->
  resolve fs cwd (join d b) = Ok (k ++ [b]).
Proof.
  intros Hres Hdir Hb.
  assert (d <> "") as Hd by (intros ->; discriminate).
  destruct (join_split d b Hd Hb) as (names & Hsplit & Habs & Hnames).
  destruct Hb as (_ & _ & Hstep).
  unfold resolve in *. destruct d as [|c d]; [congruence|].
  destruct (join (String c d) b) as [|c' j] eqn:Hj.
  - simpl in Hsplit. destruct names as [|x [|y l]]; try discriminate.
    injection Hsplit as <-. now specialize (Hstep []).
  - rewrite Habs, Hsplit.
    destruct Hnames as [Hn|Hn]; rewrite Hn in Hres.
    + rewrite <- (Hstep k). now apply (walk_snoc fs (String c d)).
    + apply walk_snoc_inv in Hres.
      destruct Hres as (k0 & Hwalk & Hk0 & ->).
      change (step k0 "") with k0 in *. rewrite <- (Hstep k0).
      now apply (walk_snoc fs (String c d)).
Qed.

(** *** Creating directories *)

Lemma adds_dirs_refl fs : adds_dirs fs fs.
Proof. split; [reflexivity|]. intros k n H. now left. Qed.

Lemma adds_dirs_step (fs fs' : gmap (list string) node) k :
  fs !! k = None -> adds_dirs (<[k := Dir]> fs) fs' -> adds_dirs fs fs'.
Proof.
  intros Hk [Hsub Honly]. split.
  - etransitivity; [|exact Hsub]. now apply insert_subseteq.
  - intros k' n Hn. destruct (Honly k' n Hn) as [Hin | ->]; [|now right].
    rewrite lookup_insert in Hin.
    destruct (decide (k = k')); [right; congruence|now left].
Qed.

Lemma makedirs_walk_spec fs p cur names fs1 :
  node_at fs cur = Some Dir ->
  makedirs_walk fs p cur names = Ok fs1 ->
  exists k, (forall p', walk fs1 p' cur names = Ok k)
            /\ node_at fs1 k = Some Dir
            /\ adds_dirs fs fs1.
Proof.
  revert fs cur. induction names as [|name rest IH]; intros fs cur Hcur; simpl.
  - intros [= <-]. exists cur. split; [reflexivity|].
    split; [assumption|apply adds_dirs_refl].
  - rewrite Hcur. destruct (node_at fs (step cur name)) as [[|c]|] eqn:Hnext.
    + intros Hrun. destruct (IH fs _ Hnext Hrun) as (k & Hwalk & Hk & Hadd).
      exists k. split; [|split; assumption].
      intros p'. rewrite (node_at_subseteq fs fs1 cur Dir (proj1 Hadd) Hcur).
      apply Hwalk.
    + discriminate.
    + intros Hrun.
      assert (step cur name <> []) as Hne
          by (intros Heq; rewrite Heq in Hnext; discriminate).
      assert (fs !! step cur name = None) as Hnone
          by (destruct (step cur name); [congruence|exact Hnext]).
      assert (node_at (<[step cur name := Dir]> fs) (step cur name) = Some Dir)
        as Hnew by (rewrite node_at_insert by exact Hne; now rewrite decide_True).
      destruct (IH _ _ Hnew Hrun) as (k & Hwalk & Hk & Hadd).
      apply adds_dirs_step in Hadd; [|exact Hnone].
      exists k. split; [|split; assumption].
      intros p'. rewrite (node_at_subseteq fs fs1 cur Dir (proj1 Hadd) Hcur).
      apply Hwalk.
Qed.

Lemma makedirs_spec fs cwd p fs1 :
  makedirs fs cwd p = Ok fs1 ->
  exists k, resolve fs1 cwd p = Ok k
            /\ node_at fs1 k = Some Dir
            /\ adds_dirs fs fs1.
Proof.
  unfold makedirs, resolve. destruct p as [|c p]; [discriminate|].
  match goal with
  | |- context [makedirs_walk _ _ ?start _] => generalize start
  end.
  intros cur Hrun.
  assert (node_at fs cur = Some Dir) as Hcur.
  { pose proof (split_on_nonempty "/" (String c p)) as Hne.
    destruct (split_on "/" (String c p)) as [|name rest]; [congruence|].
    cbn [makedirs_walk] in Hrun.
    destruct (node_at fs cur) as [[|]|]; congruence. }
  destruct (makedirs_walk_spec _ _ _ _ _ Hcur Hrun) as (k & Hwalk & Hk & Hadd).
  exists k. auto.
Qed.

(** *** Creating directories on a system that may refuse *)

(** When [os.makedirs] returns, the tree is the one the walk gives. *)
Lemma makedirs_os_walk_ok refuses fs p cur names u fs1 :
  makedirs_os_walk refuses fs p cur names = (Ok u, fs1) ->
  makedirs_walk fs p cur names = Ok fs1.
Proof.
  revert fs cur. induction names as [|name rest IH]; intros fs cur; simpl.
  - now intros [= _ <-].
  - destruct (node_at fs cur) as [[|c]|]; try discriminate.
    destruct (node_at fs (step cur name)) as [[|c]|]; try discriminate.
    + apply IH.
    + destruct (refuses (Mkdir (step cur name))); [discriminate|apply IH].
Qed.

Lemma makedirs_os_ok refuses fs cwd p u fs1 :
  makedirs_os refuses fs cwd p = (Ok u, fs1) -> makedirs fs cwd p = Ok fs1.
Proof.
  unfold makedirs_os, makedirs. destruct p as [|c p]; [discriminate|].
  apply makedirs_os_walk_ok.
Qed.

(** A system that refuses nothing does what the tree allows. *)
Lemma makedirs_os_walk_free refuses fs p cur names fs1 :
  (forall c, refuses c = None) ->
  makedirs_walk fs p cur names = Ok fs1 ->
  makedirs_os_walk refuses fs p cur names = (Ok tt, fs1).
Proof.
  intros Hfree. revert fs cur.
  induction names as [|name rest IH]; intros fs cur; simpl.
  - now intros [= <-].
  - destruct (node_at fs cur) as [[|c]|]; try discriminate.
    destruct (node_at fs (step cur name)) as [[|c]|]; try discriminate.
    + apply IH.
    + rewrite Hfree. apply IH.
Qed.

Lemma makedirs_os_free refuses fs cwd p fs1 :
  (forall c, refuses c = None) ->
  makedirs fs cwd p = Ok fs1 ->
  makedirs_os refuses fs cwd p = (Ok tt, fs1).
Proof.
  intros Hfree. unfold makedirs_os, makedirs.
  destruct p as [|c p]; [discriminate|]. now apply makedirs_os_walk_free.
Qed.

(** [exist_ok]: a directory that is there is left as it is, and no
    [mkdir] is there to be refused. *)
Lemma makedirs_os_walk_existing refuses fs p p' cur names k :
  walk fs p cur names = Ok k -> node_at fs k = Some Dir ->
  makedirs_os_walk refuses fs p' cur names = (Ok tt, fs).
Proof.
  revert cur. induction names as [|name rest IH]; intros cur; simpl;
    [reflexivity|].
  destruct (node_at fs cur) as [[|c]|]; try discriminate.
  intros Hwalk Hk.
  assert (node_at fs (step cur name) = Some Dir) as Hnext.
  { destruct rest as [|name' rest']; simpl in Hwalk.
    - injection Hwalk as <-. exact Hk.
    - destruct (node_at fs (step cur name)) as [[|c]|];
        (reflexivity || discriminate). }
  rewrite Hnext. now apply IH.
Qed.

Lemma makedirs_os_existing refuses fs cwd d :
  isdir fs cwd d = true -> makedirs_os refuses fs cwd d = (Ok tt, fs).
Proof.
  unfold isdir, makedirs_os, resolve. destruct d as [|c d];
    [discriminate|].
  destruct (walk fs _ _ _) as [k|e] eqn:Hwalk; [|discriminate].
  destruct (node_at fs k) as [[|content]|] eqn:Hk; try discriminate.
  intros _. eapply makedirs_os_walk_existing; eassumption.
Qed.


End FsFacts.

(** ** The world *)

Lemma set_fs_same (w : world) : set_fs (w_fs w) w = w.
Proof. now destruct w. Qed.

(** ** The response model *)

Lemma dict_get_In k (d : dict) :
  In k (dict_keys d) -> exists v, dict_get k d = Some v.
Proof.
  induction d as [|[k' v'] d IH]; simpl; [tauto|].
  intros [->|Hin].
  - rewrite String.eqb_refl. eauto.
  - destruct (String.eqb k k'); eauto.
Qed.

Lemma dict_get_not_In k (d : dict) :
  ~ In k (dict_keys d) -> dict_get k d = None.
Proof.
  induction d as [|[k' v'] d IH]; simpl; [reflexivity|].
  intros Hn. destruct (String.eqb_spec k k') as [->|Hne]; [tauto|].
  apply IH. tauto.
Qed.

Lemma is_field_spec k : is_field k = true <-> In k field_names.
Proof.
  unfold is_field. rewrite List.existsb_exists. split.
  - intros (x & Hx & Heq). apply String.eqb_eq in Heq. now subst.
  - intros Hin. exists k. split; [assumption|apply String.eqb_refl].
Qed.

Lemma filter_nil_fields (keys : list string) :
  (forall k, In k keys -> In k field_names) ->
  List.filter (fun k => negb (is_field k)) keys = [].
Proof.
  induction keys as [|k keys IH]; intros Hall; simpl; [reflexivity|].
  destruct (is_field k) eqn:Hk; simpl.
  - apply IH. intros k' Hin. apply Hall. now right.
  - assert (In k field_names) as Hin by (apply Hall; now left).
    apply is_field_spec in Hin. congruence.
Qed.

(** A mapping with the six keys and no other builds the record, with the
    value of every key stored as it is, whatever its type. *)
Lemma init_of_exact_keys (entries : dict) :
  (forall k, In k (dict_keys entries) <-> In k field_names) ->
  exists a b c d e f,
    dict_get "success" entries = Some a
    /\ dict_get "message" entries = Some b
    /\ dict_get "task_id" entries = Some c
    /\ dict_get "conversion_id_1" entries = Some d
    /\ dict_get "conversion_id_2" entries = Some e
    /\ dict_get "eta" entries = Some f
    /\ GenerateAudioResponse_init (PyDict entries)
       = Ok {| success := a; message := b; task_id := c;
               conversion_id_1 := d; conversion_id_2 := e; eta := f |}.
Proof.
  intros Hkeys.
  assert (forall k, In k field_names -> exists v, dict_get k entries = Some v)
    as Hget by (intros k Hk; apply dict_get_In, Hkeys, Hk).
  destruct (Hget "success") as [a Ha]; [simpl; tauto|].
  destruct (Hget "message") as [b Hb]; [simpl; tauto|].
  destruct (Hget "task_id") as [c Hc]; [simpl; tauto|].
  destruct (Hget "conversion_id_1") as [d Hd]; [simpl; tauto|].
  destruct (Hget "conversion_id_2") as [e He]; [simpl; tauto|].
  destruct (Hget "eta") as [f Hf]; [simpl; tauto|].
  exists a, b, c, d, e, f. repeat (split; [assumption|]).
  unfold GenerateAudioResponse_init.
  rewrite filter_nil_fields by (intros k Hk; now apply Hkeys).
  now rewrite Ha, Hb, Hc, Hd, He, Hf.
Qed.

(** A mapping that lacks a declared key is refused with [TypeError]. *)
Lemma init_missing_key (entries : dict) k :
  In k field_names -> dict_get k entries = None ->
  exists why, GenerateAudioResponse_init (PyDict entries) = Raise (TypeError why).
Proof.
  intros Hk Hnone. unfold GenerateAudioResponse_init.
  destruct (List.filter _ (dict_keys entries)); [|eauto].
  simpl in Hk.
  destruct Hk as [<-|[<-|[<-|[<-|[<-|[<-|[]]]]]]]; rewrite Hnone;
    repeat match goal with
           | |- context [match dict_get ?x entries with _ => _ end] =>
               destruct (dict_get x entries)
           end; eauto.
Qed.

(** C2.  A mapping with the six keys whose values all have another type
    than the declared one builds a response model: the annotations are
    not enforced, so nothing fails. *)
Theorem init_accepts_ill_typed_values :
  complete Sample.ill_typed = true
  /\ well_typed Sample.ill_typed = false
  /\ GenerateAudioResponse_init (PyDict Sample.ill_typed)
     = Ok {| success := PyStr "yes"; message := PyInt 7; task_id := PyNone;
             conversion_id_1 := PyList []; conversion_id_2 := PyBool false;
             eta := PyStr "soon" |}.
Proof. repeat split. Qed.

Lemma to_dict_get (r : GenerateAudioResponse) k :
  dict_get k [("success", success r); ("message", message r);
              ("task_id", task_id r);
              ("conversion_id_1", conversion_id_1 r);
              ("conversion_id_2", conversion_id_2 r); ("eta", eta r)]
  = if String.eqb k "success" then Some (success r)
    else if String.eqb k "message" then Some (message r)
    else if String.eqb k "task_id" then Some (task_id r)
    else if String.eqb k "conversion_id_1" then Some (conversion_id_1 r)
    else if String.eqb k "conversion_id_2" then Some (conversion_id_2 r)
    else if String.eqb k "eta" then Some (eta r)
    else None.
Proof. reflexivity. Qed.

(** C6.  For a mapping that has exactly the six keys of the schema, with
    values of the declared types, building the response model and taking
    its structured form gives back a dictionary equal to the mapping: the
    same keys, each with the value it had. *)
Theorem to_dict_round_trip (entries : dict) :
  Permutation (dict_keys entries) field_names ->
  well_typed entries = true ->
  exists r out,
    GenerateAudioResponse_init (PyDict entries) = Ok r
    /\ to_dict r = PyDict out
    /\ dict_equiv out entries
    /\ Permutation (dict_keys out) (dict_keys entries).
Proof.
  intros Hperm _.
  assert (forall k, In k (dict_keys entries) <-> In k field_names) as Hkeys.
  { intros k. split; intros H.
    - eapply Permutation_in; eassumption.
    - eapply Permutation_in; [symmetry|]; eassumption. }
  destruct (init_of_exact_keys entries Hkeys)
    as (a & b & c & d & e & f & Ha & Hb & Hc & Hd & He & Hf & Hinit).
  eexists. eexists. split; [exact Hinit|]. split; [reflexivity|]. split.
  - intros k. rewrite to_dict_get. simpl.
    destruct (String.eqb_spec k "success") as [->|N1]; [now rewrite Ha|].
    destruct (String.eqb_spec k "message") as [->|N2]; [now rewrite Hb|].
    destruct (String.eqb_spec k "task_id") as [->|N3]; [now rewrite Hc|].
    destruct (String.eqb_spec k "conversion_id_1") as [->|N4]; [now rewrite Hd|].
    destruct (String.eqb_spec k "conversion_id_2") as [->|N5]; [now rewrite He|].
    destruct (String.eqb_spec k "eta") as [->|N6]; [now rewrite Hf|].
    symmetry. apply dict_get_not_In. rewrite Hkeys. simpl. intuition congruence.
  - simpl. now symmetry.
Qed.

Lemma to_dict_round_trip_witness :
  exists r out,
    GenerateAudioResponse_init (PyDict Sample.queued) = Ok r
    /\ to_dict r = PyDict out
    /\ dict_equiv out Sample.queued
    /\ Permutation (dict_keys out) (dict_keys Sample.queued).
Proof.
  apply (to_dict_round_trip Sample.queued); reflexivity.
Defined.

(** When the keys come in the order of the declaration, the structured
    form is the mapping itself. *)
Lemma to_dict_round_trip_ordered (entries : dict) :
  dict_keys entries = field_names ->
  exists r, GenerateAudioResponse_init (PyDict entries) = Ok r
            /\ to_dict r = PyDict entries.
Proof.
  destruct entries as [|[k1 a] [|[k2 b] [|[k3 c] [|[k4 d] [|[k5 e]
                         [|[k6 f] [|]]]]]]]; try discriminate.
  intros [= -> -> -> -> -> ->]. eexists. split; reflexivity.
Qed.

(** C10.  The documented reply with one more key is refused: the call of
    the constructor fails on the unexpected keyword, and so does
    [generate_audio] when a 200 reply carries that text. *)
Theorem superset_reply_rejected :
  complete Sample.superset = true
  /\ well_typed Sample.superset = true
  /\ is_field "credits" = false
  /\ dict_mem "credits" Sample.superset = true
  /\ GenerateAudioResponse_init (PyDict Sample.superset)
     = Raise (TypeError (UnexpectedKeyword "credits"))
  /\ response_json {| status_code := 200;
                      text := Json.dumps (PyDict Sample.superset) |}
     = Ok (PyDict Sample.superset)
  /\ fst (generate_audio Sample.client "prompt.txt" "pop"
            "http://api.lalals.com" "" "Drake" true
            (Sample.world_with 200 (Json.dumps (PyDict Sample.superset))))
     = Raise (TypeError (UnexpectedKeyword "credits")).
Proof. repeat split; vm_compute; reflexivity. Qed.

(** Any key outside the schema is refused as an unexpected keyword. *)
Lemma init_unexpected_key (entries : dict) k :
  In k (dict_keys entries) -> is_field k = false ->
  exists k', is_field k' = false
             /\ GenerateAudioResponse_init (PyDict entries)
                = Raise (TypeError (UnexpectedKeyword k')).
Proof.
  intros Hin Hk. unfold GenerateAudioResponse_init.
  destruct (List.filter (fun k0 => negb (is_field k0)) (dict_keys entries))
    as [|k' rest] eqn:Hf.
  - assert (In k (List.filter (fun k0 => negb (is_field k0)) (dict_keys entries)))
      as Habs by (apply List.filter_In; split; [assumption|now rewrite Hk]).
    rewrite Hf in Habs. destruct Habs.
  - exists k'. split; [|reflexivity].
    assert (In k' (List.filter (fun k0 => negb (is_field k0)) (dict_keys entries)))
      as Hk' by (rewrite Hf; now left).
    apply List.filter_In in Hk'. destruct Hk' as [_ Hk'].
    now destruct (is_field k').
Qed.

(** ** The configuration *)

(** C9.  When the document named by [CONFIG_FILE] loads as a mapping,
    the configuration holds that mapping, and [get_prompt_path] and
    [get_lyrics_path] return the value of [prompt_file] and of
    [lyrics_file], or the empty string when the key is absent. *)
Theorem configuration_getters
    (yaml_safe_load : string -> result value) (w : world)
    (fn content : string) (doc : dict) :
  w_environ w !! "CONFIG_FILE" = Some fn ->
  Fs.read (w_fs w) (w_cwd w) fn = Ok content ->
  yaml_safe_load content = Ok (PyDict doc) ->
  exists cfg,
    Configuration_init yaml_safe_load w = (Ok cfg, w)
    /\ config_file cfg = PyDict doc
    /\ (forall v, dict_get "prompt_file" doc = Some v ->
                  get_prompt_path cfg = Ok v)
    /\ (dict_get "prompt_file" doc = None ->
        get_prompt_path cfg = Ok (PyStr ""))
    /\ (forall v, dict_get "lyrics_file" doc = Some v ->
                  get_lyrics_path cfg = Ok v)
    /\ (dict_get "lyrics_file" doc = None ->
        get_lyrics_path cfg = Ok (PyStr "")).
Proof.
  intros Henv Hread Hyaml. exists {| config_file := PyDict doc |}.
  split.
  - unfold Configuration_init, bind, os_getenv, open_read, lift, ret.
    now rewrite Henv, Hread, Hyaml.
  - split; [reflexivity|].
    unfold get_prompt_path, get_lyrics_path, py_get. simpl.
    repeat split; intros;
      match goal with H : dict_get _ doc = _ |- _ => now rewrite H end.
Qed.

Lemma configuration_getters_witness :
  exists cfg,
    Configuration_init Sample.yaml_of_json (Sample.world_with 200 "")
    = (Ok cfg, Sample.world_with 200 "")
    /\ get_prompt_path cfg = Ok (PyStr "prompt.txt")
    /\ get_lyrics_path cfg = Ok (PyStr "").
Proof.
  destruct (configuration_getters Sample.yaml_of_json
              (Sample.world_with 200 "") "config.yaml"
              Sample.config_text
              [("prompt_file", PyStr "prompt.txt")])
    as (cfg & Hinit & _ & Hp & _ & _ & Hl);
    [reflexivity | reflexivity | reflexivity |].
  exists cfg. split; [exact Hinit|]. split.
  - apply Hp. reflexivity.
  - apply Hl. reflexivity.
Defined.

(** A document that is not a mapping has no [get]. *)
Lemma getters_need_a_mapping (cfg : Configuration) :
  (forall d, config_file cfg <> PyDict d) ->
  get_prompt_path cfg = Raise AttributeError
  /\ get_lyrics_path cfg = Raise AttributeError.
Proof.
  intros Hn. unfold get_prompt_path, get_lyrics_path, py_get.
  destruct (config_file cfg); try (split; reflexivity).
  now destruct (Hn entries).
Qed.

(** ** The client *)

Lemma load_dotenv_returns dotenv_values path w :
  exists w', load_dotenv dotenv_values path w = (Ok tt, w')
             /\ w_environ w' !! "LALAS_API_KEY"
                = key_found dotenv_values path w.
Proof.
  unfold load_dotenv, key_found, credentials_file_key, Fs.isfile, Fs.read.
  destruct (Fs.resolve (w_fs w) (w_cwd w) path) as [k|e].
  - destruct (Fs.node_at (w_fs w) k) as [[|content]|].
    + eexists; split; [reflexivity|]. now destruct (w_environ w !! _).
    + eexists; split; [reflexivity|]. simpl.
      destruct (w_environ w !! "LALAS_API_KEY") as [v|] eqn:Henv.
      * now apply lookup_union_Some_l.
      * now apply lookup_union_r.
    + eexists; split; [reflexivity|]. now destruct (w_environ w !! _).
  - eexists; split; [reflexivity|]. now destruct (w_environ w !! _).
Qed.




Lemma read_prompt_found self file_path w content :
  Fs.read (w_fs w) (w_cwd w) file_path = Ok content ->
  read_prompt_from_file self file_path w = (Ok (Text.strip content), w).
Proof.
  intros Hread.
  unfold read_prompt_from_file, catch_FileNotFoundError, bind, open_read, ret.
  now rewrite Hread.
Qed.

Lemma read_prompt_missing self file_path w :
  no_such_file w file_path = true ->
  read_prompt_from_file self file_path w = (Raise (prompt_not_found file_path), w).
Proof.
  unfold no_such_file. intros Hmiss.
  unfold read_prompt_from_file, catch_FileNotFoundError, bind, open_read, ret.
  destruct (Fs.read (w_fs w) (w_cwd w) file_path) as [c|[]];
    try discriminate. reflexivity.
Qed.

(** C7.  When the prompt file does not exist, [generate_audio] fails with
    the [FileNotFoundError] of [read_prompt_from_file] and leaves the
    world as it was: no request has been issued. *)
Theorem generate_audio_missing_prompt (self : LalasAPI)
    (prompt_file music_style webhook_url lyrics voice_id : string)
    (save_response_files : bool) (w : world) :
  no_such_file w prompt_file = true ->
  generate_audio self prompt_file music_style webhook_url lyrics voice_id
    save_response_files w
  = (Raise (prompt_not_found prompt_file), w).
Proof.
  intros Hmiss. unfold generate_audio, bind.
  now rewrite (read_prompt_missing self prompt_file w Hmiss).
Qed.

Lemma generate_audio_missing_prompt_witness :
  generate_audio Sample.client "nowhere.txt" "pop" "http://api.lalals.com"
    "" "Drake" true (Sample.world_with 200 "")
  = (Raise (prompt_not_found "nowhere.txt"), Sample.world_with 200 "")
  /\ w_sent (Sample.world_with 200 "") = [].
Proof.
  split; [|reflexivity].
  apply (generate_audio_missing_prompt Sample.client "nowhere.txt").
  reflexivity.
Defined.

(** C3.  When the prompt has been read and the submission endpoint
    answers with another status than 200, [generate_audio] fails with the
    exception built from that reply, from which the status and the body
    can be read back; the request has been sent once, no response model is
    returned, and neither the files nor the output have changed. *)
Theorem generate_audio_non_200 (self : LalasAPI)
    (prompt_file music_style webhook_url lyrics voice_id : string)
    (save_response_files : bool) (w : world) (content : string)
    (resp : response) :
  Fs.read (w_fs w) (w_cwd w) prompt_file = Ok content ->
  w_server w (submission self (Text.strip content) music_style webhook_url
                lyrics voice_id) = Ok resp ->
  status_code resp <> 200 ->
  exists w',
    generate_audio self prompt_file music_style webhook_url lyrics voice_id
      save_response_files w = (Raise (api_error resp), w')
    /\ (forall resp', api_error resp' = api_error resp -> resp' = resp)
    /\ w_sent w' = w_sent w ++ [submission self (Text.strip content)
                                  music_style webhook_url lyrics voice_id]
    /\ w_fs w' = w_fs w
    /\ w_stdout w' = w_stdout w.
Proof.
  intros Hread Hserver Hstatus. eexists.
  unfold generate_audio, bind.
  rewrite (read_prompt_found self prompt_file w content Hread).
  unfold send. fold (submission self (Text.strip content) music_style
                       webhook_url lyrics voice_id).
  rewrite Hserver. apply Z.eqb_neq in Hstatus. rewrite Hstatus. simpl.
  split; [reflexivity|]. split; [|repeat split].
  intros [s' t'] Heq. destruct resp as [s t]. unfold api_error in Heq.
  simpl in Heq. injection Heq as Heq.
  apply (TextFacts.cut_at_blank (Text.of_Z s') (Text.of_Z s)) in Heq.
  - destruct Heq as [Hs Ht]. apply TextFacts.of_Z_inj in Hs.
    injection Ht as ->. now subst.
  - apply (TextFacts.forallb_impl Text.is_sign_or_digit);
      [|apply TextFacts.sign_or_digits_of_Z].
    intros c Hc. destruct (Ascii.eqb_spec c " ") as [->|]; [discriminate|reflexivity].
  - apply (TextFacts.forallb_impl Text.is_sign_or_digit);
      [|apply TextFacts.sign_or_digits_of_Z].
    intros c Hc. destruct (Ascii.eqb_spec c " ") as [->|]; [discriminate|reflexivity].
Qed.

Lemma generate_audio_non_200_witness :
  exists w',
    generate_audio Sample.client "prompt.txt" "pop" "http://api.lalals.com"
      "" "Drake" true (Sample.world_with 404 "not found")
    = (Raise (Exception_ "Error en la API: 404 - not found"), w')
    /\ w_fs w' = Sample.fs0
    /\ w_stdout w' = [].
Proof.
  destruct (generate_audio_non_200 Sample.client "prompt.txt" "pop"
              "http://api.lalals.com" "" "Drake" true
              (Sample.world_with 404 "not found") "  upbeat summer anthem  "
              {| status_code := 404; text := "not found" |})
    as (w' & Hrun & _ & _ & Hfs & Hout);
    [reflexivity | reflexivity | discriminate |].
  exists w'. split; [exact Hrun|]. split; assumption.
Defined.

(** C1.  Called with the task identifier ["T1"], [retrieve_audio] issues
    one GET to [base_url/byId] whose [conversionType] parameter is the
    argument, but whose [task_id] parameter is the literal written in the
    body of the function, not ["T1"]. *)
Theorem retrieve_audio_ignores_task_id (self : LalasAPI)
    (conversion_type : string) (w : world) :
  exists rq,
    w_sent (snd (retrieve_audio self "T1" conversion_type w)) = w_sent w ++ [rq]
    /\ rq = retrieval self hardcoded_task_id conversion_type
    /\ rq <> retrieval self "T1" conversion_type
    /\ query_param "conversionType" rq = Some (PyStr conversion_type)
    /\ query_param "task_id" rq = Some (PyStr hardcoded_task_id)
    /\ query_param "task_id" rq <> Some (PyStr "T1").
Proof.
  exists (retrieval self hardcoded_task_id conversion_type).
  split; [|repeat split; discriminate].
  unfold retrieve_audio, bind, send, lift, print, ret. simpl.
  fold hardcoded_task_id.
  fold (retrieval self hardcoded_task_id conversion_type).
  destruct (w_server w _) as [resp|e]; [|reflexivity].
  destruct (status_code resp =? 200); [|reflexivity].
  destruct (response_json resp); reflexivity.
Qed.

(** The parameter is ignored: every task identifier gives the request of
    the literal one. *)
Lemma retrieve_audio_task_id_irrelevant (self : LalasAPI)
    (task_id task_id' conversion_type : string) (w : world) :
  retrieve_audio self task_id conversion_type w
  = retrieve_audio self task_id' conversion_type w.
Proof. reflexivity. Qed.

(** C4.  When the retrieval endpoint answers with another status than
    200, [retrieve_audio] returns normally and nothing has been printed:
    the failure is neither raised nor reported. *)
Theorem retrieve_audio_failure_is_silent (self : LalasAPI)
    (task_id conversion_type : string) (w : world) (resp : response) :
  w_server w (retrieval self hardcoded_task_id conversion_type) = Ok resp ->
  status_code resp <> 200 ->
  exists w',
    retrieve_audio self task_id conversion_type w = (Ok tt, w')
    /\ w_stdout w' = w_stdout w
    /\ w_fs w' = w_fs w.
Proof.
  intros Hserver Hstatus. eexists.
  unfold retrieve_audio, bind, send.
  fold hardcoded_task_id.
  fold (retrieval self hardcoded_task_id conversion_type).
  rewrite Hserver.
  apply Z.eqb_neq in Hstatus. rewrite Hstatus.
  repeat split.
Qed.

Lemma retrieve_audio_failure_is_silent_witness :
  exists w',
    retrieve_audio Sample.client "T1" "MUSIC_AI"
      (Sample.world_with 404 "not found") = (Ok tt, w')
    /\ w_stdout w' = []
    /\ w_fs w' = Sample.fs0.
Proof.
  apply (retrieve_audio_failure_is_silent Sample.client "T1" "MUSIC_AI"
           (Sample.world_with 404 "not found")
           {| status_code := 404; text := "not found" |});
    [reflexivity | discriminate].
Defined.

(** On a 200 reply the decoded body is printed. *)
Lemma retrieve_audio_200 (self : LalasAPI)
    (task_id conversion_type : string) (w : world) (resp : response)
    (body : value) :
  w_server w (retrieval self hardcoded_task_id conversion_type) = Ok resp ->
  status_code resp = 200 ->
  response_json resp = Ok body ->
  exists w',
    retrieve_audio self task_id conversion_type w = (Ok tt, w')
    /\ w_stdout w' = w_stdout w ++ ["Response: " +:+ Repr.str body].
Proof.
  intros Hserver Hstatus Hbody. eexists.
  unfold retrieve_audio, bind, send.
  fold hardcoded_task_id.
  fold (retrieval self hardcoded_task_id conversion_type).
  rewrite Hserver, Hstatus. simpl. unfold lift. rewrite Hbody.
  split; reflexivity.
Qed.

(** ** Saving a response *)

Lemma not_slash_digits (s : string) :
  Text.forallb Text.is_digit s = true ->
  Text.forallb (fun c => negb (Ascii.eqb c "/")) s = true.
Proof.
  apply TextFacts.forallb_impl. intros c Hc.
  destruct (Ascii.eqb_spec c "/") as [->|]; [discriminate|reflexivity].
Qed.

Lemma strftime_compact_plain (t : datetime) :
  Text.forallb (fun c => negb (Ascii.eqb c "/")) (strftime_compact t) = true.
Proof.
  unfold strftime_compact.
  rewrite !TextFacts.forallb_app.
  repeat match goal with
         | |- context [Text.forallb _ (Text.pad ?width ?n)] =>
             rewrite (not_slash_digits (Text.pad width n))
               by apply TextFacts.digits_of_pad
         end.
  reflexivity.
Qed.

Lemma response_name_plain (t : datetime) (suffix : string) :
  Text.forallb (fun c => negb (Ascii.eqb c "/")) suffix = true ->
  Fs.plain_name ("lalas_response_" +:+ strftime_compact t +:+ suffix).
Proof.
  intros Hs. split; [|split; [reflexivity|intros k; reflexivity]].
  now rewrite !TextFacts.forallb_app, strftime_compact_plain, Hs.
Qed.

Lemma write_file (fs : gmap (list string) node) cwd p content k :
  Fs.resolve fs cwd p = Ok k -> Fs.node_at fs k <> Some Dir ->
  Fs.create fs cwd p = Ok (k, <[k := File ""]> fs)
  /\ Fs.append (<[k := File ""]> fs) k content = <[k := File content]> fs.
Proof.
  intros Hres Hk. unfold Fs.create, Fs.append. rewrite Hres. split.
  - destruct (Fs.node_at fs k) as [[|c]|]; congruence.
  - rewrite lookup_insert_eq. now rewrite insert_insert_eq.
Qed.

Lemma isdir_false_node fs cwd p k :
  Fs.resolve fs cwd p = Ok k -> Fs.isdir fs cwd p = false ->
  Fs.node_at fs k <> Some Dir.
Proof. unfold Fs.isdir. intros -> H Hk. now rewrite Hk in H. Qed.

Lemma read_file (fs : gmap (list string) node) cwd p k content :
  Fs.resolve fs cwd p = Ok k -> k <> [] -> fs !! k = Some (File content) ->
  Fs.read fs cwd p = Ok content.
Proof.
  intros Hres Hne Hk. unfold Fs.read. rewrite Hres.
  destruct k; [congruence|]. simpl. now rewrite Hk.
Qed.

(** What [save_response] does when its three calls into the file system
    succeed. *)
Lemma save_response_run (self : LalasAPI) (response : GenerateAudioResponse)
    (output_dir : string) (w : world) fs1 ktxt fs2 kjson fs4 :
  Fs.makedirs_os (w_refuses w) (w_fs w) (w_cwd w) output_dir = (Ok tt, fs1) ->
  Fs.create fs1 (w_cwd w) (saved_txt_path output_dir w) = Ok (ktxt, fs2) ->
  w_refuses w (Fs.OpenW ktxt) = None /\ w_refuses w (Fs.Write ktxt) = None ->
  Fs.create (Fs.append fs2 ktxt (saved_txt response w)) (w_cwd w)
    (saved_json_path output_dir w) = Ok (kjson, fs4) ->
  w_refuses w (Fs.OpenW kjson) = None /\ w_refuses w (Fs.Write kjson) = None ->
  save_response self response output_dir w
  = (Ok (saved_txt_path output_dir w, saved_json_path output_dir w),
     set_fs (Fs.append fs4 kjson (Json.dumps (to_dict response)))
       (set_ticks (S (S (w_ticks w))) w)).
Proof.
  unfold saved_txt_path, saved_json_path, saved_txt, saved_base.
  intros Hmk Hc1 [Ho1 Hw1] Hc2 [Ho2 Hw2].
  unfold save_response, bind, os_makedirs. rewrite Hmk.
  unfold datetime_now at 1. cbn [w_clock w_ticks set_fs set_ticks].
  unfold open_write at 1. cbn [w_fs w_cwd w_refuses set_fs set_ticks].
  rewrite Hc1, Ho1.
  unfold to_txt_format, bind, datetime_now, ret, file_write.
  cbn [w_fs w_cwd w_refuses w_clock w_ticks set_fs set_ticks].
  rewrite Hw1.
  unfold open_write. cbn [w_fs w_cwd w_refuses set_fs set_ticks].
  rewrite Hc2, Ho2. cbn [w_fs w_cwd w_refuses set_fs set_ticks].
  rewrite Hw2.
  reflexivity.
Qed.

(** What [can_save] says, taken apart. *)
Lemma can_save_inv (output_dir : string) (w : world) :
  can_save output_dir w = true ->
  exists fs1,
    Fs.makedirs_os (w_refuses w) (w_fs w) (w_cwd w) output_dir = (Ok tt, fs1)
    /\ Fs.makedirs (w_fs w) (w_cwd w) output_dir = Ok fs1
    /\ Fs.isdir fs1 (w_cwd w) (saved_txt_path output_dir w) = false
    /\ Fs.isdir fs1 (w_cwd w) (saved_json_path output_dir w) = false
    /\ allowed w fs1 (saved_txt_path output_dir w) = true
    /\ allowed w fs1 (saved_json_path output_dir w) = true.
Proof.
  unfold can_save.
  destruct (Fs.makedirs_os _ _ _ _) as [[[]|e] fs1] eqn:Hos; [|discriminate].
  rewrite !andb_true_iff, !negb_true_iff. intros [[[Ht Hj] Hat] Haj].
  exists fs1. pose proof (FsFacts.makedirs_os_ok _ _ _ _ _ _ Hos). auto 10.
Qed.

Lemma allowed_key (w : world) fs p k :
  Fs.resolve fs (w_cwd w) p = Ok k -> allowed w fs p = true ->
  w_refuses w (Fs.OpenW k) = None /\ w_refuses w (Fs.Write k) = None.
Proof.
  unfold allowed, accepts. intros ->.
  now destruct (w_refuses w (Fs.OpenW k)), (w_refuses w (Fs.Write k)).
Qed.

Lemma resolve_keeps fs fs' cwd p k :
  Fs.keeps_dirs fs fs' ->
  Fs.resolve fs cwd p = Ok k -> Fs.resolve fs' cwd p = Ok k.
Proof.
  intros Hkeep. unfold Fs.resolve. destruct p; [discriminate|].
  now apply FsFacts.walk_keeps.
Qed.

Lemma field_names_nodup : NoDup field_names.
Proof.
  unfold field_names.
  repeat (apply NoDup_cons; split;
          [rewrite ?not_elem_of_cons; repeat split; try discriminate;
           apply not_elem_of_nil|]).
  apply NoDup_nil_2.
Qed.

Lemma scalar_wf (v : value) : scalar v = true -> wf_value v.
Proof. destruct v; (exact (fun _ => I) || discriminate). Qed.

Lemma scalar_fields_wf (r : GenerateAudioResponse) :
  scalar_fields r = true -> wf_response r.
Proof.
  unfold scalar_fields. rewrite !andb_true_iff.
  intros [[[[[H1 H2] H3] H4] H5] H6].
  repeat split; now apply scalar_wf.
Qed.

Lemma wf_to_dict (r : GenerateAudioResponse) :
  wf_response r -> wf_value (to_dict r).
Proof.
  intros (H1 & H2 & H3 & H4 & H5 & H6). split.
  - exact field_names_nodup.
  - simpl. tauto.
Qed.

(** C5, as amended.  For a response whose fields hold scalars, when
    [os.makedirs] accepts the output directory, neither file name is
    taken by a directory and the operating system lets both files be
    opened for writing and written, [save_response] returns the two
    paths [lalas_response_<timestamp>.txt] and
    [lalas_response_<timestamp>.json] under the output directory, which is
    a directory afterwards; besides the directories [os.makedirs] added,
    the file system differs in these two files only, the first holding the
    display text and the second the indented JSON text of the structured
    form, and decoding that JSON text gives the structured form back. *)
Theorem save_response_writes_two_files (self : LalasAPI)
    (response : GenerateAudioResponse) (output_dir : string) (w : world) :
  scalar_fields response = true ->
  can_save output_dir w = true ->
  exists w' dir fs1,
    save_response self response output_dir w
    = (Ok (saved_txt_path output_dir w, saved_json_path output_dir w), w')
    /\ Fs.makedirs_os (w_refuses w) (w_fs w) (w_cwd w) output_dir
       = (Ok tt, fs1)
    /\ Fs.adds_dirs (w_fs w) fs1
    /\ Fs.resolve (w_fs w') (w_cwd w) output_dir = Ok dir
    /\ Fs.isdir (w_fs w') (w_cwd w) output_dir = true
    /\ dir ++ [saved_base w +:+ ".txt"] <> dir ++ [saved_base w +:+ ".json"]
    /\ w_fs w'
       = <[dir ++ [saved_base w +:+ ".json"] :=
             File (Json.dumps (to_dict response))]>
           (<[dir ++ [saved_base w +:+ ".txt"] :=
                File (saved_txt response w)]> fs1)
    /\ Fs.read (w_fs w') (w_cwd w) (saved_txt_path output_dir w)
       = Ok (saved_txt response w)
    /\ Fs.read (w_fs w') (w_cwd w) (saved_json_path output_dir w)
       = Ok (Json.dumps (to_dict response))
    /\ Json.loads (Json.dumps (to_dict response)) = Some (to_dict response).
Proof.
  intros Hwf Hcan. apply scalar_fields_wf in Hwf.
  destruct (can_save_inv _ _ Hcan) as (fs1 & Hos & Hmk & Htxt & Hjson & Hat & Haj).
  destruct (FsFacts.makedirs_spec _ _ _ _ Hmk) as (dir & Hres & Hdir & Hadd).
  set (cwd := w_cwd w) in *.
  set (ntxt := saved_base w +:+ ".txt").
  set (njson := saved_base w +:+ ".json").
  set (txt := saved_txt response w).
  set (json := Json.dumps (to_dict response)).
  assert (Fs.plain_name ntxt) as Pt
      by (apply response_name_plain; reflexivity).
  assert (Fs.plain_name njson) as Pj
      by (apply response_name_plain; reflexivity).
  assert (dir ++ [ntxt] <> dir ++ [njson]) as Hne.
  { intros Heq. apply List.app_inv_head in Heq. injection Heq as Heq.
    unfold ntxt, njson in Heq. apply TextFacts.app_inv_head in Heq.
    discriminate. }
  assert (dir ++ [ntxt] <> []) as Hnt by (destruct dir; discriminate).
  assert (dir ++ [njson] <> []) as Hnj by (destruct dir; discriminate).
  (* the text file *)
  pose proof (FsFacts.resolve_join _ _ _ _ _ Hres Hdir Pt) as Hrt.
  pose proof (isdir_false_node _ _ _ _ Hrt Htxt) as Hnodir.
  destruct (write_file fs1 cwd _ txt _ Hrt Hnodir) as (Hc1 & Ha1).
  match type of Ha1 with _ = ?fs => set (fs3 := fs) in * end.
  assert (Fs.keeps_dirs fs1 fs3) as Hk13
      by (now apply FsFacts.keeps_dirs_insert_file).
  (* the JSON file *)
  pose proof (FsFacts.resolve_join _ _ _ _ _ Hres Hdir Pj) as Hrj1.
  pose proof (isdir_false_node _ _ _ _ Hrj1 Hjson) as Hnodir1.
  pose proof (resolve_keeps _ _ _ _ _ Hk13 Hrj1) as Hrj.
  assert (Fs.node_at fs3 (dir ++ [njson]) <> Some Dir) as Hnodir3.
  { unfold fs3. rewrite FsFacts.node_at_insert by exact Hnt.
    now rewrite decide_False by exact Hne. }
  destruct (write_file fs3 cwd _ json _ Hrj Hnodir3) as (Hc2 & Ha2).
  match type of Ha2 with _ = ?fs => set (fs5 := fs) in * end.
  assert (Fs.keeps_dirs fs3 fs5) as Hk35
      by (now apply FsFacts.keeps_dirs_insert_file).
  assert (Fs.keeps_dirs fs1 fs5) as Hk15
      by (eapply FsFacts.keeps_dirs_trans; eassumption).
  exists (set_fs fs5 (set_ticks (S (S (w_ticks w))) w)), dir, fs1.
  cbn [w_fs set_fs set_ticks].
  split.
  { rewrite <- Ha2.
    apply (save_response_run self response output_dir w fs1 (dir ++ [ntxt])
             (<[dir ++ [ntxt] := File ""]> fs1));
      [exact Hos|exact Hc1|exact (allowed_key _ _ _ _ Hrt Hat)| |
       exact (allowed_key _ _ _ _ Hrj1 Haj)].
    fold txt. rewrite Ha1. exact Hc2. }
  split; [exact Hos|].
  split; [exact Hadd|].
  pose proof (resolve_keeps _ _ _ _ _ Hk15 Hres) as Hres5.
  split; [exact Hres5|].
  split; [unfold Fs.isdir; now rewrite Hres5, (Hk15 dir Hdir)|].
  split; [exact Hne|].
  split; [reflexivity|].
  split.
  { apply (read_file fs5 cwd _ (dir ++ [ntxt])).
    - now apply (resolve_keeps fs1).
    - exact Hnt.
    - unfold fs5, fs3. rewrite lookup_insert_ne by congruence.
      apply lookup_insert_eq. }
  split.
  { apply (read_file fs5 cwd _ (dir ++ [njson])).
    - now apply (resolve_keeps fs1).
    - exact Hnj.
    - apply lookup_insert_eq. }
  apply JsonFacts.loads_dumps, wf_to_dict, Hwf.
Qed.

Lemma save_response_writes_two_files_witness :
  exists w',
    save_response Sample.client Sample.queued_response "out/responses"
      (Sample.world_with 200 "")
    = (Ok ("out/responses/lalas_response_20260102_030405.txt",
           "out/responses/lalas_response_20260102_030405.json"), w')
    /\ Fs.isdir (w_fs w') ["home"] "out/responses" = true
    /\ Fs.read (w_fs w') ["home"]
         "out/responses/lalas_response_20260102_030405.json"
       = Ok (Json.dumps (PyDict Sample.queued))
    /\ Json.loads (Json.dumps (PyDict Sample.queued))
       = Some (PyDict Sample.queued).
Proof.
  destruct (save_response_writes_two_files Sample.client
              Sample.queued_response "out/responses"
              (Sample.world_with 200 ""))
    as (w' & dir & fs1 & Hrun & _ & _ & _ & Hisdir & _ & _ & _ & Hread & Hloads).
  - vm_compute. reflexivity.
  - vm_compute. reflexivity.
  - exists w'. split; [exact Hrun|].
    split; [exact Hisdir|]. split; [exact Hread|exact Hloads].
Defined.

(** C5, as stated, fails: the empty output directory is refused by
    [os.makedirs], so no path is returned and no file is written. *)
Lemma save_response_empty_output_dir :
  wf_response Sample.queued_response
  /\ save_response Sample.client Sample.queued_response ""
       (Sample.world_with 200 "")
     = (Raise (FileNotFoundError "[Errno 2] No such file or directory: ''"),
        Sample.world_with 200 "").
Proof. split; [repeat split|reflexivity]. Qed.

(** Nor is an output directory whose name is taken by a file. *)
Lemma save_response_output_dir_is_a_file :
  save_response Sample.client Sample.queued_response "prompt.txt"
    (Sample.world_with 200 "")
  = (Raise FileExistsError, Sample.world_with 200 "").
Proof. reflexivity. Qed.

(** Nor can a directory that is there be written to when the operating
    system says no. *)
Lemma save_response_read_only :
  Fs.isdir (w_fs (Cases.read_only 200 "")) ["home"] "responses" = true
  /\ save_response Sample.client Sample.queued_response "responses"
       (Cases.read_only 200 "")
     = (Raise PermissionError, set_ticks 1 (Cases.read_only 200 "")).
Proof. split; reflexivity. Qed.

(** * Further properties *)

(** ** The response model, again *)

Lemma filter_nil_is_field (keys : list string) :
  List.filter (fun k => negb (is_field k)) keys = [] ->
  forall k, In k keys -> In k field_names.
Proof.
  induction keys as [|k0 keys IH]; simpl; [tauto|].
  destruct (is_field k0) eqn:Hk0; simpl; [|discriminate].
  intros Hnil k [<- | Hin]; [now apply is_field_spec | now apply IH].
Qed.

(** What a successful construction says of the mapping. *)
Lemma init_ok_inv (entries : dict) (r : GenerateAudioResponse) :
  GenerateAudioResponse_init (PyDict entries) = Ok r ->
  (forall k, In k (dict_keys entries) <-> In k field_names)
  /\ forall k, dict_get k entries = dict_get k (fields r).
Proof.
  unfold GenerateAudioResponse_init.
  destruct (List.filter _ (dict_keys entries)) eqn:Hfilter; [|discriminate].
  destruct (dict_get "success" entries) as [a|] eqn:Ha; [|discriminate].
  destruct (dict_get "message" entries) as [b|] eqn:Hb; [|discriminate].
  destruct (dict_get "task_id" entries) as [c|] eqn:Hc; [|discriminate].
  destruct (dict_get "conversion_id_1" entries) as [d|] eqn:Hd;
    [|discriminate].
  destruct (dict_get "conversion_id_2" entries) as [e|] eqn:He;
    [|discriminate].
  destruct (dict_get "eta" entries) as [f|] eqn:Hf; [|discriminate].
  intros [= <-].
  assert (forall k, In k (dict_keys entries) <-> In k field_names) as Hkeys.
  { intros k. split; [now apply filter_nil_is_field|].
    intros Hk. destruct (in_dec String.string_dec k (dict_keys entries))
      as [Hin|Hout]; [exact Hin|].
    apply dict_get_not_In in Hout. simpl in Hk.
    destruct Hk as [<-|[<-|[<-|[<-|[<-|[<-|[]]]]]]]; congruence. }
  split; [exact Hkeys|].
  intros k. unfold fields. rewrite to_dict_get. cbn [success message
    task_id conversion_id_1 conversion_id_2 eta].
  destruct (String.eqb_spec k "success") as [->|N1]; [exact Ha|].
  destruct (String.eqb_spec k "message") as [->|N2]; [exact Hb|].
  destruct (String.eqb_spec k "task_id") as [->|N3]; [exact Hc|].
  destruct (String.eqb_spec k "conversion_id_1") as [->|N4]; [exact Hd|].
  destruct (String.eqb_spec k "conversion_id_2") as [->|N5]; [exact He|].
  destruct (String.eqb_spec k "eta") as [->|N6]; [exact Hf|].
  apply dict_get_not_In. rewrite Hkeys. simpl. intuition congruence.
Qed.

(** X1.  The constructor accepts a mapping exactly when its keys are the
    six field names, no more and no fewer, and the instance then holds
    under every field the value the mapping has under that name. *)
Theorem init_succeeds_iff (entries : dict) (r : GenerateAudioResponse) :
  GenerateAudioResponse_init (PyDict entries) = Ok r
  <-> (forall k, In k (dict_keys entries) <-> In k field_names)
      /\ forall k, dict_get k entries = dict_get k (fields r).
Proof.
  split; [apply init_ok_inv|].
  intros [Hkeys Hget].
  destruct (init_of_exact_keys entries Hkeys)
    as (a & b & c & d & e & f & Ha & Hb & Hc & Hd & He & Hf & Hinit).
  rewrite Hinit. f_equal.
  rewrite Hget in Ha, Hb, Hc, Hd, He, Hf.
  destruct r; simpl in *. congruence.
Qed.

Lemma init_of_to_dict (r : GenerateAudioResponse) :
  GenerateAudioResponse_init (to_dict r) = Ok r.
Proof. destruct r. reflexivity. Qed.

(** ** Saving a response, again *)

Lemma makedirs_walk_existing fs p p' cur names k :
  Fs.walk fs p cur names = Ok k -> Fs.node_at fs k = Some Dir ->
  Fs.makedirs_walk fs p' cur names = Ok fs.
Proof.
  revert cur. induction names as [|name rest IH]; intros cur; simpl;
    [reflexivity|].
  destruct (Fs.node_at fs cur) as [[|c]|]; try discriminate.
  intros Hwalk Hk.
  assert (Fs.node_at fs (Fs.step cur name) = Some Dir) as Hnext.
  { destruct rest as [|name' rest']; simpl in Hwalk.
    - injection Hwalk as <-. exact Hk.
    - destruct (Fs.node_at fs (Fs.step cur name)) as [[|c]|];
        (reflexivity || discriminate). }
  rewrite Hnext. now apply IH.
Qed.

(** [exist_ok]: a directory that is there is left as it is. *)
Lemma makedirs_existing fs cwd d :
  Fs.isdir fs cwd d = true -> Fs.makedirs fs cwd d = Ok fs.
Proof.
  unfold Fs.isdir, Fs.makedirs, Fs.resolve. destruct d as [|c d];
    [discriminate|].
  destruct (Fs.walk fs _ _ _) as [k|e] eqn:Hwalk; [|discriminate].
  destruct (Fs.node_at fs k) as [[|content]|] eqn:Hk; try discriminate.
  intros _. eapply makedirs_walk_existing; eassumption.
Qed.

(** Where the two files go, once [os.makedirs] has run. *)
Lemma save_response_layout (output_dir : string) (w : world) fs1 :
  Fs.makedirs (w_fs w) (w_cwd w) output_dir = Ok fs1 ->
  exists dir,
    Fs.resolve fs1 (w_cwd w) output_dir = Ok dir
    /\ Fs.node_at fs1 dir = Some Dir
    /\ Fs.adds_dirs (w_fs w) fs1
    /\ Fs.resolve fs1 (w_cwd w) (saved_txt_path output_dir w)
       = Ok (dir ++ [saved_base w +:+ ".txt"])
    /\ Fs.resolve fs1 (w_cwd w) (saved_json_path output_dir w)
       = Ok (dir ++ [saved_base w +:+ ".json"])
    /\ dir ++ [saved_base w +:+ ".txt"] <> dir ++ [saved_base w +:+ ".json"]
    /\ dir ++ [saved_base w +:+ ".txt"] <> []
    /\ dir ++ [saved_base w +:+ ".json"] <> [].
Proof.
  intros Hmk.
  destruct (FsFacts.makedirs_spec _ _ _ _ Hmk) as (dir & Hres & Hdir & Hadd).
  exists dir. do 3 (split; [assumption|]).
  split; [|split; [|split; [|split]]].
  - apply FsFacts.resolve_join; [assumption..|].
    apply response_name_plain. reflexivity.
  - apply FsFacts.resolve_join; [assumption..|].
    apply response_name_plain. reflexivity.
  - intros Heq. apply List.app_inv_head in Heq. injection Heq as Heq.
    apply TextFacts.app_inv_head in Heq. discriminate.
  - destruct dir; discriminate.
  - destruct dir; discriminate.
Qed.

(** A successful [save_response], with the world it leaves. *)
Lemma save_response_succeeds (self : LalasAPI)
    (response : GenerateAudioResponse) (output_dir : string) (w : world) :
  can_save output_dir w = true ->
  exists dir fs1,
    Fs.makedirs (w_fs w) (w_cwd w) output_dir = Ok fs1
    /\ Fs.resolve fs1 (w_cwd w) output_dir = Ok dir
    /\ Fs.node_at fs1 dir = Some Dir
    /\ Fs.adds_dirs (w_fs w) fs1
    /\ Fs.keeps_dirs fs1 (saved_fs fs1 dir response w)
    /\ save_response self response output_dir w
       = (Ok (saved_txt_path output_dir w, saved_json_path output_dir w),
          set_fs (saved_fs fs1 dir response w)
            (set_ticks (S (S (w_ticks w))) w))
    /\ Fs.read (saved_fs fs1 dir response w) (w_cwd w)
         (saved_txt_path output_dir w) = Ok (saved_txt response w)
    /\ Fs.read (saved_fs fs1 dir response w) (w_cwd w)
         (saved_json_path output_dir w) = Ok (Json.dumps (to_dict response)).
Proof.
  intros Hcan.
  destruct (can_save_inv _ _ Hcan) as (fs1 & Hos & Hmk & Htxt & Hjson & Hat & Haj).
  destruct (save_response_layout output_dir w fs1 Hmk)
    as (dir & Hres & Hdir & Hadd & Hrt & Hrj & Hne & Hnt & Hnj).
  exists dir, fs1. split; [exact Hmk|].
  pose proof (isdir_false_node _ _ _ _ Hrt Htxt) as Hnodir.
  destruct (write_file fs1 (w_cwd w) _ (saved_txt response w) _ Hrt Hnodir)
    as (Hc1 & Ha1).
  match type of Ha1 with _ = ?fs => set (fs3 := fs) in * end.
  assert (Fs.keeps_dirs fs1 fs3) as Hk13
      by (now apply FsFacts.keeps_dirs_insert_file).
  pose proof (isdir_false_node _ _ _ _ Hrj Hjson) as Hnodir1.
  pose proof (resolve_keeps _ _ _ _ _ Hk13 Hrj) as Hrj3.
  assert (Fs.node_at fs3 (dir ++ [saved_base w +:+ ".json"]) <> Some Dir)
    as Hnodir3.
  { unfold fs3. rewrite FsFacts.node_at_insert by exact Hnt.
    now rewrite decide_False by exact Hne. }
  destruct (write_file fs3 (w_cwd w) _ (Json.dumps (to_dict response)) _
              Hrj3 Hnodir3) as (Hc2 & Ha2).
  assert (Fs.keeps_dirs fs1 (saved_fs fs1 dir response w)) as Hkeep.
  { eapply FsFacts.keeps_dirs_trans; [exact Hk13|].
    now apply FsFacts.keeps_dirs_insert_file. }
  do 4 (split; [assumption|]).
  split; [|split].
  - unfold saved_fs. fold fs3. rewrite <- Ha2.
    apply (save_response_run self response output_dir w fs1
             (dir ++ [saved_base w +:+ ".txt"])
             (<[dir ++ [saved_base w +:+ ".txt"] := File ""]> fs1));
      [exact Hos|exact Hc1|exact (allowed_key _ _ _ _ Hrt Hat)| |
       exact (allowed_key _ _ _ _ Hrj Haj)].
    rewrite Ha1. exact Hc2.
  - apply (read_file _ _ _ (dir ++ [saved_base w +:+ ".txt"])).
    + now apply (resolve_keeps fs1).
    + exact Hnt.
    + unfold saved_fs. rewrite lookup_insert_ne by congruence.
      apply lookup_insert_eq.
  - apply (read_file _ _ _ (dir ++ [saved_base w +:+ ".json"])).
    + now apply (resolve_keeps fs1).
    + exact Hnj.
    + apply lookup_insert_eq.
Qed.

Lemma read_not_dir fs cwd p content :
  Fs.read fs cwd p = Ok content -> Fs.isdir fs cwd p = false.
Proof.
  unfold Fs.read, Fs.isdir. destruct (Fs.resolve fs cwd p); [|discriminate].
  now destruct (Fs.node_at fs a) as [[|c]|].
Qed.

Lemma read_is_file fs cwd p content :
  Fs.read fs cwd p = Ok content -> Fs.isfile fs cwd p = true.
Proof.
  unfold Fs.read, Fs.isfile. destruct (Fs.resolve fs cwd p); [|discriminate].
  now destruct (Fs.node_at fs a) as [[|c]|].
Qed.

(** X2.  Once [save_response] has succeeded, reading the [.json] file it
    wrote, decoding the text and calling the constructor on the result
    gives the saved response model back. *)
Theorem saved_json_reloads (self : LalasAPI) (response : GenerateAudioResponse)
    (output_dir : string) (w : world) :
  wf_response response ->
  can_save output_dir w = true ->
  exists w' text data,
    save_response self response output_dir w
    = (Ok (saved_txt_path output_dir w, saved_json_path output_dir w), w')
    /\ Fs.read (w_fs w') (w_cwd w') (saved_json_path output_dir w) = Ok text
    /\ Json.loads text = Some data
    /\ GenerateAudioResponse_init data = Ok response.
Proof.
  intros Hwf Hcan.
  destruct (save_response_succeeds self response output_dir w Hcan)
    as (dir & fs1 & _ & _ & _ & _ & _ & Hrun & _ & Hread).
  eexists. exists (Json.dumps (to_dict response)), (to_dict response).
  split; [exact Hrun|]. split; [exact Hread|]. split.
  - apply JsonFacts.loads_dumps, wf_to_dict, Hwf.
  - apply init_of_to_dict.
Qed.

Lemma saved_json_reloads_witness :
  exists w' text data,
    save_response Sample.client Sample.queued_response "out/responses"
      (Sample.world_with 200 "")
    = (Ok ("out/responses/lalas_response_20260102_030405.txt",
           "out/responses/lalas_response_20260102_030405.json"), w')
    /\ Fs.read (w_fs w') (w_cwd w')
         "out/responses/lalas_response_20260102_030405.json" = Ok text
    /\ Json.loads text = Some data
    /\ GenerateAudioResponse_init data = Ok Sample.queued_response.
Proof.
  apply (saved_json_reloads Sample.client Sample.queued_response
           "out/responses" (Sample.world_with 200 "")).
  - repeat split.
  - vm_compute. reflexivity.
Defined.

(** X3.  When the output directory is there already, neither file name
    is the name of a directory and the operating system lets both files
    be opened for writing and written, [save_response] succeeds without
    creating any directory: the file system afterwards is the one before
    with the two files put in the output directory. *)
Theorem save_response_into_existing_dir (self : LalasAPI)
    (response : GenerateAudioResponse) (output_dir : string) (w : world) :
  Fs.isdir (w_fs w) (w_cwd w) output_dir = true ->
  Fs.isdir (w_fs w) (w_cwd w) (saved_txt_path output_dir w) = false ->
  Fs.isdir (w_fs w) (w_cwd w) (saved_json_path output_dir w) = false ->
  allowed w (w_fs w) (saved_txt_path output_dir w) = true ->
  allowed w (w_fs w) (saved_json_path output_dir w) = true ->
  exists dir w',
    Fs.resolve (w_fs w) (w_cwd w) output_dir = Ok dir
    /\ save_response self response output_dir w
       = (Ok (saved_txt_path output_dir w, saved_json_path output_dir w), w')
    /\ w_fs w' = saved_fs (w_fs w) dir response w.
Proof.
  intros Hdir Htxt Hjson Hat Haj.
  pose proof (makedirs_existing _ _ _ Hdir) as Hmk.
  assert (can_save output_dir w = true) as Hcan
      by (unfold can_save;
          now rewrite (FsFacts.makedirs_os_existing _ _ _ _ Hdir),
                Htxt, Hjson, Hat, Haj).
  destruct (save_response_succeeds self response output_dir w Hcan)
    as (dir & fs1 & Hmk1 & Hres & _ & _ & _ & Hrun & _ & _).
  rewrite Hmk in Hmk1. injection Hmk1 as <-.
  exists dir. eexists. split; [exact Hres|]. split; [exact Hrun|reflexivity].
Qed.

Lemma save_response_into_existing_dir_witness :
  exists dir w',
    Fs.resolve (w_fs Cases.same_second) ["home"] "responses" = Ok dir
    /\ save_response Sample.client Sample.queued_response "responses"
         Cases.same_second
       = (Ok ("responses/lalas_response_20260102_030406.txt",
              "responses/lalas_response_20260102_030406.json"), w')
    /\ w_fs w' = saved_fs (w_fs Cases.same_second) dir Sample.queued_response
                   Cases.same_second.
Proof.
  apply (save_response_into_existing_dir Sample.client Sample.queued_response
           "responses" Cases.same_second); vm_compute; reflexivity.
Defined.

Lemma save_response_run_until_json (self : LalasAPI)
    (response : GenerateAudioResponse) (output_dir : string) (w : world)
    fs1 ktxt fs2 e :
  Fs.makedirs_os (w_refuses w) (w_fs w) (w_cwd w) output_dir = (Ok tt, fs1) ->
  Fs.create fs1 (w_cwd w) (saved_txt_path output_dir w) = Ok (ktxt, fs2) ->
  w_refuses w (Fs.OpenW ktxt) = None /\ w_refuses w (Fs.Write ktxt) = None ->
  Fs.create (Fs.append fs2 ktxt (saved_txt response w)) (w_cwd w)
    (saved_json_path output_dir w) = Raise e ->
  save_response self response output_dir w
  = (Raise e,
     set_fs (Fs.append fs2 ktxt (saved_txt response w))
       (set_ticks (S (S (w_ticks w))) w)).
Proof.
  unfold saved_txt_path, saved_json_path, saved_txt, saved_base.
  intros Hmk Hc1 [Ho1 Hw1] Hc2.
  unfold save_response, bind, os_makedirs. rewrite Hmk.
  unfold datetime_now at 1. cbn [w_clock w_ticks set_fs set_ticks].
  unfold open_write at 1. cbn [w_fs w_cwd w_refuses set_fs set_ticks].
  rewrite Hc1, Ho1.
  unfold to_txt_format, bind, datetime_now, ret, file_write.
  cbn [w_fs w_cwd w_refuses w_clock w_ticks set_fs set_ticks].
  rewrite Hw1.
  unfold open_write. cbn [w_fs w_cwd w_refuses set_fs set_ticks]. rewrite Hc2.
  reflexivity.
Qed.

(** X4.  When the text file can be written but the name of the JSON file
    is the name of a directory, [save_response] fails with
    [IsADirectoryError] after it has written the text file: the text file
    stays behind, and there is no JSON file. *)
Theorem save_response_leaves_text_behind (self : LalasAPI)
    (response : GenerateAudioResponse) (output_dir : string) (w : world) :
  json_name_taken output_dir w = true ->
  exists w',
    save_response self response output_dir w = (Raise IsADirectoryError, w')
    /\ Fs.read (w_fs w') (w_cwd w) (saved_txt_path output_dir w)
       = Ok (saved_txt response w)
    /\ Fs.isfile (w_fs w') (w_cwd w) (saved_json_path output_dir w) = false.
Proof.
  unfold json_name_taken. intros Htaken.
  destruct (Fs.makedirs_os _ _ _ _) as [[[]|e] fs1] eqn:Hos; [|discriminate].
  pose proof (FsFacts.makedirs_os_ok _ _ _ _ _ _ Hos) as Hmk.
  rewrite !andb_true_iff in Htaken. destruct Htaken as [[Htxt Hat] Hjson].
  apply negb_true_iff in Htxt.
  destruct (save_response_layout output_dir w fs1 Hmk)
    as (dir & Hres & Hdir & Hadd & Hrt & Hrj & Hne & Hnt & Hnj).
  pose proof (isdir_false_node _ _ _ _ Hrt Htxt) as Hnodir.
  destruct (write_file fs1 (w_cwd w) _ (saved_txt response w) _ Hrt Hnodir)
    as (Hc1 & Ha1).
  match type of Ha1 with _ = ?fs => set (fs3 := fs) in * end.
  assert (Fs.keeps_dirs fs1 fs3) as Hk13
      by (now apply FsFacts.keeps_dirs_insert_file).
  assert (Fs.node_at fs1 (dir ++ [saved_base w +:+ ".json"]) = Some Dir)
    as Hjdir.
  { unfold Fs.isdir in Hjson. rewrite Hrj in Hjson.
    now destruct (Fs.node_at fs1 _) as [[|c]|]. }
  pose proof (resolve_keeps _ _ _ _ _ Hk13 Hrj) as Hrj3.
  assert (Fs.create fs3 (w_cwd w) (saved_json_path output_dir w)
          = Raise IsADirectoryError) as Hc2
      by (unfold Fs.create; now rewrite Hrj3, (Hk13 _ Hjdir)).
  exists (set_fs fs3 (set_ticks (S (S (w_ticks w))) w)).
  cbn [w_fs set_fs]. split; [|split].
  - rewrite <- Ha1 in Hc2 |- *.
    apply (save_response_run_until_json self response output_dir w fs1
             (dir ++ [saved_base w +:+ ".txt"])
             (<[dir ++ [saved_base w +:+ ".txt"] := File ""]> fs1));
      [exact Hos|exact Hc1|exact (allowed_key _ _ _ _ Hrt Hat)|exact Hc2].
  - apply (read_file _ _ _ (dir ++ [saved_base w +:+ ".txt"])).
    + now apply (resolve_keeps fs1).
    + exact Hnt.
    + apply lookup_insert_eq.
  - unfold Fs.isfile. now rewrite Hrj3, (Hk13 _ Hjdir).
Qed.

Lemma save_response_leaves_text_behind_witness :
  exists w',
    save_response Sample.client Sample.queued_response "responses"
      Cases.json_taken = (Raise IsADirectoryError, w')
    /\ Fs.read (w_fs w') ["home"]
         "responses/lalas_response_20260102_030405.txt"
       = Ok (saved_txt Sample.queued_response Cases.json_taken)
    /\ Fs.isfile (w_fs w') ["home"]
         "responses/lalas_response_20260102_030405.json" = false.
Proof.
  apply (save_response_leaves_text_behind Sample.client
           Sample.queued_response "responses" Cases.json_taken).
  vm_compute. reflexivity.
Defined.

(** X5.  Two calls of [save_response] whose clock readings print the
    same second return the same two paths, and the second call overwrites
    the files of the first: the JSON file then holds the second
    response. *)
Theorem save_response_same_second (self : LalasAPI)
    (first second : GenerateAudioResponse) (output_dir : string) (w : world) :
  can_save output_dir w = true ->
  strftime_compact (w_clock w (S (S (w_ticks w))))
  = strftime_compact (w_clock w (w_ticks w)) ->
  exists w1 w2,
    save_response self first output_dir w
    = (Ok (saved_txt_path output_dir w, saved_json_path output_dir w), w1)
    /\ save_response self second output_dir w1
       = (Ok (saved_txt_path output_dir w, saved_json_path output_dir w), w2)
    /\ Fs.read (w_fs w1) (w_cwd w) (saved_json_path output_dir w)
       = Ok (Json.dumps (to_dict first))
    /\ Fs.read (w_fs w2) (w_cwd w) (saved_json_path output_dir w)
       = Ok (Json.dumps (to_dict second)).
Proof.
  intros Hcan Hclock.
  destruct (save_response_succeeds self first output_dir w Hcan)
    as (dir & fs1 & Hmk & Hres & Hdir & _ & Hkeep & Hrun & Hrt & Hrj).
  destruct (can_save_inv _ _ Hcan) as (fs1' & _ & Hmk' & _ & _ & Hat & Haj).
  rewrite Hmk in Hmk'. injection Hmk' as <-.
  destruct (save_response_layout output_dir w fs1 Hmk)
    as (dir' & Hres' & _ & _ & Hkt & Hkj & _).
  rewrite Hres in Hres'. injection Hres' as <-.
  set (fsa := saved_fs fs1 dir first w) in *.
  set (w1 := set_fs fsa (set_ticks (S (S (w_ticks w))) w)) in *.
  assert (saved_base w1 = saved_base w) as Hbase
      by (unfold saved_base; cbn; now rewrite Hclock).
  assert (saved_txt_path output_dir w1 = saved_txt_path output_dir w) as Htp
      by (unfold saved_txt_path; now rewrite Hbase).
  assert (saved_json_path output_dir w1 = saved_json_path output_dir w) as Hjp
      by (unfold saved_json_path; now rewrite Hbase).
  assert (can_save output_dir w1 = true) as Hcan1.
  { unfold can_save. cbn [w_fs w_cwd w_refuses w1 set_fs set_ticks].
    rewrite FsFacts.makedirs_os_existing.
    - rewrite Htp, Hjp, (read_not_dir _ _ _ _ Hrt), (read_not_dir _ _ _ _ Hrj).
      unfold allowed, accepts in *. cbn [w_cwd w_refuses w1 set_fs set_ticks].
      rewrite (resolve_keeps _ _ _ _ _ Hkeep Hkt),
        (resolve_keeps _ _ _ _ _ Hkeep Hkj).
      rewrite Hkt in Hat. rewrite Hkj in Haj. now rewrite Hat, Haj.
    - unfold Fs.isdir.
      now rewrite (resolve_keeps _ _ _ _ _ Hkeep Hres), (Hkeep _ Hdir). }
  destruct (save_response_succeeds self second output_dir w1 Hcan1)
    as (dir2 & fs2 & _ & _ & _ & _ & _ & Hrun2 & _ & Hrj2).
  rewrite Htp, Hjp in Hrun2. rewrite Hjp in Hrj2.
  exists w1. eexists. split; [exact Hrun|]. split; [exact Hrun2|].
  split; [exact Hrj|exact Hrj2].
Qed.

Lemma save_response_same_second_witness :
  exists w1 w2,
    save_response Sample.client Sample.queued_response "responses"
      Cases.same_second
    = (Ok ("responses/lalas_response_20260102_030406.txt",
           "responses/lalas_response_20260102_030406.json"), w1)
    /\ save_response Sample.client Cases.failed_response "responses" w1
       = (Ok ("responses/lalas_response_20260102_030406.txt",
              "responses/lalas_response_20260102_030406.json"), w2)
    /\ Fs.read (w_fs w1) ["home"]
         "responses/lalas_response_20260102_030406.json"
       = Ok (Json.dumps (to_dict Sample.queued_response))
    /\ Fs.read (w_fs w2) ["home"]
         "responses/lalas_response_20260102_030406.json"
       = Ok (Json.dumps (to_dict Cases.failed_response)).
Proof.
  apply (save_response_same_second Sample.client Sample.queued_response
           Cases.failed_response "responses" Cases.same_second);
    vm_compute; reflexivity.
Defined.

(** ** Submitting a job, again *)

(** [generate_audio] from the moment the reply has been turned into a
    response model. *)
Lemma generate_audio_after_reply (self : LalasAPI)
    (prompt_file music_style webhook_url lyrics voice_id : string)
    (save_response_files : bool) (w : world) (content : string)
    (resp : response) (data : value) (r : GenerateAudioResponse) :
  let rq := submission self (Text.strip content) music_style webhook_url
              lyrics voice_id in
  Fs.read (w_fs w) (w_cwd w) prompt_file = Ok content ->
  w_server w rq = Ok resp ->
  status_code resp = 200 ->
  response_json resp = Ok data ->
  GenerateAudioResponse_init data = Ok r ->
  generate_audio self prompt_file music_style webhook_url lyrics voice_id
    save_response_files w
  = if save_response_files then
      match save_response self r "responses" (submitted rq w) with
      | (Ok paths, w2) =>
          (Ok r, set_stdout (w_stdout w2 ++ [saved_message paths]) w2)
      | (Raise e, w2) => (Raise e, w2)
      end
    else (Ok r, submitted rq w).
Proof.
  intros rq Hread Hserver Hstatus Hjson Hinit.
  unfold generate_audio, bind.
  rewrite (read_prompt_found self prompt_file w content Hread).
  unfold send.
  fold (submission self (Text.strip content) music_style webhook_url lyrics
          voice_id).
  fold rq. rewrite Hserver, Hstatus. cbn [Z.eqb Pos.eqb negb].
  unfold lift. rewrite Hjson, Hinit. fold (submitted rq w).
  destruct save_response_files; [|reflexivity].
  destruct (save_response self r "responses" (submitted rq w))
    as [[paths|e] w2]; reflexivity.
Qed.

(** X6.  With [save_response_files] off, a 200 reply whose body decodes
    to a mapping with exactly the six keys makes [generate_audio] return
    the response model holding the values of the reply; one POST has been
    sent, whose prompt is the stripped content of the prompt file, and
    nothing else in the world has changed. *)
Theorem generate_audio_returns_model (self : LalasAPI)
    (prompt_file music_style webhook_url lyrics voice_id : string)
    (w : world) (content : string) (resp : response) (entries : dict) :
  Fs.read (w_fs w) (w_cwd w) prompt_file = Ok content ->
  w_server w (submission self (Text.strip content) music_style webhook_url
                lyrics voice_id) = Ok resp ->
  status_code resp = 200 ->
  Json.loads (text resp) = Some (PyDict entries) ->
  (forall k, In k (dict_keys entries) <-> In k field_names) ->
  exists r,
    generate_audio self prompt_file music_style webhook_url lyrics voice_id
      false w
    = (Ok r, submitted (submission self (Text.strip content) music_style
                          webhook_url lyrics voice_id) w)
    /\ forall k, dict_get k (fields r) = dict_get k entries.
Proof.
  intros Hread Hserver Hstatus Hloads Hkeys.
  destruct (init_of_exact_keys entries Hkeys)
    as (a & b & c & d & e & f & Ha & Hb & Hc & Hd & He & Hf & Hinit).
  eexists. split.
  - apply (generate_audio_after_reply self prompt_file music_style webhook_url
             lyrics voice_id false w content resp (PyDict entries));
      try assumption.
    + unfold response_json. now rewrite Hloads.
    + exact Hinit.
  - intros k. symmetry.
    apply (init_ok_inv entries _ Hinit).
Qed.

Lemma generate_audio_returns_model_witness :
  exists r,
    generate_audio Sample.client "prompt.txt" "pop" "http://api.lalals.com"
      "" "Drake" false (Sample.world_with 200 Cases.queued_text)
    = (Ok r, submitted (submission Sample.client "upbeat summer anthem" "pop"
                          "http://api.lalals.com" "" "Drake")
               (Sample.world_with 200 Cases.queued_text))
    /\ forall k, dict_get k (fields r) = dict_get k Sample.queued.
Proof.
  apply (generate_audio_returns_model Sample.client "prompt.txt" "pop"
           "http://api.lalals.com" "" "Drake"
           (Sample.world_with 200 Cases.queued_text)
           "  upbeat summer anthem  "
           {| status_code := 200; text := Cases.queued_text |} Sample.queued).
  - reflexivity.
  - reflexivity.
  - reflexivity.
  - vm_compute. reflexivity.
  - intros k. reflexivity.
Defined.

(** X7.  With [save_response_files] on, and [responses] a directory that
    can be made and written to, the same reply makes [generate_audio]
    return the response model after it has written the two files under
    [responses] and printed one line that names both paths; the JSON file
    holds the structured form of the returned model. *)
Theorem generate_audio_saves_and_reports (self : LalasAPI)
    (prompt_file music_style webhook_url lyrics voice_id : string)
    (w : world) (content : string) (resp : response) (entries : dict) :
  Fs.read (w_fs w) (w_cwd w) prompt_file = Ok content ->
  w_server w (submission self (Text.strip content) music_style webhook_url
                lyrics voice_id) = Ok resp ->
  status_code resp = 200 ->
  Json.loads (text resp) = Some (PyDict entries) ->
  (forall k, In k (dict_keys entries) <-> In k field_names) ->
  can_save "responses" w = true ->
  exists r w',
    generate_audio self prompt_file music_style webhook_url lyrics voice_id
      true w = (Ok r, w')
    /\ (forall k, dict_get k (fields r) = dict_get k entries)
    /\ w_sent w' = w_sent w ++ [submission self (Text.strip content)
                                  music_style webhook_url lyrics voice_id]
    /\ w_stdout w'
       = w_stdout w ++ [saved_message (saved_txt_path "responses" w,
                                       saved_json_path "responses" w)]
    /\ Fs.read (w_fs w') (w_cwd w) (saved_txt_path "responses" w)
       = Ok (saved_txt r w)
    /\ Fs.read (w_fs w') (w_cwd w) (saved_json_path "responses" w)
       = Ok (Json.dumps (to_dict r)).
Proof.
  intros Hread Hserver Hstatus Hloads Hkeys Hcan.
  destruct (init_of_exact_keys entries Hkeys)
    as (a & b & c & d & e & f & Ha & Hb & Hc & Hd & He & Hf & Hinit).
  match type of Hinit with _ = Ok ?x => set (r := x) in * end.
  set (rq := submission self (Text.strip content) music_style webhook_url
               lyrics voice_id) in *.
  destruct (save_response_succeeds self r "responses" (submitted rq w) Hcan)
    as (dir & fs1 & _ & _ & _ & _ & _ & Hrun & Hrt & Hrj).
  exists r. eexists. split.
  - rewrite (generate_audio_after_reply self prompt_file music_style
               webhook_url lyrics voice_id true w content resp (PyDict entries)
               r Hread Hserver Hstatus); [|unfold response_json;
                                           now rewrite Hloads|exact Hinit].
    fold rq. rewrite Hrun. reflexivity.
  - split; [intros k; symmetry; apply (init_ok_inv entries r Hinit)|].
    split; [reflexivity|]. split; [reflexivity|].
    split; [exact Hrt|exact Hrj].
Qed.

Lemma generate_audio_saves_and_reports_witness :
  exists r w',
    generate_audio Sample.client "prompt.txt" "pop" "http://api.lalals.com"
      "" "Drake" true (Sample.world_with 200 Cases.queued_text) = (Ok r, w')
    /\ (forall k, dict_get k (fields r) = dict_get k Sample.queued)
    /\ w_sent w' = [submission Sample.client "upbeat summer anthem" "pop"
                      "http://api.lalals.com" "" "Drake"]
    /\ w_stdout w'
       = [saved_message ("responses/lalas_response_20260102_030405.txt",
                         "responses/lalas_response_20260102_030405.json")]
    /\ Fs.read (w_fs w') ["home"]
         "responses/lalas_response_20260102_030405.txt"
       = Ok (saved_txt r (Sample.world_with 200 Cases.queued_text))
    /\ Fs.read (w_fs w') ["home"]
         "responses/lalas_response_20260102_030405.json"
       = Ok (Json.dumps (to_dict r)).
Proof.
  apply (generate_audio_saves_and_reports Sample.client "prompt.txt" "pop"
           "http://api.lalals.com" "" "Drake"
           (Sample.world_with 200 Cases.queued_text)
           "  upbeat summer anthem  "
           {| status_code := 200; text := Cases.queued_text |} Sample.queued).
  - reflexivity.
  - reflexivity.
  - reflexivity.
  - vm_compute. reflexivity.
  - intros k. reflexivity.
  - vm_compute. reflexivity.
Defined.

(** X8.  A 200 reply that cannot be turned into a response model, because
    no JSON value starts at the first character of its body that is not
    white space (a page of HTML, an empty body) or because the constructor
    refuses what the body decodes to, makes [generate_audio] fail once the
    request is out, with [JSONDecodeError] or with the error of the
    constructor: the job has been submitted, and nothing is written or
    printed, whatever [save_response_files] is. *)
Theorem generate_audio_reply_refused (self : LalasAPI)
    (prompt_file music_style webhook_url lyrics voice_id : string)
    (save_response_files : bool) (w : world) (content : string)
    (resp : response) (e : exn) :
  Fs.read (w_fs w) (w_cwd w) prompt_file = Ok content ->
  w_server w (submission self (Text.strip content) music_style webhook_url
                lyrics voice_id) = Ok resp ->
  status_code resp = 200 ->
  (Json.expecting_value (text resp) = true /\ e = JSONDecodeError
   \/ exists data, Json.loads (text resp) = Some data
                   /\ GenerateAudioResponse_init data = Raise e) ->
  generate_audio self prompt_file music_style webhook_url lyrics voice_id
    save_response_files w
  = (Raise e, submitted (submission self (Text.strip content) music_style
                           webhook_url lyrics voice_id) w).
Proof.
  intros Hread Hserver Hstatus Hbad.
  unfold generate_audio, bind.
  rewrite (read_prompt_found self prompt_file w content Hread).
  unfold send.
  fold (submission self (Text.strip content) music_style webhook_url lyrics
          voice_id).
  rewrite Hserver, Hstatus. cbn [Z.eqb Pos.eqb negb].
  unfold lift, response_json.
  destruct Hbad as [[Hjson ->] | (data & Hjson & Hinit)].
  - now rewrite (JsonFacts.expecting_value_loads _ Hjson).
  - now rewrite Hjson, Hinit.
Qed.

Lemma generate_audio_reply_refused_witness :
  generate_audio Sample.client "prompt.txt" "pop" "http://api.lalals.com"
    "" "Drake" true (Sample.world_with 200 "<html>busy</html>")
  = (Raise JSONDecodeError,
     submitted (submission Sample.client "upbeat summer anthem" "pop"
                  "http://api.lalals.com" "" "Drake")
       (Sample.world_with 200 "<html>busy</html>"))
  /\ generate_audio Sample.client "prompt.txt" "pop" "http://api.lalals.com"
       "" "Drake" true (Sample.world_with 200 "[]")
     = (Raise (TypeError NotAMapping),
        submitted (submission Sample.client "upbeat summer anthem" "pop"
                     "http://api.lalals.com" "" "Drake")
          (Sample.world_with 200 "[]")).
Proof.
  split.
  - apply (generate_audio_reply_refused Sample.client "prompt.txt" "pop"
             "http://api.lalals.com" "" "Drake" true
             (Sample.world_with 200 "<html>busy</html>")
             "  upbeat summer anthem  "
             {| status_code := 200; text := "<html>busy</html>" |});
      [reflexivity | reflexivity | reflexivity | left; split; reflexivity].
  - apply (generate_audio_reply_refused Sample.client "prompt.txt" "pop"
             "http://api.lalals.com" "" "Drake" true
             (Sample.world_with 200 "[]")
             "  upbeat summer anthem  "
             {| status_code := 200; text := "[]" |});
      [reflexivity | reflexivity | reflexivity |].
    right. exists (PyList []). split; reflexivity.
Defined.



(** [save_response] sends nothing and prints nothing, however it ends. *)
Lemma save_response_frame (self : LalasAPI) (response : GenerateAudioResponse)
    (output_dir : string) (w : world) :
  w_sent (snd (save_response self response output_dir w)) = w_sent w
  /\ w_stdout (snd (save_response self response output_dir w)) = w_stdout w
  /\ w_environ (snd (save_response self response output_dir w)) = w_environ w.
Proof.
  unfold save_response, bind, os_makedirs, datetime_now, open_write,
    to_txt_format, file_write, ret, bind, datetime_now.
  destruct (Fs.makedirs_os _ (w_fs w) (w_cwd w) output_dir) as [[[]|e] fs1];
    [|repeat split].
  cbn [w_fs w_cwd w_refuses w_clock w_ticks set_fs set_ticks].
  destruct (Fs.create fs1 (w_cwd w) _) as [[k fs2]|e]; [|repeat split].
  destruct (w_refuses w (Fs.OpenW k)); [repeat split|].
  cbn [w_fs w_cwd w_refuses w_clock w_ticks set_fs set_ticks].
  destruct (w_refuses w (Fs.Write k)); [repeat split|].
  cbn [w_fs w_cwd w_refuses w_clock w_ticks set_fs set_ticks].
  destruct (Fs.create _ (w_cwd w) _) as [[k' fs4]|e]; [|repeat split].
  destruct (w_refuses w (Fs.OpenW k')); [repeat split|].
  cbn [w_fs w_cwd w_refuses w_clock w_ticks set_fs set_ticks].
  destruct (w_refuses w (Fs.Write k')); repeat split.
Qed.

(** X10.  However it ends, [generate_audio] has sent either nothing or
    exactly one request, the POST of the prompt to [base_url/MusicAI]:
    there is no second attempt.  It has printed at most one line. *)
Theorem generate_audio_sends_at_most_once (self : LalasAPI)
    (prompt_file music_style webhook_url lyrics voice_id : string)
    (save_response_files : bool) (w : world) :
  let w' := snd (generate_audio self prompt_file music_style webhook_url
                   lyrics voice_id save_response_files w) in
  (w_sent w' = w_sent w
   \/ exists prompt,
        w_sent w' = w_sent w ++ [submission self prompt music_style
                                   webhook_url lyrics voice_id])
  /\ (w_stdout w' = w_stdout w \/ exists line, w_stdout w' = w_stdout w ++ [line]).
Proof.
  assert (forall res w0, read_prompt_from_file self prompt_file w = (res, w0) ->
                         w0 = w) as Hsame.
  { intros res w0. unfold read_prompt_from_file, catch_FileNotFoundError, bind,
      open_read, ret, raise.
    destruct (Fs.read (w_fs w) (w_cwd w) prompt_file) as [c|[]]; congruence. }
  unfold generate_audio, bind.
  destruct (read_prompt_from_file self prompt_file w) as [[prompt|e] w0]
    eqn:Hprompt; rewrite (Hsame _ _ eq_refl); [|cbn; auto].
  unfold send.
  fold (submission self prompt music_style webhook_url lyrics voice_id).
  set (rq := submission self prompt music_style webhook_url lyrics voice_id).
  fold (submitted rq w).
  assert (forall w2, w_sent w2 = w_sent w ++ [rq] ->
            w_sent w2 = w_sent w
            \/ exists prompt0,
                 w_sent w2 = w_sent w ++ [submission self prompt0 music_style
                                            webhook_url lyrics voice_id])
    as Hone by (intros w2 ->; right; now exists prompt).
  destruct (w_server w rq) as [resp|e]; [|split; [now apply Hone|now left]].
  destruct (negb (status_code resp =? 200));
    [split; [now apply Hone|now left]|].
  unfold lift.
  destruct (response_json resp) as [data|e];
    [|split; [now apply Hone|now left]].
  destruct (GenerateAudioResponse_init data) as [r|e];
    [|split; [now apply Hone|now left]].
  destruct save_response_files; [|split; [now apply Hone|now left]].
  destruct (save_response_frame self r "responses" (submitted rq w))
    as (Hsent & Hout & _).
  destruct (save_response self r "responses" (submitted rq w))
    as [[paths|e] w2]; cbn [snd] in Hsent, Hout.
  - split; [now apply Hone|]. right. eexists. cbn. now rewrite Hout.
  - split; [now apply Hone|]. left. exact Hout.
Qed.

(** X11.  A failure to read the prompt file that is not the absence of
    the file (the path names a directory, or leads through a file) is not
    rewrapped: [generate_audio] fails with that very exception, and no
    request is sent. *)
Theorem generate_audio_prompt_unreadable (self : LalasAPI)
    (prompt_file music_style webhook_url lyrics voice_id : string)
    (save_response_files : bool) (w : world) (e : exn) :
  Fs.read (w_fs w) (w_cwd w) prompt_file = Raise e ->
  (forall msg, e <> FileNotFoundError msg) ->
  read_prompt_from_file self prompt_file w = (Raise e, w)
  /\ generate_audio self prompt_file music_style webhook_url lyrics voice_id
       save_response_files w = (Raise e, w).
Proof.
  intros Hread Hother.
  assert (read_prompt_from_file self prompt_file w = (Raise e, w)) as Hprompt.
  { unfold read_prompt_from_file, catch_FileNotFoundError, bind, open_read.
    rewrite Hread. destruct e; try reflexivity. now destruct (Hother msg). }
  split; [exact Hprompt|].
  unfold generate_audio, bind. now rewrite Hprompt.
Qed.

Lemma generate_audio_prompt_unreadable_witness :
  read_prompt_from_file Sample.client "." (Sample.world_with 200 "")
  = (Raise IsADirectoryError, Sample.world_with 200 "")
  /\ generate_audio Sample.client "." "pop" "http://api.lalals.com" ""
       "Drake" true (Sample.world_with 200 "")
     = (Raise IsADirectoryError, Sample.world_with 200 "").
Proof.
  apply (generate_audio_prompt_unreadable Sample.client "." "pop"
           "http://api.lalals.com" "" "Drake" true (Sample.world_with 200 "")
           IsADirectoryError); [reflexivity | discriminate].
Defined.

(** ** Reading the prompt *)

Module StripFacts.
Import Text TextFacts.

Lemma rev_onto_app (s acc : string) : rev_onto s acc = rev s +:+ acc.
Proof.
  unfold rev. revert acc. induction s as [|c s IH]; intros acc; simpl;
    [reflexivity|].
  rewrite (IH (String c acc)), (IH (String c "")), app_assoc. reflexivity.
Qed.

Lemma rev_cons (c : ascii) (s : string) :
  rev (String c s) = rev s +:+ String c "".
Proof. unfold rev at 1. simpl. apply rev_onto_app. Qed.

Lemma rev_app (a b : string) : rev (a +:+ b) = rev b +:+ rev a.
Proof.
  induction a as [|c a IH]; simpl.
  - now rewrite app_nil_r.
  - now rewrite !rev_cons, IH, app_assoc.
Qed.

Lemma rev_involutive (s : string) : rev (rev s) = s.
Proof.
  induction s as [|c s IH]; [reflexivity|].
  now rewrite rev_cons, rev_app, IH.
Qed.

Lemma ends_with_app p (a b : string) :
  b <> "" -> ends_with p (a +:+ b) = ends_with p b.
Proof.
  intros Hb. induction a as [|c a IH]; [reflexivity|].
  simpl. destruct (a +:+ b) eqn:Hab; [|exact IH].
  destruct a; simpl in Hab; congruence.
Qed.

Lemma ends_with_rev p (s : string) : ends_with p (rev s) = starts_with p s.
Proof.
  destruct s as [|c s]; [reflexivity|].
  rewrite rev_cons, ends_with_app by discriminate. reflexivity.
Qed.

Lemma starts_with_rev p (s : string) : starts_with p (rev s) = ends_with p s.
Proof. now rewrite <- ends_with_rev, rev_involutive. Qed.

Lemma lstrip_start (s : string) : starts_with is_space (lstrip s) = false.
Proof.
  induction s as [|c s IH]; [reflexivity|]. simpl.
  destruct (is_space c) eqn:Hc; [exact IH|exact Hc].
Qed.

Lemma lstrip_suffix (s : string) : exists pre, s = pre +:+ lstrip s.
Proof.
  induction s as [|c s [pre IH]]; [now exists ""|]. simpl.
  destruct (is_space c).
  - exists (String c pre). simpl. now rewrite <- IH.
  - now exists "".
Qed.

Lemma lstrip_id (s : string) :
  starts_with is_space s = false -> lstrip s = s.
Proof. destruct s as [|c s]; simpl; [reflexivity|]. now intros ->. Qed.

Lemma lstrip_end p (s : string) :
  ends_with p s = false -> ends_with p (lstrip s) = false.
Proof.
  intros Hs. destruct (lstrip_suffix s) as [pre Hpre].
  destruct (lstrip s) as [|c r] eqn:Hl; [reflexivity|].
  rewrite Hpre, ends_with_app in Hs by discriminate. exact Hs.
Qed.

(** [s.strip()] has no blank at either end, and stripping it again
    changes nothing. *)
Lemma strip_spec (s : string) :
  starts_with is_space (strip s) = false
  /\ ends_with is_space (strip s) = false
  /\ strip (strip s) = strip s.
Proof.
  unfold strip.
  set (b := lstrip (rev (lstrip s))).
  assert (starts_with is_space b = false) as Hb by apply lstrip_start.
  assert (ends_with is_space b = false) as He.
  { apply lstrip_end. rewrite ends_with_rev. apply lstrip_start. }
  assert (starts_with is_space (rev b) = false) as Hrb
      by now rewrite starts_with_rev.
  split; [exact Hrb|]. split; [now rewrite ends_with_rev|].
  now rewrite (lstrip_id (rev b) Hrb), rev_involutive, (lstrip_id b Hb).
Qed.

End StripFacts.

(** X12.  When [read_prompt_from_file] returns, the world is as it was,
    and the prompt is the content of the file without the blanks at its
    two ends: it neither starts nor ends with a blank. *)
Theorem read_prompt_is_stripped (self : LalasAPI) (file_path : string)
    (w w' : world) (prompt : string) :
  read_prompt_from_file self file_path w = (Ok prompt, w') ->
  w' = w
  /\ (exists content, Fs.read (w_fs w) (w_cwd w) file_path = Ok content
                      /\ prompt = Text.strip content)
  /\ Text.starts_with Text.is_space prompt = false
  /\ ends_with Text.is_space prompt = false.
Proof.
  unfold read_prompt_from_file, catch_FileNotFoundError, bind, open_read, ret,
    raise.
  destruct (Fs.read (w_fs w) (w_cwd w) file_path) as [content|[]];
    try discriminate.
  intros [= <- <-]. split; [reflexivity|]. split; [now exists content|].
  destruct (StripFacts.strip_spec content) as (Hs & He & _). now split.
Qed.

Lemma read_prompt_is_stripped_witness :
  Sample.world_with 200 "" = Sample.world_with 200 ""
  /\ (exists content,
        Fs.read Sample.fs0 ["home"] "prompt.txt" = Ok content
        /\ "upbeat summer anthem" = Text.strip content)
  /\ Text.starts_with Text.is_space "upbeat summer anthem" = false
  /\ ends_with Text.is_space "upbeat summer anthem" = false.
Proof.
  apply (read_prompt_is_stripped Sample.client "prompt.txt"
           (Sample.world_with 200 "") (Sample.world_with 200 "")
           "upbeat summer anthem").
  reflexivity.
Defined.

(** ** The configuration, again *)

(** X13.  [Configuration()] leaves the world as it was and wraps no
    error: without [CONFIG_FILE] it fails with the [TypeError] of
    [open(None)], an unreadable file gives the error of [open], and a
    document PyYAML refuses gives the error of the parser. *)
Theorem configuration_init_failures
    (yaml_safe_load : string -> result value) (w : world) :
  snd (Configuration_init yaml_safe_load w) = w
  /\ (w_environ w !! "CONFIG_FILE" = None ->
      fst (Configuration_init yaml_safe_load w) = Raise (TypeError NotAPath))
  /\ (forall fn e,
        w_environ w !! "CONFIG_FILE" = Some fn ->
        Fs.read (w_fs w) (w_cwd w) fn = Raise e ->
        fst (Configuration_init yaml_safe_load w) = Raise e)
  /\ (forall fn content e,
        w_environ w !! "CONFIG_FILE" = Some fn ->
        Fs.read (w_fs w) (w_cwd w) fn = Ok content ->
        yaml_safe_load content = Raise e ->
        fst (Configuration_init yaml_safe_load w) = Raise e).
Proof.
  unfold Configuration_init, bind, os_getenv, open_read, lift, ret, raise.
  split; [|split; [|split]].
  - destruct (w_environ w !! "CONFIG_FILE") as [fn|]; [|reflexivity].
    destruct (Fs.read (w_fs w) (w_cwd w) fn) as [content|e]; [|reflexivity].
    destruct (yaml_safe_load content); reflexivity.
  - now intros ->.
  - intros fn e -> Hread. now rewrite Hread.
  - intros fn content e -> Hread Hyaml. now rewrite Hread, Hyaml.
Qed.

Lemma configuration_init_failures_witness :
  fst (Configuration_init Sample.yaml_of_json Cases.no_config)
  = Raise (TypeError NotAPath)
  /\ fst (Configuration_init Sample.yaml_of_json
            (set_environ (<[ "CONFIG_FILE" := "prompt.txt" ]> ∅)
               (Sample.world_with 200 "")))
     = Raise YAMLError.
Proof.
  split.
  - apply (configuration_init_failures Sample.yaml_of_json Cases.no_config).
    reflexivity.
  - apply (proj2 (proj2 (proj2
             (configuration_init_failures Sample.yaml_of_json
                (set_environ (<[ "CONFIG_FILE" := "prompt.txt" ]> ∅)
                   (Sample.world_with 200 "")))))
             "prompt.txt" "  upbeat summer anthem  " YAMLError);
      reflexivity.
Defined.

(** X14.  A document that loads but is not a mapping (a list, a scalar,
    an empty document) is accepted by [Configuration()]: the failure
    comes later, as the [AttributeError] of the two getters. *)
Theorem configuration_not_a_mapping
    (yaml_safe_load : string -> result value) (w : world)
    (fn content : string) (doc : value) :
  w_environ w !! "CONFIG_FILE" = Some fn ->
  Fs.read (w_fs w) (w_cwd w) fn = Ok content ->
  yaml_safe_load content = Ok doc ->
  (forall d, doc <> PyDict d) ->
  exists cfg,
    Configuration_init yaml_safe_load w = (Ok cfg, w)
    /\ get_prompt_path cfg = Raise AttributeError
    /\ get_lyrics_path cfg = Raise AttributeError.
Proof.
  intros Henv Hread Hyaml Hdoc. exists {| config_file := doc |}. split.
  - unfold Configuration_init, bind, os_getenv, open_read, lift, ret.
    now rewrite Henv, Hread, Hyaml.
  - unfold get_prompt_path, get_lyrics_path, py_get. cbn [config_file].
    destruct doc; try (split; reflexivity). now destruct (Hdoc entries).
Qed.

Lemma configuration_not_a_mapping_witness :
  exists cfg,
    Configuration_init Sample.yaml_of_json Cases.list_config
    = (Ok cfg, Cases.list_config)
    /\ get_prompt_path cfg = Raise AttributeError
    /\ get_lyrics_path cfg = Raise AttributeError.
Proof.
  apply (configuration_not_a_mapping Sample.yaml_of_json Cases.list_config
           "config.yaml" "[]" (PyList []));
    [reflexivity | reflexivity | reflexivity | discriminate].
Defined.

(** ** The client, again *)

Lemma LalasAPI_init_world dotenv_values env_path w :
  snd (LalasAPI_init dotenv_values env_path w)
  = snd (load_dotenv dotenv_values env_path w).
Proof.
  destruct (load_dotenv_returns dotenv_values env_path w) as (w' & Hload & _).
  unfold LalasAPI_init, bind, os_getenv. rewrite Hload.
  destruct (w_environ w' !! "LALAS_API_KEY") as [[|c k]|]; reflexivity.
Qed.

Lemma load_dotenv_world dotenv_values env_path w :
  snd (load_dotenv dotenv_values env_path w)
  = match Fs.read (w_fs w) (w_cwd w) env_path with
    | Ok content => set_environ (w_environ w ∪ dotenv_values content) w
    | Raise _ => w
    end.
Proof.
  unfold load_dotenv, Fs.isfile, Fs.read.
  destruct (Fs.resolve (w_fs w) (w_cwd w) env_path) as [k|e]; [|reflexivity].
  destruct (Fs.node_at (w_fs w) k) as [[|content]|]; reflexivity.
Qed.

(** X15.  Constructing the client changes the process environment and
    nothing else, whether it succeeds or not: a variable that was set
    keeps its value, a variable that was not set takes the value the
    [.env] file binds it to, and without a readable [.env] file the
    environment stays as it was. *)
Theorem client_construction_environment
    (dotenv_values : string -> gmap string string) (env_path : string)
    (w : world) :
  let w' := snd (LalasAPI_init dotenv_values env_path w) in
  (forall name v, w_environ w !! name = Some v ->
                  w_environ w' !! name = Some v)
  /\ (forall content name,
        Fs.read (w_fs w) (w_cwd w) env_path = Ok content ->
        w_environ w !! name = None ->
        w_environ w' !! name = dotenv_values content !! name)
  /\ ((forall content, Fs.read (w_fs w) (w_cwd w) env_path <> Ok content) ->
      w_environ w' = w_environ w)
  /\ w_fs w' = w_fs w /\ w_sent w' = w_sent w /\ w_stdout w' = w_stdout w.
Proof.
  cbv zeta. rewrite LalasAPI_init_world, load_dotenv_world.
  destruct (Fs.read (w_fs w) (w_cwd w) env_path) as [content|e];
    cbn [w_environ w_fs w_sent w_stdout set_environ].
  - split; [|split; [|split]].
    + intros name v Hv. now apply lookup_union_Some_l.
    + intros content' name [= <-] Hnone. now apply lookup_union_r.
    + intros Hno. now destruct (Hno content).
    + repeat split.
  - split; [|split; [|split]]; [auto | discriminate | reflexivity |
                                 repeat split].
Qed.

Lemma client_construction_environment_witness :
  w_environ (snd (LalasAPI_init Sample.one_binding ".env"
                    (Sample.world_with 200 ""))) !! "CONFIG_FILE"
  = Some "config.yaml"
  /\ w_environ (snd (LalasAPI_init Sample.one_binding ".env"
                       (Sample.world_with 200 ""))) !! "LALAS_API_KEY"
     = Some "secret".
Proof.
  split.
  - apply (client_construction_environment Sample.one_binding ".env"
             (Sample.world_with 200 "")). reflexivity.
  - rewrite (proj1 (proj2 (client_construction_environment Sample.one_binding
                             ".env" (Sample.world_with 200 "")))
               "LALAS_API_KEY=secret" "LALAS_API_KEY");
      reflexivity.
Defined.

(** ** Retrieving a job, again *)

(** X16.  On a 200 reply whose body is JSON, [retrieve_audio] prints one
    line, ["Response: "] followed by the [str] of the decoded body, and
    returns; one GET has been sent and no file is written. *)
Theorem retrieve_audio_prints_body (self : LalasAPI)
    (task_id conversion_type : string) (w : world) (resp : response)
    (body : value) :
  w_server w (retrieval self hardcoded_task_id conversion_type) = Ok resp ->
  status_code resp = 200 ->
  Json.loads (text resp) = Some body ->
  exists w',
    retrieve_audio self task_id conversion_type w = (Ok tt, w')
    /\ w_stdout w' = w_stdout w ++ ["Response: " +:+ Repr.str body]
    /\ w_sent w' = w_sent w ++ [retrieval self hardcoded_task_id conversion_type]
    /\ w_fs w' = w_fs w.
Proof.
  intros Hserver Hstatus Hbody. eexists.
  unfold retrieve_audio, bind, send.
  fold hardcoded_task_id.
  fold (retrieval self hardcoded_task_id conversion_type).
  rewrite Hserver, Hstatus. cbn [Z.eqb Pos.eqb].
  unfold lift, response_json. rewrite Hbody.
  repeat split.
Qed.

Lemma retrieve_audio_prints_body_witness :
  exists w',
    retrieve_audio Sample.client "T1" "MUSIC_AI"
      (Sample.world_with 200 "[1, null, true]") = (Ok tt, w')
    /\ w_stdout w' = ["Response: [1, None, True]"]
    /\ w_sent w' = [retrieval Sample.client hardcoded_task_id "MUSIC_AI"]
    /\ w_fs w' = Sample.fs0.
Proof.
  apply (retrieve_audio_prints_body Sample.client "T1" "MUSIC_AI"
           (Sample.world_with 200 "[1, null, true]")
           {| status_code := 200; text := "[1, null, true]" |}
           (PyList [PyInt 1; PyNone; PyBool true])); reflexivity.
Defined.

(** X17.  [retrieve_audio] does raise in two cases: when the request
    itself fails, with the error of the transport, and when a 200 reply
    has a body in which no JSON value starts at the first character that
    is not white space (a page of HTML, an empty body), with
    [JSONDecodeError].  Nothing is printed then. *)
Theorem retrieve_audio_can_raise (self : LalasAPI)
    (task_id conversion_type : string) (w : world) :
  (forall e,
     w_server w (retrieval self hardcoded_task_id conversion_type) = Raise e ->
     fst (retrieve_audio self task_id conversion_type w) = Raise e
     /\ w_stdout (snd (retrieve_audio self task_id conversion_type w))
        = w_stdout w)
  /\ (forall resp,
        w_server w (retrieval self hardcoded_task_id conversion_type) = Ok resp ->
        status_code resp = 200 ->
        Json.expecting_value (text resp) = true ->
        fst (retrieve_audio self task_id conversion_type w)
        = Raise JSONDecodeError
        /\ w_stdout (snd (retrieve_audio self task_id conversion_type w))
           = w_stdout w).
Proof.
  unfold retrieve_audio, bind, send.
  fold hardcoded_task_id.
  fold (retrieval self hardcoded_task_id conversion_type).
  split.
  - intros e ->. split; reflexivity.
  - intros resp -> -> Hbody. cbn [Z.eqb Pos.eqb].
    unfold lift, response_json.
    rewrite (JsonFacts.expecting_value_loads _ Hbody). split; reflexivity.
Qed.

Lemma retrieve_audio_can_raise_witness :
  fst (retrieve_audio Sample.client "T1" "MUSIC_AI" Cases.unreachable)
  = Raise ConnectionError
  /\ fst (retrieve_audio Sample.client "T1" "MUSIC_AI"
            (Sample.world_with 200 "<html>busy</html>"))
     = Raise JSONDecodeError.
Proof.
  split.
  - apply (retrieve_audio_can_raise Sample.client "T1" "MUSIC_AI"
             Cases.unreachable). reflexivity.
  - apply (proj2 (retrieve_audio_can_raise Sample.client "T1" "MUSIC_AI"
                    (Sample.world_with 200 "<html>busy</html>"))
             {| status_code := 200; text := "<html>busy</html>" |});
      reflexivity.
Defined.

(** X18.  However it ends, [retrieve_audio] leaves the files, the
    environment and the clock alone, prints at most the one line of the
    decoded body, and ends in one of three ways: it returns, it raises
    [JSONDecodeError], or it raises the error of the transport. *)
Theorem retrieve_audio_outcomes (self : LalasAPI)
    (task_id conversion_type : string) (w : world) :
  let res := retrieve_audio self task_id conversion_type w in
  w_fs (snd res) = w_fs w
  /\ w_environ (snd res) = w_environ w
  /\ w_ticks (snd res) = w_ticks w
  /\ (w_stdout (snd res) = w_stdout w
      \/ exists body,
           w_stdout (snd res) = w_stdout w ++ ["Response: " +:+ Repr.str body])
  /\ (fst res = Ok tt
      \/ fst res = Raise JSONDecodeError
      \/ exists e,
           w_server w (retrieval self hardcoded_task_id conversion_type)
           = Raise e
           /\ fst res = Raise e).
Proof.
  unfold retrieve_audio, bind, send.
  fold hardcoded_task_id.
  fold (retrieval self hardcoded_task_id conversion_type).
  destruct (w_server w _) as [resp|e].
  - destruct (status_code resp =? 200).
    + unfold lift, response_json.
      destruct (Json.loads (text resp)) as [body|]; cbn.
      * repeat split; [right; now exists body | now left].
      * repeat split; [now left | right; now left].
    + cbn. repeat split; now left.
  - cbn. repeat split; [now left|]. right. right. now exists e.
Qed.

(** ** The script *)

Lemma Configuration_init_world yaml_safe_load w :
  snd (Configuration_init yaml_safe_load w) = w.
Proof.
  unfold Configuration_init, bind, os_getenv, open_read, lift, ret, raise.
  destruct (w_environ w !! "CONFIG_FILE") as [fn|]; [|reflexivity].
  destruct (Fs.read (w_fs w) (w_cwd w) fn) as [content|e]; [|reflexivity].
  destruct (yaml_safe_load content); reflexivity.
Qed.

Lemma LalasAPI_init_keeps dotenv_values env_path w :
  let w' := snd (LalasAPI_init dotenv_values env_path w) in
  w_fs w' = w_fs w /\ w_cwd w' = w_cwd w /\ w_sent w' = w_sent w
  /\ w_stdout w' = w_stdout w /\ w_server w' = w_server w.
Proof.
  cbv zeta. rewrite LalasAPI_init_world, load_dotenv_world.
  destruct (Fs.read (w_fs w) (w_cwd w) env_path); repeat split.
Qed.

Lemma retrieve_audio_sent self task_id conversion_type w :
  let w' := snd (retrieve_audio self task_id conversion_type w) in
  w_sent w' = w_sent w ++ [retrieval self hardcoded_task_id conversion_type]
  /\ w_fs w' = w_fs w.
Proof.
  unfold retrieve_audio, bind, send, lift, print, ret.
  fold hardcoded_task_id.
  fold (retrieval self hardcoded_task_id conversion_type).
  destruct (w_server w _) as [resp|e]; [|split; reflexivity].
  destruct (status_code resp =? 200); [|split; reflexivity].
  destruct (response_json resp); split; reflexivity.
Qed.

(** The script, once its three preparations have gone through. *)
Lemma main_prepared dotenv_values yaml_safe_load w client config prompt_path :
  fst (LalasAPI_init dotenv_values default_env_path w) = Ok client ->
  fst (Configuration_init yaml_safe_load
         (snd (LalasAPI_init dotenv_values default_env_path w))) = Ok config ->
  get_prompt_path config = Ok prompt_path ->
  main dotenv_values yaml_safe_load w
  = retrieve_audio client default_task_id default_conversion_type
      (snd (LalasAPI_init dotenv_values default_env_path w)).
Proof.
  intros Hclient Hconfig Hprompt. unfold main, bind.
  destruct (LalasAPI_init dotenv_values default_env_path w) as [r1 w1].
  cbn [fst snd] in *. subst r1.
  pose proof (Configuration_init_world yaml_safe_load w1) as Hw.
  destruct (Configuration_init yaml_safe_load w1) as [r2 w2].
  cbn [fst snd] in *. subst r2 w2.
  unfold lift. rewrite Hprompt.
  destruct (retrieve_audio client default_task_id default_conversion_type w1)
    as [[[]|e] w3]; reflexivity.
Qed.

(** X19.  Run as a script, and once the client and the configuration
    are built and the prompt path is read, the module sends exactly one
    request: the GET of [retrieve_audio] for conversion type [MUSIC_AI]
    with the identifier written in the body of [retrieve_audio], which is
    not the default of its [task_id] parameter.  The prompt path is not
    used, no file is written, and the script ends as [retrieve_audio]
    does. *)
Theorem main_sends_one_get
    (dotenv_values : string -> gmap string string)
    (yaml_safe_load : string -> result value) (w : world)
    (client : LalasAPI) (config : Configuration) (prompt_path : value) :
  fst (LalasAPI_init dotenv_values default_env_path w) = Ok client ->
  fst (Configuration_init yaml_safe_load
         (snd (LalasAPI_init dotenv_values default_env_path w))) = Ok config ->
  get_prompt_path config = Ok prompt_path ->
  let rq := retrieval client hardcoded_task_id "MUSIC_AI" in
  let res := main dotenv_values yaml_safe_load w in
  w_sent (snd res) = w_sent w ++ [rq]
  /\ query_param "task_id" rq <> Some (PyStr default_task_id)
  /\ w_fs (snd res) = w_fs w
  /\ fst res
     = fst (retrieve_audio client default_task_id "MUSIC_AI"
              (snd (LalasAPI_init dotenv_values default_env_path w))).
Proof.
  intros Hclient Hconfig Hprompt. cbv zeta.
  rewrite (main_prepared _ _ _ _ _ _ Hclient Hconfig Hprompt).
  destruct (LalasAPI_init_keeps dotenv_values default_env_path w)
    as (Hfs & _ & Hsent & _).
  destruct (retrieve_audio_sent client default_task_id default_conversion_type
              (snd (LalasAPI_init dotenv_values default_env_path w)))
    as [Hsent' Hfs'].
  unfold default_conversion_type in *.
  rewrite Hsent', Hfs', Hsent, Hfs.
  repeat split. discriminate.
Qed.

Lemma main_sends_one_get_witness :
  let res := main Sample.one_binding Sample.yaml_of_json
               (Sample.world_with 404 "not found") in
  w_sent (snd res) = [retrieval Sample.client hardcoded_task_id "MUSIC_AI"]
  /\ w_fs (snd res) = Sample.fs0.
Proof.
  destruct (main_sends_one_get Sample.one_binding Sample.yaml_of_json
              (Sample.world_with 404 "not found") Sample.client
              {| config_file := PyDict [("prompt_file", PyStr "prompt.txt")] |}
              (PyStr "prompt.txt") eq_refl eq_refl eq_refl)
    as (Hsent & _ & Hfs & _).
  split; assumption.
Defined.

(** X20.  When the client cannot be built, the configuration cannot be
    loaded, or the configuration document has no [get], the script ends
    with that error and no request has been sent, although the prompt
    path it was reading is not used by the retrieval. *)
Theorem main_fails_before_request
    (dotenv_values : string -> gmap string string)
    (yaml_safe_load : string -> result value) (w : world) (e : exn) :
  let w1 := snd (LalasAPI_init dotenv_values default_env_path w) in
  fst (LalasAPI_init dotenv_values default_env_path w) = Raise e
  \/ (exists client,
        fst (LalasAPI_init dotenv_values default_env_path w) = Ok client
        /\ (fst (Configuration_init yaml_safe_load w1) = Raise e
            \/ exists config,
                 fst (Configuration_init yaml_safe_load w1) = Ok config
                 /\ get_prompt_path config = Raise e)) ->
  fst (main dotenv_values yaml_safe_load w) = Raise e
  /\ w_sent (snd (main dotenv_values yaml_safe_load w)) = w_sent w
  /\ w_stdout (snd (main dotenv_values yaml_safe_load w)) = w_stdout w.
Proof.
  cbv zeta. intros Hfail.
  destruct (LalasAPI_init_keeps dotenv_values default_env_path w)
    as (_ & _ & Hsent & Hout & _).
  unfold main, bind.
  destruct (LalasAPI_init dotenv_values default_env_path w) as [r1 w1].
  cbn [fst snd] in *.
  destruct Hfail as [-> | (client & -> & Hfail)]; [now repeat split|].
  pose proof (Configuration_init_world yaml_safe_load w1) as Hw.
  destruct (Configuration_init yaml_safe_load w1) as [r2 w2].
  cbn [fst snd] in *. subst w2.
  destruct Hfail as [-> | (config & -> & Hprompt)]; [now repeat split|].
  unfold lift. rewrite Hprompt. now repeat split.
Qed.

Lemma main_fails_before_request_witness :
  (fst (main Sample.one_binding Sample.yaml_of_json Cases.no_config)
   = Raise (TypeError NotAPath)
   /\ w_sent (snd (main Sample.one_binding Sample.yaml_of_json
                     Cases.no_config)) = [])
  /\ (fst (main Sample.one_binding Sample.yaml_of_json Cases.list_config)
      = Raise AttributeError
      /\ w_sent (snd (main Sample.one_binding Sample.yaml_of_json
                        Cases.list_config)) = []).
Proof.
  split.
  - destruct (main_fails_before_request Sample.one_binding
                Sample.yaml_of_json Cases.no_config (TypeError NotAPath))
      as (Hres & Hsent & _); [|split; assumption].
    right. exists Sample.client. split; [reflexivity|]. left. reflexivity.
  - destruct (main_fails_before_request Sample.one_binding
                Sample.yaml_of_json Cases.list_config AttributeError)
      as (Hres & Hsent & _); [|split; assumption].
    right. exists Sample.client. split; [reflexivity|]. right.
    exists {| config_file := PyList [] |}. split; reflexivity.
Defined.

(** ** The display text, again *)

Lemma append_inv_tail (a b t : string) : a +:+ t = b +:+ t -> a = b.
Proof.
  revert b. induction a as [|c a IH]; intros [|d b] H; cbn [String.append] in H.
  - reflexivity.
  - apply (f_equal String.length) in H. cbn [String.length] in H.
    rewrite TextFacts.length_app in H. lia.
  - apply (f_equal String.length) in H. cbn [String.length] in H.
    rewrite TextFacts.length_app in H. lia.
  - injection H as -> H. f_equal. now apply IH.
Qed.

Lemma txt_format_stamp (t t' : datetime) (self : GenerateAudioResponse) :
  txt_format t self = txt_format t' self <-> strftime_iso t = strftime_iso t'.
Proof.
  unfold txt_format. split; [|now intros ->].
  intros H. do 8 apply TextFacts.app_inv_head in H.
  revert H. apply append_inv_tail.
Qed.

(** X21.  [to_txt_format] reads the clock once and changes nothing
    else; called twice on the same instance it gives two texts that are
    equal exactly when the two readings of the clock print alike, to the
    second. *)
Theorem to_txt_format_twice (self : GenerateAudioResponse) (w : world) :
  let first := to_txt_format self w in
  let second := to_txt_format self (snd first) in
  snd second = set_ticks (S (S (w_ticks w))) w
  /\ fst first = Ok (txt_format (w_clock w (w_ticks w)) self)
  /\ fst second = Ok (txt_format (w_clock w (S (w_ticks w))) self)
  /\ (fst first = fst second
      <-> strftime_iso (w_clock w (w_ticks w))
          = strftime_iso (w_clock w (S (w_ticks w)))).
Proof.
  cbv zeta. unfold to_txt_format, bind, datetime_now, ret.
  cbn [fst snd w_clock w_ticks set_ticks].
  split; [reflexivity|]. split; [reflexivity|]. split; [reflexivity|]. split.
  - intros H. apply (txt_format_stamp _ _ self).
    exact (f_equal (fun r => match r with Ok s => s | Raise _ => "" end) H).
  - intros H. f_equal. now apply txt_format_stamp.
Qed.

(** ** Saving a response where writing is refused *)

(** X22.  When the output directory is there and the text file is not
    the name of a directory, but the operating system refuses to open it
    for writing (a missing permission, a read-only file system),
    [save_response] fails with the error of [open]: the clock has been
    read once, and no file is written. *)
Theorem save_response_refused (self : LalasAPI)
    (response : GenerateAudioResponse) (output_dir : string) (w : world)
    (k : list string) (e : exn) :
  Fs.isdir (w_fs w) (w_cwd w) output_dir = true ->
  Fs.isdir (w_fs w) (w_cwd w) (saved_txt_path output_dir w) = false ->
  Fs.resolve (w_fs w) (w_cwd w) (saved_txt_path output_dir w) = Ok k ->
  w_refuses w (Fs.OpenW k) = Some e ->
  save_response self response output_dir w
  = (Raise e, set_ticks (S (w_ticks w)) w).
Proof.
  intros Hdir Htxt Hres Hno.
  pose proof (isdir_false_node _ _ _ _ Hres Htxt) as Hnodir.
  destruct (write_file _ _ _ "" _ Hres Hnodir) as [Hcreate _].
  unfold saved_txt_path, saved_base in Hcreate.
  unfold save_response, bind, os_makedirs.
  rewrite (FsFacts.makedirs_os_existing _ _ _ _ Hdir), set_fs_same.
  unfold datetime_now at 1, open_write at 1.
  cbn [w_fs w_cwd w_refuses w_clock w_ticks set_ticks].
  now rewrite Hcreate, Hno.
Qed.

Lemma save_response_refused_witness :
  save_response Sample.client Sample.queued_response "responses"
    (Cases.read_only 200 "")
  = (Raise PermissionError, set_ticks 1 (Cases.read_only 200 "")).
Proof.
  apply (save_response_refused Sample.client Sample.queued_response
           "responses" (Cases.read_only 200 "")
           ["home"; "responses"; "lalas_response_20260102_030405.txt"]
           PermissionError); vm_compute; reflexivity.
Defined.
